(** * hello-streamlit: the bench-press 100 kg challenge application

    A shallow embedding of the two Streamlit scripts of the repository,
    [FINAL_s.py] (plans requested from a chat-completion service) and
    [コード更新版_s.py] (plans computed by a formula), together with the
    properties stated about them.

    Conventions of the embedding.
    - A Python [int] is a [Z].  A Python [float] is an exact rational [Q]:
      the arithmetic of the scripts ([+], [-], [*], [/], comparisons) is
      read over the rationals, so rounding error, overflow, infinities and
      NaN of binary64 are outside the model.  Numeric equality of floats
      is [Qeq] ([==]).
    - A [datetime.date] is its proleptic ordinal, a [Z]; adding
      [timedelta(days=i)] adds [i], [timedelta(weeks=w)] adds [7 * w].
      The ISO string stored in a log is identified with that ordinal.
    - A Python [dict] used as a map is a stdpp [gmap]; the nesting
      [records[week][day][name]] is kept as it is.
    - [st.session_state] is one record, threaded explicitly through every
      function that reads or writes it.
    - The chat-completion service is outside the repository: the value a
      call returns is an input of the step that makes the call.
    - Streamlit itself is outside the repository: a widget returns the
      value the user gave it, within the bounds the script passes; the
      errors Streamlit raises on its own (two widgets with one key, a
      default outside the bounds of a number input) are not modelled. *)

From stdpp Require Import gmap strings list list_numbers pretty.
From Stdlib Require Import QArith Qround Lia Lqa.
From Stdlib Require Import Floats Uint63.

Set Warnings "-inexact-float".

Local Open Scope Z_scope.

(** ** Python primitives *)

Module Py.

(** [int(x)] on a float: truncation towards zero. *)
Definition int (q : Q) : Z := Z.quot (Qnum q) (Zpos (Qden q)).

(** [max(a, b)] on two numbers: [b] when [b > a], otherwise [a]. *)
Definition max (a b : Q) : Q := if Qle_bool b a then a else b.

(** [round(x)] with one argument: the nearest integer, ties to the even
    one. *)
Definition round (q : Q) : Z :=
  let f := Qfloor q in
  match (q - inject_Z f ?= 1 # 2)%Q with
  | Lt => f
  | Gt => f + 1
  | Eq => if Z.even f then f else f + 1
  end.

(** [range(n)]. *)
Definition range (n : Z) : list Z := seqZ 0 n.

(** [a >= b] on numbers. *)
Definition ge (a b : Q) : bool := Qle_bool b a.

(** Truthiness of a list: [if xs:]. *)
Definition truthy {A} (xs : list A) : bool :=
  match xs with [] => false | _ => true end.

End Py.

(** ** Constants *)

Definition TARGET_1RM : Z := 100.

(** ** Progress model (identical in both scripts) *)

Module ProgressModel.

(** The local [weekly_gain] of [estimate_weeks_to_target]. *)
Definition weekly_gain (sessions_per_week : Z) : Q :=
  let base_gain := (6 # 10)%Q in
  let freq_bonus := (inject_Z (sessions_per_week - 3) * (15 # 100))%Q in
  Py.max (3 # 10) (base_gain + freq_bonus)%Q.

Definition estimate_weeks_to_target (current_1rm : Q) (sessions_per_week : Z) : Z :=
  if Py.ge current_1rm (inject_Z TARGET_1RM) then 0
  else
    let weekly_gain := weekly_gain sessions_per_week in
    let need_kg := (inject_Z TARGET_1RM - current_1rm)%Q in
    let weeks := Py.int (need_kg / weekly_gain + (999 # 1000))%Q in
    Z.max 1 weeks.



(** The body of the chart code of [page_progress_and_roadmap], from the
    clamp of [target_date] to the two lists handed to the data frame. *)
Definition clamp_target_date (start_date target_date : Z) : Z :=
  if target_date <=? start_date then start_date + 1 else target_date.

Definition curve_num_days (start_date target_date : Z) : Z :=
  let num_days := target_date - start_date in
  if num_days <? 1 then 1 else num_days.

Definition ideal_dates (start_date num_days : Z) : list Z :=
  (fun i => start_date + i) <$> Py.range (num_days + 1).

(** The expression of the second list comprehension, for day [i]. *)
Definition curve_value (initial_1rm target_value : Q) (num_days i : Z) : Q :=
  (initial_1rm + (target_value - initial_1rm) * (inject_Z i / inject_Z num_days))%Q.

Definition ideal_values (initial_1rm target_value : Q) (num_days : Z) : list Q :=
  curve_value initial_1rm target_value num_days <$> Py.range (num_days + 1).

(** [df_ideal]: one row per element of the two lists.  The value the
    curve ends at is a parameter; the page passes [TARGET_1RM]. *)
Definition ideal_pace_curve (start_date : Z) (start_value : Q)
    (target_date : Z) (target_value : Q) : list (Z * Q) :=
  let target_date := clamp_target_date start_date target_date in
  let num_days := curve_num_days start_date target_date in
  zip (ideal_dates start_date num_days) (ideal_values start_value target_value num_days).

(** The curve the page draws: towards [TARGET_1RM]. *)
Definition page_ideal_curve (start_date : Z) (initial_1rm : Q) (target_date : Z) : list (Z * Q) :=
  ideal_pace_curve start_date initial_1rm target_date (inject_Z TARGET_1RM).

End ProgressModel.

(** ** The estimate over IEEE binary64

    The same function with Python's floats as they are, to evaluate the
    concrete cases without the idealisation to rationals. *)

Module Binary64.

(** An [int] operand of a float operation. *)
Definition float_of_int (z : Z) : float :=
  if z <? 0 then PrimFloat.opp (PrimFloat.of_uint63 (Uint63.of_Z (- z)))
  else PrimFloat.of_uint63 (Uint63.of_Z z).

(** [int(x)]: truncation towards zero; [None] is the exception raised on
    an infinity or a NaN. *)
Definition int (x : float) : option Z :=
  match Prim2SF x with
  | S754_zero _ => Some 0
  | S754_finite s m e =>
      let v := if 0 <=? e then Z.pos m * 2 ^ e else Z.quot (Z.pos m) (2 ^ (- e)) in
      Some (if s then - v else v)
  | _ => None
  end.

(** [math.ceil(x)] on a finite float. *)
Definition ceil (x : float) : option Z :=
  match Prim2SF x with
  | S754_zero _ => Some 0
  | S754_finite s m e =>
      if 0 <=? e then Some (if s then - (Z.pos m * 2 ^ e) else Z.pos m * 2 ^ e)
      else if s then Some (- (Z.pos m / 2 ^ (- e)))
      else Some (- ((- Z.pos m) / 2 ^ (- e)))
  | _ => None
  end.

Definition max (a b : float) : float := if PrimFloat.ltb a b then b else a.

Definition quotient (current_1rm : float) (sessions_per_week : Z) : float :=
  let base_gain := 0.6%float in
  let freq_bonus := (float_of_int (sessions_per_week - 3) * 0.15)%float in
  let weekly_gain := max 0.3 (base_gain + freq_bonus)%float in
  let need_kg := (float_of_int TARGET_1RM - current_1rm)%float in
  (need_kg / weekly_gain)%float.

Definition estimate_weeks_to_target (current_1rm : float) (sessions_per_week : Z)
    : option Z :=
  if PrimFloat.leb (float_of_int TARGET_1RM) current_1rm then Some 0
  else
    weeks ← int (quotient current_1rm sessions_per_week + 0.999)%float;
    Some (Z.max 1 weeks).

End Binary64.

(** ** The formula-driven script: [generate_week_plan] *)

Module Updated.

Local Open Scope string_scope.

(** One entry of the weekly menu: the dictionary built for every exercise. *)
Record plan_item := {
  id : string;
  session_label : string;
  name : string;
  detail : string;
  muscles : string;
}.

(** [f"{n}"] for an [int]. *)
Definition fmt (n : Z) : string := pretty n.

Definition items_for_session (week_index session : Z)
    (main_weight vol_weight tech_weight row_weight ohp_weight : Z) : list plan_item :=
  let session_label := fmt (week_index + 1) +:+ "週目・" +:+ fmt session +:+ "回目" in
  let key suffix := "w" +:+ fmt week_index +:+ "_s" +:+ fmt session +:+ suffix in
  [ {| id := key "_bench_main"; session_label := session_label;
       name := "ベンチプレス（メインセット）";
       detail := fmt main_weight +:+ "kg x 5回";
       muscles := "大胸筋・三角筋前部・上腕三頭筋・体幹・下半身（脚）" |};
    {| id := key "_bench_vol"; session_label := session_label;
       name := "ベンチプレス（ボリュームセット）";
       detail := fmt vol_weight +:+ "kg x 8回 × 3セット";
       muscles := "大胸筋・三角筋前部・上腕三頭筋・体幹・下半身（脚）" |};
    {| id := key "_bench_tech"; session_label := session_label;
       name := "ベンチプレス（フォーム練習）";
       detail := fmt tech_weight +:+ "kg x 10回 × 2セット";
       muscles := "大胸筋・三角筋前部・上腕三頭筋・体幹" |};
    {| id := key "_incline"; session_label := session_label;
       name := "インクラインダンベルプレス";
       detail := "RPE 7〜8 で 8〜10回 × 3セット";
       muscles := "大胸筋上部・三角筋前部・上腕三頭筋" |};
    {| id := key "_row"; session_label := session_label;
       name := "バーベル（またはダンベル）ローイング";
       detail := fmt row_weight +:+ "kg 相当 x 8〜10回 × 3セット";
       muscles := "広背筋・僧帽筋・三角筋後部・体幹" |};
    {| id := key "_ohp"; session_label := session_label;
       name := "ショルダープレス（バーベル or ダンベル）";
       detail := fmt ohp_weight +:+ "kg 相当 x 6〜8回 × 3セット";
       muscles := "三角筋前部・側部・上腕三頭筋・体幹" |};
    {| id := key "_triceps"; session_label := session_label;
       name := "ディップス / トライセプスエクステンション";
       detail := "自重 or 軽負荷で10〜12回 × 3セット";
       muscles := "上腕三頭筋・大胸筋下部・前腕" |};
    {| id := key "_pushup"; session_label := session_label;
       name := "プッシュアップ（腕立て伏せ）";
       detail := "限界 -2回 を目安に 2〜3セット";
       muscles := "大胸筋・三角筋前部・上腕三頭筋・体幹" |};
    {| id := key "_core"; session_label := session_label;
       name := "フロントプランク";
       detail := "40〜60秒 × 2〜3セット";
       muscles := "体幹（腹直筋・腹横筋・腹斜筋・脊柱起立筋）" |};
    {| id := key "_legs"; session_label := session_label;
       name := "ブルガリアンスクワット";
       detail := "左右各 8〜10回 × 2〜3セット";
       muscles := "下半身（大腿四頭筋・ハムストリングス・臀筋）" |} ].

(** The loop body of [generate_week_plan]: the five weights are recomputed
    from [base_1rm] in every session, then the ten items are appended. *)
Definition extend_session (week_index : Z) (base_1rm : Q)
    (plan : list plan_item) (session : Z) : list plan_item :=
  let main_weight := Py.round (base_1rm * (8 # 10))%Q in
  let vol_weight := Py.round (base_1rm * (7 # 10))%Q in
  let tech_weight := Py.round (base_1rm * (6 # 10))%Q in
  let row_weight := Py.round (base_1rm * (6 # 10))%Q in
  let ohp_weight := Py.round (base_1rm * (5 # 10))%Q in
  plan ++ items_for_session week_index session
            main_weight vol_weight tech_weight row_weight ohp_weight.

Definition generate_week_plan (current_1rm : Q) (sessions_per_week week_index : Z)
    : list plan_item :=
  let progression := (1 + inject_Z week_index * (2 # 100))%Q in
  let base_1rm := (current_1rm * progression)%Q in
  foldl (extend_session week_index base_1rm) [] (seqZ 1 sessions_per_week).

(** The block one pass of the loop appends. *)
Definition session_block (base_1rm : Q) (week_index session : Z) : list plan_item :=
  items_for_session week_index session
    (Py.round (base_1rm * (8 # 10))%Q) (Py.round (base_1rm * (7 # 10))%Q)
    (Py.round (base_1rm * (6 # 10))%Q) (Py.round (base_1rm * (6 # 10))%Q)
    (Py.round (base_1rm * (5 # 10))%Q).




End Updated.

(** ** The AI-driven script, [FINAL_s.py] *)

Module Final.

Local Open Scope string_scope.
Local Open Scope Z_scope.

(** *** Data *)

(** One exercise of a day's menu, as the JSON reply of the plan request
    gives it.  [item_is_max] is the truth value of [item.get("is_max")]
    (a missing key reads as false). *)
Record menu_item := {
  item_name : string;
  item_sets : Z;
  item_reps : Z;
  item_weight : Q;
  item_is_max : bool;
}.

Record day_plan := {
  dp_day : string;
  dp_menu : list menu_item;
}.

(** What [save] writes under [records[week][day][name]]. *)
Record record := {
  rec_weight : Z;
  rec_reps : Z;
  rec_sets : Z;
  rec_note : string;
  rec_is_max : bool;
}.

Record profile_t := {
  height : Q;
  weight : Q;
  current_1rm : Q;
  sessions_per_week : Z;
  target_weeks : Z;
  target_date : Z;
  start_date : Z;
}.

Record initial_info_t := {
  info_height : Q;
  body_weight : Q;
  current_bp : Q;
  goal_bp : Z;
  freq : Z;
  weekdays : list string;
}.

Record training_log := {
  log_date : Z;
  log_current_1rm : Q;
  log_note : string;
}.

Abbreviation week_plan_t := (list day_plan).
Abbreviation records_t := (gmap Z (gmap string (gmap string record))).

(** The keys of [st.session_state] the training cycle and the progress
    page read and write.  The protein counters, the celebration flags and
    [expanded_status] (which expander is open) are left out: no function
    below reads them. *)
Record session_state := {
  profile : option profile_t;
  training_logs : list training_log;
  initial_info : option initial_info_t;
  weekly_plan : list week_plan_t;
  records : records_t;
  current_week : Z;
  training_started : bool;
  max_test_result : Q;
  goal_achieved_pending : bool;
  max_registered_not_achieved : bool;
  day_review_done : gmap Z (gmap string bool);
  last_review : gmap Z (gmap string string);
  next_week_config_pending : bool;
}.

(** [init_state] on a fresh session. *)
Definition init_state : session_state := {|
  profile := None; training_logs := []; initial_info := None;
  weekly_plan := []; records := ∅; current_week := 1;
  training_started := false; max_test_result := 0;
  goal_achieved_pending := false; max_registered_not_achieved := false;
  day_review_done := ∅; last_review := ∅;
  next_week_config_pending := false |}.

(** Assignments to one key of the session state. *)
Definition set_profile v (s : session_state) : session_state :=
  {| profile := v; training_logs := training_logs s; initial_info := initial_info s;
     weekly_plan := weekly_plan s; records := records s; current_week := current_week s;
     training_started := training_started s; max_test_result := max_test_result s;
     goal_achieved_pending := goal_achieved_pending s;
     max_registered_not_achieved := max_registered_not_achieved s;
     day_review_done := day_review_done s; last_review := last_review s;
     next_week_config_pending := next_week_config_pending s |}.
Definition set_training_logs v (s : session_state) : session_state :=
  {| profile := profile s; training_logs := v; initial_info := initial_info s;
     weekly_plan := weekly_plan s; records := records s; current_week := current_week s;
     training_started := training_started s; max_test_result := max_test_result s;
     goal_achieved_pending := goal_achieved_pending s;
     max_registered_not_achieved := max_registered_not_achieved s;
     day_review_done := day_review_done s; last_review := last_review s;
     next_week_config_pending := next_week_config_pending s |}.
Definition set_initial_info v (s : session_state) : session_state :=
  {| profile := profile s; training_logs := training_logs s; initial_info := v;
     weekly_plan := weekly_plan s; records := records s; current_week := current_week s;
     training_started := training_started s; max_test_result := max_test_result s;
     goal_achieved_pending := goal_achieved_pending s;
     max_registered_not_achieved := max_registered_not_achieved s;
     day_review_done := day_review_done s; last_review := last_review s;
     next_week_config_pending := next_week_config_pending s |}.
Definition set_weekly_plan v (s : session_state) : session_state :=
  {| profile := profile s; training_logs := training_logs s; initial_info := initial_info s;
     weekly_plan := v; records := records s; current_week := current_week s;
     training_started := training_started s; max_test_result := max_test_result s;
     goal_achieved_pending := goal_achieved_pending s;
     max_registered_not_achieved := max_registered_not_achieved s;
     day_review_done := day_review_done s; last_review := last_review s;
     next_week_config_pending := next_week_config_pending s |}.
Definition set_records v (s : session_state) : session_state :=
  {| profile := profile s; training_logs := training_logs s; initial_info := initial_info s;
     weekly_plan := weekly_plan s; records := v; current_week := current_week s;
     training_started := training_started s; max_test_result := max_test_result s;
     goal_achieved_pending := goal_achieved_pending s;
     max_registered_not_achieved := max_registered_not_achieved s;
     day_review_done := day_review_done s; last_review := last_review s;
     next_week_config_pending := next_week_config_pending s |}.
Definition set_current_week v (s : session_state) : session_state :=
  {| profile := profile s; training_logs := training_logs s; initial_info := initial_info s;
     weekly_plan := weekly_plan s; records := records s; current_week := v;
     training_started := training_started s; max_test_result := max_test_result s;
     goal_achieved_pending := goal_achieved_pending s;
     max_registered_not_achieved := max_registered_not_achieved s;
     day_review_done := day_review_done s; last_review := last_review s;
     next_week_config_pending := next_week_config_pending s |}.
Definition set_training_started v (s : session_state) : session_state :=
  {| profile := profile s; training_logs := training_logs s; initial_info := initial_info s;
     weekly_plan := weekly_plan s; records := records s; current_week := current_week s;
     training_started := v; max_test_result := max_test_result s;
     goal_achieved_pending := goal_achieved_pending s;
     max_registered_not_achieved := max_registered_not_achieved s;
     day_review_done := day_review_done s; last_review := last_review s;
     next_week_config_pending := next_week_config_pending s |}.
Definition set_max_test_result v (s : session_state) : session_state :=
  {| profile := profile s; training_logs := training_logs s; initial_info := initial_info s;
     weekly_plan := weekly_plan s; records := records s; current_week := current_week s;
     training_started := training_started s; max_test_result := v;
     goal_achieved_pending := goal_achieved_pending s;
     max_registered_not_achieved := max_registered_not_achieved s;
     day_review_done := day_review_done s; last_review := last_review s;
     next_week_config_pending := next_week_config_pending s |}.
Definition set_goal_achieved_pending v (s : session_state) : session_state :=
  {| profile := profile s; training_logs := training_logs s; initial_info := initial_info s;
     weekly_plan := weekly_plan s; records := records s; current_week := current_week s;
     training_started := training_started s; max_test_result := max_test_result s;
     goal_achieved_pending := v;
     max_registered_not_achieved := max_registered_not_achieved s;
     day_review_done := day_review_done s; last_review := last_review s;
     next_week_config_pending := next_week_config_pending s |}.
Definition set_max_registered_not_achieved v (s : session_state) : session_state :=
  {| profile := profile s; training_logs := training_logs s; initial_info := initial_info s;
     weekly_plan := weekly_plan s; records := records s; current_week := current_week s;
     training_started := training_started s; max_test_result := max_test_result s;
     goal_achieved_pending := goal_achieved_pending s;
     max_registered_not_achieved := v;
     day_review_done := day_review_done s; last_review := last_review s;
     next_week_config_pending := next_week_config_pending s |}.
Definition set_day_review_done v (s : session_state) : session_state :=
  {| profile := profile s; training_logs := training_logs s; initial_info := initial_info s;
     weekly_plan := weekly_plan s; records := records s; current_week := current_week s;
     training_started := training_started s; max_test_result := max_test_result s;
     goal_achieved_pending := goal_achieved_pending s;
     max_registered_not_achieved := max_registered_not_achieved s;
     day_review_done := v; last_review := last_review s;
     next_week_config_pending := next_week_config_pending s |}.
Definition set_last_review v (s : session_state) : session_state :=
  {| profile := profile s; training_logs := training_logs s; initial_info := initial_info s;
     weekly_plan := weekly_plan s; records := records s; current_week := current_week s;
     training_started := training_started s; max_test_result := max_test_result s;
     goal_achieved_pending := goal_achieved_pending s;
     max_registered_not_achieved := max_registered_not_achieved s;
     day_review_done := day_review_done s; last_review := v;
     next_week_config_pending := next_week_config_pending s |}.
Definition set_next_week_config_pending v (s : session_state) : session_state :=
  {| profile := profile s; training_logs := training_logs s; initial_info := initial_info s;
     weekly_plan := weekly_plan s; records := records s; current_week := current_week s;
     training_started := training_started s; max_test_result := max_test_result s;
     goal_achieved_pending := goal_achieved_pending s;
     max_registered_not_achieved := max_registered_not_achieved s;
     day_review_done := day_review_done s; last_review := last_review s;
     next_week_config_pending := v |}.

(** Assignments to one key of the [initial_info] dictionary. *)
Definition info_set_goal_bp v (i : initial_info_t) : initial_info_t :=
  {| info_height := info_height i; body_weight := body_weight i;
     current_bp := current_bp i; goal_bp := v; freq := freq i; weekdays := weekdays i |}.
Definition info_set_freq v (i : initial_info_t) : initial_info_t :=
  {| info_height := info_height i; body_weight := body_weight i;
     current_bp := current_bp i; goal_bp := goal_bp i; freq := v; weekdays := weekdays i |}.
Definition info_set_weekdays v (i : initial_info_t) : initial_info_t :=
  {| info_height := info_height i; body_weight := body_weight i;
     current_bp := current_bp i; goal_bp := goal_bp i; freq := freq i; weekdays := v |}.
Definition profile_set_current_1rm v (p : profile_t) : profile_t :=
  {| height := height p; weight := weight p; current_1rm := v;
     sessions_per_week := sessions_per_week p; target_weeks := target_weeks p;
     target_date := target_date p; start_date := start_date p |}.

(** [xs[i]] on a list, negative indices counting from the end; [None] is
    [IndexError]. *)
Definition getitem {A} (xs : list A) (i : Z) : option A :=
  let n := Z.of_nat (length xs) in
  if 0 <=? i then xs !! Z.to_nat i
  else if - n <=? i then xs !! Z.to_nat (n + i)
  else None.

(** *** Inputs of one script run

    Streamlit runs the script from the top on every interaction; at most
    one button or form is the one that fired, and the widgets of its form
    or row carry the values typed in.  The reply of the chat-completion
    service to a request made during the run is carried along with the
    event that makes the request. *)
Inductive event :=
  | NoEvent
  | SubmitProfile (height weight current_1rm : Q) (weekdays : list string)
      (today : Z) (reply : option week_plan_t)
  | SubmitNextWeekConfig (freq_next : Z) (weekdays_next : list string)
      (reply : option week_plan_t)
  | ClickStart
  | ClickSave (day name : string) (w_input r_input s_input : Z) (note_input : string)
  | ClickFinishDay (day : string) (review_text : string)
  | ClickRestartNewGoal (new_goal : Q)
  | ClickRestartSameGoal
  | ClickNextWeekConfig
  | SubmitMaxTest (today test_date : Z) (test_1rm : Q).

(** How a page function ends: it returns and [main] goes on with the next
    tab ([Next]), or the run stops there ([Halt]): [st.rerun()] or an
    uncaught exception.  Either way the session state keeps every write
    made so far. *)
Inductive run :=
  | Next (s : session_state)
  | Halt (s : session_state).

Definition final (r : run) : session_state :=
  match r with Next s | Halt s => s end.

(** *** Logic shared by the pages *)

(** [log_training_snapshot], the definition in force while [main] runs
    (the script redefines the name only after [main()] has returned). *)
Definition log_training_snapshot (note : string) (log_date : option Z) (today : Z)
    (st : session_state) : session_state :=
  match profile st with
  | None => st
  | Some p =>
      let d := match log_date with None => today | Some d => d end in
      let log := {| log_date := d; log_current_1rm := current_1rm p; log_note := note |} in
      set_training_logs (training_logs st ++ [log]) st
  end.

(** [generate_ai_week_plan]: [None] without a client; otherwise what the
    request gives: [None] when the call or the JSON parsing raises,
    [Some p] for the list under the key "weekly_plan" ([Some []] when the
    key is missing).  The other arguments of the Python function
    ([week_num], [weekdays], [initial_info], [records], [max_bp]) only
    shape the text of the request and are left out. *)
Definition generate_ai_week_plan (client : bool) (reply : option week_plan_t)
    : option week_plan_t :=
  if client then reply else None.

(** [if new_plan:] *)
Definition plan_truthy (new_plan : option week_plan_t) : bool :=
  match new_plan with
  | Some p => Py.truthy p
  | None => false
  end.

Definition msg_missing (day name : string) : string :=
  "【" +:+ day +:+ "】" +:+ name.

(** The inner loop of [check_all_records_saved_for_day]: the first menu
    item without an entry in [recorded_data]. *)
Fixpoint first_unsaved (recorded_data : gmap string record) (menu : list menu_item)
    : option string :=
  match menu with
  | [] => None
  | item :: menu' =>
      match recorded_data !! item_name item with
      | None => Some (item_name item)
      | Some _ => first_unsaved recorded_data menu'
      end
  end.

Fixpoint check_all_records_saved_for_day (week_num : Z) (day : string)
    (week_plan : week_plan_t) (records : records_t) : bool * string :=
  let recorded_data := default ∅ (default ∅ (records !! week_num) !! day) in
  match week_plan with
  | [] => (false, "該当日がメニューに見つかりません")
  | day_plan :: week_plan' =>
      if bool_decide (dp_day day_plan = day) then
        match first_unsaved recorded_data (dp_menu day_plan) with
        | Some name => (false, msg_missing day name)
        | None => (true, "完了")
        end
      else check_all_records_saved_for_day week_num day week_plan' records
  end.

(** The two loops of [check_all_records_saved_for_week].  The accumulator
    is the pair [(max_measurement_done, max_weight)]; [inl msg] is the
    early [return False, msg]. *)
Fixpoint scan_menu (week_num : Z) (recorded_data : gmap string (gmap string record))
    (day : string) (menu : list menu_item) (acc : bool * Z) : string + bool * Z :=
  match menu with
  | [] => inr acc
  | item :: menu' =>
      match recorded_data !! day ≫= (.!! item_name item) with
      | None => inl (msg_missing day (item_name item))
      | Some r =>
          scan_menu week_num recorded_data day menu'
            (if (week_num =? 4) && item_is_max item then (true, rec_weight r) else acc)
      end
  end.

Fixpoint scan_week (week_num : Z) (recorded_data : gmap string (gmap string record))
    (week_plan : week_plan_t) (acc : bool * Z) : string + bool * Z :=
  match week_plan with
  | [] => inr acc
  | day_plan :: week_plan' =>
      match scan_menu week_num recorded_data (dp_day day_plan) (dp_menu day_plan) acc with
      | inl msg => inl msg
      | inr acc' => scan_week week_num recorded_data week_plan' acc'
      end
  end.

(** [check_all_records_saved_for_week].  The result is [None] when the
    function raises (reading ["goal_bp"] of a missing [initial_info]). *)
Definition check_all_records_saved_for_week (week_num : Z) (week_plan : week_plan_t)
    (records : records_t) (st : session_state)
    : option (bool * string) * session_state :=
  let recorded_data := default ∅ (records !! week_num) in
  match scan_week week_num recorded_data week_plan (false, 0) with
  | inl msg => (Some (false, msg), st)
  | inr (max_measurement_done, max_weight) =>
      if (week_num =? 4) && max_measurement_done then
        let st := set_max_test_result (inject_Z max_weight) st in
        match initial_info st with
        | None => (None, st)
        | Some info =>
            let goal_bp := goal_bp info in
            if Py.ge (max_test_result st) (inject_Z goal_bp) then
              (Some (true, "完了"),
               set_max_registered_not_achieved false (set_goal_achieved_pending true st))
            else
              (Some (true, "完了"),
               set_max_registered_not_achieved true (set_goal_achieved_pending false st))
        end
      else (Some (true, "完了"), st)
  end.

(** *** Page 1: [page_initial_settings] *)

Definition page_initial_settings (client : bool) (ev : event) (st : session_state)
    : session_state :=
  match ev with
  | SubmitProfile height weight current_1rm weekdays today reply =>
      if negb (Py.truthy weekdays) then st
      else
        let sessions_per_week := Z.of_nat (length weekdays) in
        let weeks := ProgressModel.estimate_weeks_to_target current_1rm sessions_per_week in
        let target_date := today + 7 * weeks in
        let st := set_profile (Some {|
          height := height; weight := weight; current_1rm := current_1rm;
          sessions_per_week := sessions_per_week; target_weeks := weeks;
          target_date := target_date; start_date := today |}) st in
        let st := log_training_snapshot "初期設定" (Some today) today st in
        let st := set_initial_info (Some {|
          info_height := height; body_weight := weight; current_bp := current_1rm;
          goal_bp := TARGET_1RM; freq := sessions_per_week; weekdays := weekdays |}) st in
        let st := set_max_test_result current_1rm st in
        let week1_plan := generate_ai_week_plan client reply in
        match week1_plan with
        | Some plan =>
            if Py.truthy plan then
              set_next_week_config_pending false
                (set_last_review ∅
                  (set_day_review_done ∅
                    (set_max_registered_not_achieved false
                      (set_goal_achieved_pending false
                        (set_training_started false
                          (set_current_week 1
                            (set_records ∅
                              (set_weekly_plan [plan] st))))))))
            else st
        | None => st
        end
  | _ => st
  end.

(** *** Page 2: [page_training_week] *)

(** Branch A, the next-week configuration form. *)
Definition next_week_config (client : bool) (ev : event) (info : initial_info_t)
    (st : session_state) : run :=
  let is_cycle_restart := current_week st =? 0 in
  let next_week_num := if is_cycle_restart then 1 else current_week st + 1 in
  match ev with
  | SubmitNextWeekConfig freq_next weekdays_next reply =>
      if negb (Z.of_nat (length weekdays_next) =? freq_next) then Next st
      else
        let info := info_set_weekdays weekdays_next (info_set_freq freq_next info) in
        let st := set_initial_info (Some info) st in
        let new_plan := generate_ai_week_plan client reply in
        match new_plan with
        | Some plan =>
            if Py.truthy plan then
              let st := set_current_week next_week_num st in
              let st :=
                if is_cycle_restart
                then set_records ∅ (set_weekly_plan [plan] st)
                else set_weekly_plan (weekly_plan st ++ [plan]) st in
              Halt
                (set_max_registered_not_achieved false
                  (set_goal_achieved_pending false
                    (set_training_started false
                      (set_next_week_config_pending false
                        (set_last_review ∅
                          (set_day_review_done ∅ st))))))
            else Next st
        | None => Next st
        end
  | _ => Next st
  end.

(** The body of [if save_btn:]. *)
Definition save_record (week_number : Z) (day : string) (item : menu_item)
    (w_input r_input s_input : Z) (note_input : string) (st : session_state)
    : session_state :=
  let by_day := default ∅ (records st !! week_number) in
  let by_name := default ∅ (by_day !! day) in
  let is_max_test := (week_number =? 4) && item_is_max item in
  let final_reps := if is_max_test then 1 else r_input in
  let final_sets := if is_max_test then 1 else s_input in
  let r := {| rec_weight := w_input; rec_reps := final_reps; rec_sets := final_sets;
              rec_note := note_input; rec_is_max := item_is_max item |} in
  set_records
    (<[week_number := <[day := <[item_name item := r]> by_name]> by_day]> (records st)) st.

(** The body of the "finish the day" button. *)
Definition complete_day_review (week_number : Z) (day review_text : string)
    (st : session_state) : session_state :=
  let reviews := default ∅ (last_review st !! week_number) in
  let st := set_last_review (<[week_number := <[day := review_text]> reviews]> (last_review st)) st in
  let done := default ∅ (day_review_done st !! week_number) in
  set_day_review_done (<[week_number := <[day := true]> done]> (day_review_done st)) st.

(** [day_review_done.get(week_number, {}).get(day, False)] *)
Definition is_day_reviewed (week_number : Z) (day : string) (st : session_state) : bool :=
  default false (default ∅ (day_review_done st !! week_number) !! day).

(** The item loop of one day: the first enabled save button whose key is
    the one that fired saves and reruns. *)
Fixpoint render_menu (week_number : Z) (day : string) (is_disabled : bool)
    (menu : list menu_item) (ev : event) (st : session_state) : option session_state :=
  match menu with
  | [] => None
  | item :: menu' =>
      match ev with
      | ClickSave d n w_input r_input s_input note_input =>
          if bool_decide (d = day) && bool_decide (n = item_name item) && negb is_disabled
          then Some (save_record week_number day item w_input r_input s_input note_input st)
          else render_menu week_number day is_disabled menu' ev st
      | _ => render_menu week_number day is_disabled menu' ev st
      end
  end.

(** The day loop; [Some st'] is a rerun requested with state [st']. *)
Fixpoint render_days (week_number : Z) (week_plan days : week_plan_t)
    (ev : event) (st : session_state) : option session_state :=
  match days with
  | [] => None
  | day_plan :: days' =>
      let day := dp_day day_plan in
      let is_day_reviewed := is_day_reviewed week_number day st in
      let is_day_fully_saved :=
        fst (check_all_records_saved_for_day week_number day week_plan (records st)) in
      match render_menu week_number day is_day_reviewed (dp_menu day_plan) ev st with
      | Some st' => Some st'
      | None =>
          match ev with
          | ClickFinishDay d review_text =>
              if is_day_fully_saved && negb is_day_reviewed && bool_decide (d = day)
              then Some (complete_day_review week_number day review_text st)
              else render_days week_number week_plan days' ev st
          | _ => render_days week_number week_plan days' ev st
          end
      end
  end.

(** The code after the day loop: the week-completion check and the
    buttons that leave the week. *)
Definition week_footer (week_number : Z) (week_plan : week_plan_t) (ev : event)
    (st : session_state) : run :=
  match check_all_records_saved_for_week week_number week_plan (records st) st with
  | (None, st) => Halt st
  | (Some (is_week_fully_recorded, _), st) =>
      let all_days_reviewed :=
        forallb (fun dp => is_day_reviewed week_number (dp_day dp) st) week_plan in
      if is_week_fully_recorded && all_days_reviewed then
        if week_number =? 4 then
          match initial_info st with
          | None => Halt st
          | Some info =>
              if goal_achieved_pending st then
                match ev with
                | ClickRestartNewGoal new_goal =>
                    Halt (set_next_week_config_pending true
                           (set_current_week 0
                             (set_initial_info
                                (Some (info_set_goal_bp (Py.int new_goal) info)) st)))
                | _ => Next st
                end
              else if max_registered_not_achieved st then
                match ev with
                | ClickRestartSameGoal =>
                    Halt (set_next_week_config_pending true (set_current_week 0 st))
                | _ => Next st
                end
              else Next st
          end
        else if week_number <? 4 then
          match ev with
          | ClickNextWeekConfig => Halt (set_next_week_config_pending true st)
          | _ => Next st
          end
        else Next st
      else Next st
  end.

Definition page_training_week (client : bool) (ev : event) (st : session_state) : run :=
  match initial_info st with
  | None => Next st
  | Some info =>
      if negb client then Next st
      else if next_week_config_pending st then next_week_config client ev info st
      else if negb (training_started st) then
        match ev with
        | ClickStart => Halt (set_training_started true st)
        | _ => Next st
        end
      else
        let week_idx := current_week st - 1 in
        let week_number := current_week st in
        if Z.of_nat (length (weekly_plan st)) <=? week_idx
        then Next (set_training_started false st)
        else
          match getitem (weekly_plan st) week_idx with
          | None => Halt st
          | Some week_plan =>
              match render_days week_number week_plan week_plan ev st with
              | Some st' => Halt st'
              | None => week_footer week_number week_plan ev st
              end
          end
  end.

(** *** Page 4: the MAX test form of [page_progress_and_roadmap] *)

Definition page_progress_and_roadmap (ev : event) (st : session_state) : run :=
  match profile st with
  | None => Next st
  | Some p =>
      match ev with
      | SubmitMaxTest today test_date test_1rm =>
          if Qle_bool test_1rm 0 then Next st
          else
            let st := set_profile (Some (profile_set_current_1rm test_1rm p)) st in
            Halt (log_training_snapshot "MAXテストで更新" (Some test_date) today st)
      | _ => Next st
      end
  end.

(** *** [main]: the tabs in order, for one run *)

Definition main (client : bool) (ev : event) (st : session_state) : session_state :=
  let st := page_initial_settings client ev st in
  match page_training_week client ev st with
  | Halt st => st
  | Next st => final (page_progress_and_roadmap ev st)
  end.

(** A session: the runs of [main] for a list of inputs, oldest first. *)
Definition session (client : bool) (evs : list event) (st : session_state) : session_state :=
  foldl (fun st ev => main client ev st) st evs.

(** *** Predicates used by the statements *)

(** [records[week][day][name]] *)
Definition lookup_record (week : Z) (day name : string) (rs : records_t) : option record :=
  by_day ← rs !! week; by_name ← (by_day : gmap string (gmap string record)) !! day;
  (by_name : gmap string record) !! name.

(** Every item of the menu has a record under [(week, day)]. *)
Definition menu_recorded (week : Z) (day : string) (menu : list menu_item)
    (rs : records_t) : bool :=
  forallb (fun item => bool_decide (is_Some (lookup_record week day (item_name item) rs))) menu.

(** Every item of every day of the plan has a record. *)
Definition week_recorded (week : Z) (plan : week_plan_t) (rs : records_t) : bool :=
  forallb (fun dp => menu_recorded week (dp_day dp) (dp_menu dp) rs) plan.

(** The occurrences [(day, item)] of the plan, in the order the loops
    visit them. *)
Definition plan_items (plan : week_plan_t) : list (string * menu_item) :=
  dp ← plan; (fun item => (dp_day dp, item)) <$> dp_menu dp.


(** The record of an occurrence in [recorded_data = records[week]]. *)
Definition recorded_in (recorded_data : gmap string (gmap string record))
    (di : string * menu_item) : option record :=
  recorded_data !! di.1 ≫= (.!! item_name di.2).

(** The two loops of the week check, run over the flattened plan. *)
Fixpoint scan_items (week_num : Z) (recorded_data : gmap string (gmap string record))
    (items : list (string * menu_item)) (acc : bool * Z) : string + bool * Z :=
  match items with
  | [] => inr acc
  | di :: items' =>
      match recorded_in recorded_data di with
      | None => inl (msg_missing di.1 (item_name di.2))
      | Some r =>
          scan_items week_num recorded_data items'
            (if (week_num =? 4) && item_is_max di.2 then (true, rec_weight r) else acc)
      end
  end.

Definition is_recorded (recorded_data : gmap string (gmap string record))
    (di : string * menu_item) : bool :=
  bool_decide (is_Some (recorded_in recorded_data di)).

(** The accumulator after a complete pass of the two loops: in week 4,
    the weight recorded for the last max-test occurrence. *)
Definition scan_result (week_num : Z) (recorded_data : gmap string (gmap string record))
    (items : list (string * menu_item)) (acc : bool * Z) : bool * Z :=
  if week_num =? 4 then
    match last (filter (fun di => item_is_max di.2 = true) items)
          ≫= recorded_in recorded_data with
    | Some r => (true, rec_weight r)
    | None => acc
    end
  else acc.

(** The max-test occurrences of the plan, in loop order. *)
Definition max_items (plan : week_plan_t) : list (string * menu_item) :=
  filter (fun di => item_is_max di.2 = true) (plan_items plan).

(** The last max-test occurrence of the plan, if any. *)
Definition last_max_item (plan : week_plan_t) : option (string * menu_item) :=
  last (max_items plan).

(** The first day plan of the week carrying the label [day]. *)
Definition day_plan_of (day : string) (plan : week_plan_t) : option day_plan :=
  List.find (fun dp => bool_decide (dp_day dp = day)) plan.

(** The keys no part of [page_training_week] writes. *)
Definition same_profile_and_logs (st st' : session_state) : Prop :=
  profile st' = profile st /\ training_logs st' = training_logs st.

(** The keys the week check and the buttons after it leave alone. *)
Definition same_cycle_data (st st' : session_state) : Prop :=
  records st' = records st /\ weekly_plan st' = weekly_plan st
  /\ day_review_done st' = day_review_done st /\ last_review st' = last_review st
  /\ training_started st' = training_started st.

(** The two review maps are as before. *)
Definition same_reviews (st st' : session_state) : Prop :=
  day_review_done st' = day_review_done st /\ last_review st' = last_review st.

(** The two review maps have been emptied. *)
Definition no_reviews (st' : session_state) : Prop :=
  day_review_done st' = ∅ /\ last_review st' = ∅.

(** *** A sample session

    The states of the concrete cases are reached from [init_state] by
    runs of [main]; a [NoEvent] run is the rerun that follows a button. *)

(** A max test the reply plans with 5 reps and 3 sets although asked
    for 1 and 1: the two disabled inputs then show 5 and 3. *)
Definition bench_max : menu_item :=
  {| item_name := "ベンチプレス"; item_sets := 3; item_reps := 5;
     item_weight := 100; item_is_max := true |}.

Definition incline_max : menu_item :=
  {| item_name := "インクラインプレス"; item_sets := 1; item_reps := 1;
     item_weight := 80; item_is_max := true |}.

Definition row : menu_item :=
  {| item_name := "ベントオーバーロー"; item_sets := 3; item_reps := 8;
     item_weight := 60; item_is_max := false |}.

(** A week of one day with one ordinary item. *)
Definition plain_plan : week_plan_t :=
  [ {| dp_day := "月"; dp_menu := [row] |} ].

(** A week-4 plan with one max test. *)
Definition one_max_plan : week_plan_t :=
  [ {| dp_day := "月"; dp_menu := [bench_max; row] |} ].

(** A week-4 plan in which the reply marks two items as max tests. *)
Definition two_max_plan : week_plan_t :=
  [ {| dp_day := "月"; dp_menu := [bench_max; incline_max] |} ].

(** A first-week plan for the next cycle. *)
Definition next_cycle_plan : week_plan_t :=
  [ {| dp_day := "火"; dp_menu := [row] |} ].

Definition save_row : event := ClickSave "月" "ベントオーバーロー" 60 8 3 "".
Definition save_bench (w : Z) : event := ClickSave "月" "ベンチプレス" w 5 3 "".
Definition save_incline (w : Z) : event := ClickSave "月" "インクラインプレス" w 1 1 "".

(** The profile form: 80 kg now, one session a week on Monday, filled
    in on day 739000. *)
Definition submit_profile : list event :=
  [SubmitProfile 170 70 80 ["月"] 739000 (Some plain_plan); NoEvent].

(** One plain week: start, save, finish the day, ask for the next week. *)
Definition train_plain_week : list event :=
  [ClickStart; NoEvent; save_row; NoEvent; ClickFinishDay "月" "good"; NoEvent;
   ClickNextWeekConfig; NoEvent].

Definition configure (plan : week_plan_t) : list event :=
  [SubmitNextWeekConfig 1 ["月"] (Some plan); NoEvent].

(** Three plain weeks, then week 4 with the plan [plan4], started. *)
Definition to_week4 (plan4 : week_plan_t) : list event :=
  submit_profile
  ++ train_plain_week ++ configure plain_plan
  ++ train_plain_week ++ configure plain_plan
  ++ train_plain_week ++ configure plan4
  ++ [ClickStart; NoEvent].

(** Week 1 is done and the configuration of week 2 is open. *)
Definition config_pending_state : session_state :=
  session true (submit_profile ++ train_plain_week) init_state.

(** Week 4 with one max test: only the ordinary item is saved. *)
Definition week4_row_saved : session_state :=
  session true (to_week4 one_max_plan ++ [save_row; NoEvent]) init_state.

(** Week 4 with one max test: 102 kg entered with 5 reps and 3 sets, then
    the ordinary item; the last save has just been written. *)
Definition week4_saved : session_state :=
  session true (to_week4 one_max_plan ++ [save_bench 102; NoEvent; save_row]) init_state.

(** Week 4 with two max tests, saved at 90 kg and 110 kg. *)
Definition week4_two_saved : session_state :=
  session true (to_week4 two_max_plan ++ [save_bench 90; NoEvent; save_incline 110])
    init_state.

(** The end of the cycle: week 4 saved and reviewed. *)
Definition cycle_end_state : session_state :=
  session true
    (to_week4 one_max_plan
     ++ [save_bench 102; NoEvent; save_row; NoEvent; ClickFinishDay "月" "good"; NoEvent])
    init_state.

End Final.

(** ** The progress page: achievement date, gauge and roadmap
    (the same code in both scripts) *)

Module Roadmap.

Import Final.
Local Open Scope string_scope.
Local Open Scope Z_scope.

(** [min(a, b)] on two numbers: [b] when [b < a], otherwise [a]. *)
Definition py_min (a b : Q) : Q := if Qle_bool a b then a else b.

(** [sorted(logs, key=lambda x: x["date"])]: Python's sort is stable, so
    a log goes in front of the logs of the same date that follow it. *)
Fixpoint insert_by_date (log : training_log) (sorted : list training_log)
    : list training_log :=
  match sorted with
  | [] => [log]
  | log' :: sorted' =>
      if log_date log <=? log_date log' then log :: sorted
      else log' :: insert_by_date log sorted'
  end.

Definition sorted_by_date (logs : list training_log) : list training_log :=
  foldr insert_by_date [] logs.

(** The dates of a list of logs ascend. *)
Fixpoint dates_ascend (logs : list training_log) : Prop :=
  match logs with
  | [] => True
  | log :: logs' =>
      Forall (fun log' => log_date log <= log_date log') logs' /\ dates_ascend logs'
  end.

(** The test of the loop of [get_first_100kg_date]. *)
Definition reaches_target (log : training_log) : bool :=
  Py.ge (log_current_1rm log) (inject_Z TARGET_1RM).

Definition get_first_100kg_date (st : session_state) : option Z :=
  let logs := training_logs st in
  if negb (Py.truthy logs) then None
  else
    let sorted_logs := sorted_by_date logs in
    log_date <$> List.find reaches_target sorted_logs.

(** The value handed to [st.progress] by [page_progress_and_roadmap]. *)
Definition progress_ratio (current_1rm : Q) : Q :=
  if 0 <? TARGET_1RM then py_min (current_1rm / inject_Z TARGET_1RM) 1 else 0.

Definition milestones : list (Z * string) :=
  [ (60, "ビギナー脱出"); (70, "フォームを固めるフェーズ"); (80, "中級レベルへの入口");
    (90, "90kgチャレンジャー"); (95, "100kg目前ゾーン"); (100, "100kgクラブ") ].

(** The loop over the milestones: for each one, [reached] and the weight. *)
Definition roadmap (current_1rm : Q) : list (bool * Z) :=
  (fun m => (Py.ge current_1rm (inject_Z m.1), m.1)) <$> milestones.

(** The condition under which the page shows the 100 kg banner. *)
Definition shows_banner (current_1rm : Q) : bool :=
  Py.ge current_1rm (inject_Z TARGET_1RM).

(** The dates of the profile fit together. *)
Definition profile_dated (st : session_state) : Prop :=
  match profile st with
  | None => True
  | Some p =>
      target_date p = start_date p + 7 * target_weeks p
      /\ 0 <= target_weeks p
      /\ 1 <= sessions_per_week p
  end.

(** The last log carries the benchmark of the profile. *)
Definition log_follows_profile (st : session_state) : Prop :=
  match profile st with
  | None => True
  | Some p =>
      exists log, last (training_logs st) = Some log
                  /\ log_current_1rm log = current_1rm p
  end.

End Roadmap.

(** ** Invariants of the training cycle of [FINAL_s.py] *)

Module Cycle.

Import Final.
Local Open Scope Z_scope.

(** The week index is one of 1 to 4, except for the sentinel 0 that
    stands for an acknowledged cycle end, during which the configuration
    step is open; the configuration step is never open in week 4. *)
Definition week_index_ok (st : session_state) : Prop :=
  0 <= current_week st <= 4
  /\ (current_week st = 0 -> next_week_config_pending st = true)
  /\ (next_week_config_pending st = true -> current_week st < 4).

(** There is one plan per week up to the current one, once a first plan
    exists. *)
Definition plans_ok (st : session_state) : Prop :=
  (weekly_plan st = [] /\ next_week_config_pending st = false)
  \/ current_week st = 0
  \/ Z.of_nat (length (weekly_plan st)) = current_week st.

(** Every record belongs to an item of the plan of its week. *)
Definition records_planned (st : session_state) : Prop :=
  forall week day name r,
    lookup_record week day name (records st) = Some r ->
    1 <= week
    /\ exists plan dp item,
         weekly_plan st !! Z.to_nat (week - 1) = Some plan
         /\ dp ∈ plan /\ dp_day dp = day
         /\ item ∈ dp_menu dp /\ item_name item = name
         /\ rec_is_max r = item_is_max item
         /\ (week = 4 -> item_is_max item = true -> rec_reps r = 1 /\ rec_sets r = 1).

(** Every reviewed day is a day of the plan of its week with all its
    items recorded. *)
Definition reviews_recorded (st : session_state) : Prop :=
  forall week day,
    is_day_reviewed week day st = true ->
    1 <= week
    /\ exists plan dp,
         weekly_plan st !! Z.to_nat (week - 1) = Some plan
         /\ day_plan_of day plan = Some dp
         /\ menu_recorded week day (dp_menu dp) (records st) = true.

Definition cycle_invariant (st : session_state) : Prop :=
  week_index_ok st /\ plans_ok st /\ records_planned st /\ reviews_recorded st.

(** The keys a run of [page_training_week] leaves alone when it only
    refreshes the benchmark, the two goal flags and the started flag. *)
Definition same_cycle (st st' : session_state) : Prop :=
  records st' = records st /\ weekly_plan st' = weekly_plan st
  /\ day_review_done st' = day_review_done st /\ last_review st' = last_review st
  /\ current_week st' = current_week st
  /\ next_week_config_pending st' = next_week_config_pending st
  /\ initial_info st' = initial_info st.

(** What one run of [page_training_week] can do to the session state,
    by the branch that writes. *)
Inductive training_step (ev : event) (st st' : session_state) : Prop :=
  | step_refresh :
      same_cycle st st' ->
      training_step ev st st'
  | step_config_failed (freq_next : Z) (weekdays_next : list string)
        (reply : option week_plan_t) :
      ev = SubmitNextWeekConfig freq_next weekdays_next reply ->
      next_week_config_pending st = true ->
      records st' = records st -> weekly_plan st' = weekly_plan st ->
      day_review_done st' = day_review_done st -> last_review st' = last_review st ->
      current_week st' = current_week st ->
      next_week_config_pending st' = true ->
      training_step ev st st'
  | step_config_restart (freq_next : Z) (weekdays_next : list string)
        (plan : week_plan_t) :
      ev = SubmitNextWeekConfig freq_next weekdays_next (Some plan) ->
      next_week_config_pending st = true -> current_week st = 0 ->
      plan <> [] ->
      records st' = ∅ -> weekly_plan st' = [plan] -> no_reviews st' ->
      current_week st' = 1 -> next_week_config_pending st' = false ->
      training_started st' = false ->
      training_step ev st st'
  | step_config_next (freq_next : Z) (weekdays_next : list string)
        (plan : week_plan_t) :
      ev = SubmitNextWeekConfig freq_next weekdays_next (Some plan) ->
      next_week_config_pending st = true -> current_week st <> 0 ->
      plan <> [] ->
      records st' = records st -> weekly_plan st' = weekly_plan st ++ [plan] ->
      no_reviews st' ->
      current_week st' = current_week st + 1 -> next_week_config_pending st' = false ->
      training_started st' = false ->
      training_step ev st st'
  | step_save (plan : week_plan_t) (dp : day_plan) (item : menu_item)
        (w_input r_input s_input : Z) (note_input : string) :
      next_week_config_pending st = false ->
      (Z.of_nat (length (weekly_plan st)) <=? current_week st - 1) = false ->
      getitem (weekly_plan st) (current_week st - 1) = Some plan ->
      ev = ClickSave (dp_day dp) (item_name item) w_input r_input s_input note_input ->
      dp ∈ plan -> item ∈ dp_menu dp ->
      is_day_reviewed (current_week st) (dp_day dp) st = false ->
      st' = save_record (current_week st) (dp_day dp) item
              w_input r_input s_input note_input st ->
      training_step ev st st'
  | step_review (plan : week_plan_t) (dp : day_plan) (review_text : string) :
      next_week_config_pending st = false ->
      (Z.of_nat (length (weekly_plan st)) <=? current_week st - 1) = false ->
      getitem (weekly_plan st) (current_week st - 1) = Some plan ->
      ev = ClickFinishDay (dp_day dp) review_text ->
      dp ∈ plan ->
      (check_all_records_saved_for_day (current_week st) (dp_day dp) plan (records st)).1
      = true ->
      is_day_reviewed (current_week st) (dp_day dp) st = false ->
      st' = complete_day_review (current_week st) (dp_day dp) review_text st ->
      training_step ev st st'
  | step_leave (plan : week_plan_t) :
      next_week_config_pending st = false ->
      (Z.of_nat (length (weekly_plan st)) <=? current_week st - 1) = false ->
      getitem (weekly_plan st) (current_week st - 1) = Some plan ->
      week_recorded (current_week st) plan (records st) = true ->
      forallb (fun dp => is_day_reviewed (current_week st) (dp_day dp) st) plan = true ->
      records st' = records st -> weekly_plan st' = weekly_plan st ->
      day_review_done st' = day_review_done st -> last_review st' = last_review st ->
      next_week_config_pending st' = true ->
      (ev = ClickNextWeekConfig /\ current_week st < 4
       /\ current_week st' = current_week st
       \/ (ev = ClickRestartSameGoal \/ exists g, ev = ClickRestartNewGoal g)
          /\ current_week st = 4 /\ current_week st' = 0) ->
      training_step ev st st'.

End Cycle.

(** ** The identifiers and the weights of the generated plan *)

Module PlanIds.

Import Updated.
Local Open Scope string_scope.

(** The character that separates the parts of an identifier, [_]. *)
Definition underscore : Ascii.ascii :=
  Ascii.Ascii true true true true true false true false.

(** The character [c] does not occur in [s]. *)
Fixpoint free_of (c : Ascii.ascii) (s : string) : Prop :=
  match s with
  | EmptyString => True
  | String a s' => a <> c /\ free_of c s'
  end.

(** The ten suffixes of the identifiers, in the order of the list
    literal of [generate_week_plan]. *)
Definition suffixes : list string :=
  [ "_bench_main"; "_bench_vol"; "_bench_tech"; "_incline"; "_row"; "_ohp";
    "_triceps"; "_pushup"; "_core"; "_legs" ].

(** [f"w{week_index}_s{session}{suffix}"] *)
Definition item_key (week_index session : Z) (suffix : string) : string :=
  "w" +:+ fmt week_index +:+ "_s" +:+ fmt session +:+ suffix.

(** The benchmark of the week, the local [base_1rm] of
    [generate_week_plan]. *)
Definition base_1rm (current_1rm : Q) (week_index : Z) : Q :=
  (current_1rm * (1 + inject_Z week_index * (2 # 100)))%Q.

(** The five weights the loop body computes from [base_1rm]. *)
Definition main_weight (base_1rm : Q) : Z := Py.round (base_1rm * (8 # 10))%Q.
Definition vol_weight (base_1rm : Q) : Z := Py.round (base_1rm * (7 # 10))%Q.
Definition tech_weight (base_1rm : Q) : Z := Py.round (base_1rm * (6 # 10))%Q.
Definition row_weight (base_1rm : Q) : Z := Py.round (base_1rm * (6 # 10))%Q.
Definition ohp_weight (base_1rm : Q) : Z := Py.round (base_1rm * (5 # 10))%Q.

End PlanIds.

(** ** The protein page (the same code in both scripts) *)

Module Protein.

Import Roadmap.
Local Open Scope Q_scope.

(** The keys of [st.session_state] the protein page reads and writes. *)
Record protein_state := {
  protein_goal : Q;
  protein_today : Q;
  protein_celebrated_date : option Z;
}.

(** [init_state] on a fresh session. *)
Definition init_protein : protein_state :=
  {| protein_goal := 0; protein_today := 0; protein_celebrated_date := None |}.

Definition set_protein_goal v (s : protein_state) : protein_state :=
  {| protein_goal := v; protein_today := protein_today s;
     protein_celebrated_date := protein_celebrated_date s |}.
Definition set_protein_today v (s : protein_state) : protein_state :=
  {| protein_goal := protein_goal s; protein_today := v;
     protein_celebrated_date := protein_celebrated_date s |}.
Definition set_protein_celebrated_date v (s : protein_state) : protein_state :=
  {| protein_goal := protein_goal s; protein_today := protein_today s;
     protein_celebrated_date := v |}.

(** The button of the page that fired in a run, with the value of its
    input: the amount typed in, or what the request for an uploaded
    photo gives ([None] when the call or the parsing of the answer
    raises). *)
Inductive protein_event :=
  | NoClick
  | ClickAdd (manual_amount : Q)
  | ClickEstimate (reply : option Q)
  | ClickReset.

Definition estimate_protein_from_image (client : bool) (reply : option Q) : Q :=
  if negb client then 0
  else
    match reply with
    | Some grams => Py.max 0 grams
    | None => 0
    end.

(** What the page shows below the inputs. *)
Record protein_view := {
  ratio : Q;
  goal_reached : bool;
  balloons : bool;
}.

(** [page_protein]; [weight] is [profile["weight"]], [None] without a
    profile.  The view is [None] when the page returns early. *)
Definition page_protein (client : bool) (weight : option Q) (today : Z)
    (ev : protein_event) (s : protein_state) : protein_state * option protein_view :=
  match weight with
  | None => (s, None)
  | Some weight =>
      let s := if Qle_bool (protein_goal s) 0 then set_protein_goal (weight * 2) s else s in
      let goal := protein_goal s in
      let s :=
        match ev with
        | ClickAdd manual_amount => set_protein_today (protein_today s + manual_amount) s
        | ClickEstimate reply =>
            let grams := estimate_protein_from_image client reply in
            if negb (Qle_bool grams 0) then set_protein_today (protein_today s + grams) s
            else s
        | _ => s
        end in
      let consumed := protein_today s in
      let goal_positive := negb (Qle_bool goal 0) in
      let ratio := if goal_positive then py_min (consumed / goal) 1 else 0 in
      let reached := Py.ge consumed goal && goal_positive in
      let balloons :=
        reached && negb (bool_decide (protein_celebrated_date s = Some today)) in
      let s := if balloons then set_protein_celebrated_date (Some today) s else s in
      let s := match ev with ClickReset => set_protein_today 0 s | _ => s end in
      (s, Some {| ratio := ratio; goal_reached := reached; balloons := balloons |})
  end.

(** The two writes of [page_initial_settings] on an accepted profile. *)
Definition profile_submitted (weight : Q) (s : protein_state) : protein_state :=
  set_protein_today 0 (set_protein_goal (weight * 2) s).

(** What can happen to the protein keys in one run of the script. *)
Inductive protein_input :=
  | ProfileSubmitted (weight : Q)
  | ProteinPage (weight : option Q) (ev : protein_event).

Definition protein_step (client : bool) (today : Z) (s : protein_state)
    (i : protein_input) : protein_state :=
  match i with
  | ProfileSubmitted weight => profile_submitted weight s
  | ProteinPage weight ev => (page_protein client weight today ev s).1
  end.

(** The runs of one day, oldest first. *)
Definition protein_day (client : bool) (today : Z) (inputs : list protein_input)
    (s : protein_state) : protein_state :=
  foldl (protein_step client today) s inputs.

(** The amount a button adds is what its input allows: the number input
    of the add button has [min_value=0.0]. *)
Definition within_bounds (ev : protein_event) : Prop :=
  match ev with
  | ClickAdd manual_amount => 0 <= manual_amount
  | _ => True
  end.

End Protein.

(** ** The formula-driven script: the session state and its pages *)

Module UpdatedApp.

Import Updated.
Local Open Scope string_scope.
Local Open Scope Z_scope.

Record profile_t := {
  height : Q;
  weight : Q;
  current_1rm : Q;
  sessions_per_week : Z;
  target_weeks : Z;
  target_date : Z;
  start_date : Z;
}.

Record training_log := {
  log_date : Z;
  log_week_index : Z;
  log_current_1rm : Q;
  log_note : string;
}.

(** The keys of [st.session_state] the first, second and fourth page
    read and write; an empty [profile] dictionary is [None]. *)
Record app_state := {
  profile : option profile_t;
  week_plan : list plan_item;
  workout_done : gmap string bool;
  current_week_index : Z;
  show_week_summary : bool;
  celebrated_this_week : bool;
  training_logs : list training_log;
}.

Definition init_state : app_state := {|
  profile := None; week_plan := []; workout_done := ∅; current_week_index := 0;
  show_week_summary := false; celebrated_this_week := false; training_logs := [] |}.

Definition set_profile v (s : app_state) : app_state :=
  {| profile := v; week_plan := week_plan s; workout_done := workout_done s;
     current_week_index := current_week_index s;
     show_week_summary := show_week_summary s;
     celebrated_this_week := celebrated_this_week s; training_logs := training_logs s |}.
Definition set_week_plan v (s : app_state) : app_state :=
  {| profile := profile s; week_plan := v; workout_done := workout_done s;
     current_week_index := current_week_index s;
     show_week_summary := show_week_summary s;
     celebrated_this_week := celebrated_this_week s; training_logs := training_logs s |}.
Definition set_workout_done v (s : app_state) : app_state :=
  {| profile := profile s; week_plan := week_plan s; workout_done := v;
     current_week_index := current_week_index s;
     show_week_summary := show_week_summary s;
     celebrated_this_week := celebrated_this_week s; training_logs := training_logs s |}.
Definition set_current_week_index v (s : app_state) : app_state :=
  {| profile := profile s; week_plan := week_plan s; workout_done := workout_done s;
     current_week_index := v;
     show_week_summary := show_week_summary s;
     celebrated_this_week := celebrated_this_week s; training_logs := training_logs s |}.
Definition set_show_week_summary v (s : app_state) : app_state :=
  {| profile := profile s; week_plan := week_plan s; workout_done := workout_done s;
     current_week_index := current_week_index s;
     show_week_summary := v;
     celebrated_this_week := celebrated_this_week s; training_logs := training_logs s |}.
Definition set_celebrated_this_week v (s : app_state) : app_state :=
  {| profile := profile s; week_plan := week_plan s; workout_done := workout_done s;
     current_week_index := current_week_index s;
     show_week_summary := show_week_summary s;
     celebrated_this_week := v; training_logs := training_logs s |}.
Definition set_training_logs v (s : app_state) : app_state :=
  {| profile := profile s; week_plan := week_plan s; workout_done := workout_done s;
     current_week_index := current_week_index s;
     show_week_summary := show_week_summary s;
     celebrated_this_week := celebrated_this_week s; training_logs := v |}.

Definition profile_set_current_1rm v (p : profile_t) : profile_t :=
  {| height := height p; weight := weight p; current_1rm := v;
     sessions_per_week := sessions_per_week p; target_weeks := target_weeks p;
     target_date := target_date p; start_date := start_date p |}.
Definition profile_set_sessions_per_week v (p : profile_t) : profile_t :=
  {| height := height p; weight := weight p; current_1rm := current_1rm p;
     sessions_per_week := v; target_weeks := target_weeks p;
     target_date := target_date p; start_date := start_date p |}.

(** [round(x, 1)]: the nearest multiple of one tenth, ties to the even
    one. *)
Definition round1 (q : Q) : Q := (inject_Z (Py.round (q * 10)) / 10)%Q.

(** The button or form that fired in a run, with the values of its
    inputs. *)
Inductive event :=
  | NoEvent
  | SubmitProfile (height weight current_1rm : Q) (sessions_per_week : Z) (today : Z)
  | ClickReview
  | ClickNextWeek (next_sessions : Z) (today : Z)
  | SubmitMaxTest (today test_date : Z) (test_1rm : Q).

(** The values a run reads from its inputs are within the bounds the
    script gives to the two session counts. *)
Definition within_bounds (ev : event) : Prop :=
  match ev with
  | SubmitProfile _ _ _ sessions_per_week _ => 1 <= sessions_per_week <= 7
  | ClickNextWeek next_sessions _ => 1 <= next_sessions <= 7
  | _ => True
  end.

Definition log_training_snapshot (note : string) (log_date : option Z) (today : Z)
    (s : app_state) : app_state :=
  match profile s with
  | None => s
  | Some p =>
      let d := match log_date with None => today | Some d => d end in
      let log := {| log_date := d; log_week_index := current_week_index s;
                    log_current_1rm := current_1rm p; log_note := note |} in
      set_training_logs (training_logs s ++ [log]) s
  end.

Definition page_initial_settings (ev : event) (s : app_state) : app_state :=
  match ev with
  | SubmitProfile height weight current_1rm sessions_per_week today =>
      let weeks := ProgressModel.estimate_weeks_to_target current_1rm sessions_per_week in
      let target_date := today + 7 * weeks in
      let s := set_profile (Some {|
        height := height; weight := weight; current_1rm := current_1rm;
        sessions_per_week := sessions_per_week; target_weeks := weeks;
        target_date := target_date; start_date := today |}) s in
      let s := set_current_week_index 0 s in
      let week_plan := generate_week_plan current_1rm sessions_per_week 0 in
      let s := set_week_plan week_plan s in
      let s := set_workout_done ∅ s in
      let s := set_show_week_summary false s in
      let s := set_celebrated_this_week false s in
      log_training_snapshot "初期設定" (Some today) today s
  | _ => s
  end.

(** The checkbox loop: every item of the plan gets the value of its
    checkbox.  The loop visits the items grouped by session label; each
    write depends on the identifier alone, so the order does not show in
    the result. *)
Definition tick_all (ticks : string -> bool) (week_plan : list plan_item)
    (done : gmap string bool) : gmap string bool :=
  foldl (fun done item => <[id item := ticks (id item)]> done) done week_plan.

Definition done_count (week_plan : list plan_item) (done : gmap string bool) : Z :=
  Z.of_nat (length (filter (fun item => default false (done !! id item) = true) week_plan)).

Definition success_rate (week_plan : list plan_item) (done : gmap string bool) : Q :=
  let total := Z.of_nat (length week_plan) in
  if 0 <? total then (inject_Z (done_count week_plan done) / inject_Z total)%Q else 0%Q.

(** The body of the button that creates the menu of the next week. *)
Definition create_next_week (success_rate : Q) (next_sessions today : Z) (p : profile_t)
    (s : app_state) : app_state :=
  let current_1rm := current_1rm p in
  let new_1rm_for_profile := (current_1rm * (1 + success_rate * (2 # 100)))%Q in
  let training_1rm_for_plan := new_1rm_for_profile in
  let p := profile_set_sessions_per_week next_sessions
             (profile_set_current_1rm (round1 new_1rm_for_profile) p) in
  let s := set_profile (Some p) s in
  let s := set_current_week_index (current_week_index s + 1) s in
  let next_week_index := current_week_index s in
  let new_week_plan := generate_week_plan training_1rm_for_plan next_sessions next_week_index in
  let s := set_week_plan new_week_plan s in
  let s := set_workout_done ∅ s in
  let s := set_show_week_summary false s in
  let s := set_celebrated_this_week false s in
  log_training_snapshot "通常週" None today s.

(** [page_training_week]: the state it leaves and whether it asked for a
    rerun.  [ticks] gives the value of the checkbox of each item. *)
Definition page_training_week (ticks : string -> bool) (ev : event) (s : app_state)
    : app_state * bool :=
  match profile s with
  | None => (s, false)
  | Some _ =>
      if negb (Py.truthy (week_plan s)) then (s, false)
      else
        let week_plan := week_plan s in
        let s := set_workout_done (tick_all ticks week_plan (workout_done s)) s in
        let success_rate := success_rate week_plan (workout_done s) in
        let s := match ev with ClickReview => set_show_week_summary true s | _ => s end in
        if show_week_summary s then
          let s :=
            if Py.ge success_rate 1 && negb (celebrated_this_week s)
            then set_celebrated_this_week true s else s in
          match ev, profile s with
          | ClickNextWeek next_sessions today, Some p =>
              (create_next_week success_rate next_sessions today p s, true)
          | _, _ => (s, false)
          end
        else (s, false)
  end.

(** The MAX test form of [page_progress_and_roadmap]. *)
Definition page_progress_and_roadmap (ev : event) (s : app_state) : app_state :=
  match profile s with
  | None => s
  | Some p =>
      match ev with
      | SubmitMaxTest today test_date test_1rm =>
          if Qle_bool test_1rm 0 then s
          else
            let s := set_profile (Some (profile_set_current_1rm test_1rm p)) s in
            log_training_snapshot "MAXテストで更新" (Some test_date) today s
      | _ => s
      end
  end.

(** One run of the script: the tabs in order; a rerun asked for by the
    training page ends the run there.  The protein page, between the
    training page and the progress page, touches the protein keys only
    (module [Protein]). *)
Definition main (ticks : string -> bool) (ev : event) (s : app_state) : app_state :=
  let s := page_initial_settings ev s in
  match page_training_week ticks ev s with
  | (s, true) => s
  | (s, false) => page_progress_and_roadmap ev s
  end.

(** A session: the runs of [main], oldest first, each with the values of
    its checkboxes and the input that fired. *)
Definition session (runs : list ((string -> bool) * event)) (s : app_state) : app_state :=
  foldl (fun s r => main r.1 r.2 s) s runs.

(** The plan on display is the one generated for the profile's session
    count and the current week index, and only its items are ticked. *)
Definition plan_fits (s : app_state) : Prop :=
  0 <= current_week_index s
  /\ (forall i, is_Some (workout_done s !! i) -> i ∈ id <$> week_plan s)
  /\ match profile s with
     | None => week_plan s = []
     | Some p =>
         1 <= sessions_per_week p <= 7
         /\ exists benchmark,
              week_plan s
              = generate_week_plan benchmark (sessions_per_week p) (current_week_index s)
     end.

End UpdatedApp.

(** * Properties *)

(** ** Rounding on the rationals *)

Section Rounding.

Local Open Scope Q_scope.



Lemma py_int_nonneg (q : Q) : 0 <= q -> Py.int q = Qfloor q.
Proof.
  destruct q as [n d]. unfold Py.int, Qfloor, Qle. simpl. intros H.
  apply Z.quot_div_nonneg; lia.
Qed.

Lemma py_max_lower (a b : Q) : a <= Py.max a b.
Proof.
  unfold Py.max. destruct (Qle_bool b a) eqn:E.
  - apply Qle_refl.
  - apply Qlt_le_weak, Qnot_le_lt. intros H. apply Qle_bool_iff in H. congruence.
Qed.

Lemma py_max_mono (a b c : Q) : b <= c -> Py.max a b <= Py.max a c.
Proof.
  intros H. unfold Py.max.
  destruct (Qle_bool b a) eqn:E1, (Qle_bool c a) eqn:E2;
    try apply Qle_bool_iff in E1; try apply Qle_bool_iff in E2.
  - apply Qle_refl.
  - apply Qlt_le_weak, Qnot_le_lt. intros H'. apply Qle_bool_iff in H'. congruence.
  - exfalso. assert (b <= a) as H' by (eapply Qle_trans; eauto).
    apply Qle_bool_iff in H'. congruence.
  - exact H.
Qed.

Lemma py_ge_false (a b : Q) : Py.ge a b = false -> a < b.
Proof.
  unfold Py.ge. intros E. apply Qnot_le_lt. intros H.
  apply Qle_bool_iff in H. congruence.
Qed.


End Rounding.

(** ** The progress model *)

Module ProgressProofs.

Import ProgressModel.
Local Open Scope Q_scope.

Lemma weekly_gain_lower (s : Z) : 3 # 10 <= weekly_gain s.
Proof. unfold weekly_gain. apply py_max_lower. Qed.

Lemma weekly_gain_pos (s : Z) : 0 < weekly_gain s.
Proof. pose proof (weekly_gain_lower s). lra. Qed.

Lemma weekly_gain_mono (s1 s2 : Z) : (s1 <= s2)%Z -> weekly_gain s1 <= weekly_gain s2.
Proof.
  intros H. unfold weekly_gain. apply py_max_mono.
  assert (inject_Z (s1 - 3) <= inject_Z (s2 - 3)) by (rewrite <- Zle_Qle; lia).
  lra.
Qed.

(** The estimate below the target, without the truncation primitive. *)
Lemma estimate_below_target (current : Q) (s : Z) :
  current < inject_Z TARGET_1RM ->
  estimate_weeks_to_target current s
  = Z.max 1 (Qfloor ((inject_Z TARGET_1RM - current) / weekly_gain s + (999 # 1000))).
Proof.
  intros Hlt. unfold estimate_weeks_to_target.
  destruct (Py.ge current (inject_Z TARGET_1RM)) eqn:E.
  - apply Qle_bool_iff in E. lra.
  - cbv zeta. rewrite py_int_nonneg; [reflexivity |].
    assert (0 <= (inject_Z TARGET_1RM - current) / weekly_gain s).
    { apply Qle_shift_div_l; [apply weekly_gain_pos | lra]. }
    lra.
Qed.

Lemma estimate_at_target (current : Q) (s : Z) :
  inject_Z TARGET_1RM <= current -> estimate_weeks_to_target current s = 0%Z.
Proof.
  intros H. unfold estimate_weeks_to_target, Py.ge.
  apply Qle_bool_iff in H. now rewrite H.
Qed.

(** Dividing a positive amount by a larger rate gives less. *)
Lemma quotient_antitone (need g1 g2 : Q) :
  0 <= need -> 0 < g1 -> g1 <= g2 -> need / g2 <= need / g1.
Proof.
  intros Hn Hg1 Hle.
  apply Qle_shift_div_r; [lra |].
  assert (0 <= need / g1) as Hq by (apply Qle_shift_div_l; lra).
  assert (need == need / g1 * g1) as Heq by (field; lra).
  apply Qle_trans with (need / g1 * g1).
  - rewrite <- Heq. apply Qle_refl.
  - rewrite !(Qmult_comm (need / g1)). apply Qmult_le_compat_r; assumption.
Qed.



(** Claim C9.  The weekly gain rate is at least 0.3 for every
    [sessions_per_week], and for a fixed [current_1rm] the estimate does
    not increase when [sessions_per_week] increases. *)
Theorem estimate_weeks_antitone_in_sessions
    (current_1rm : Q) (s1 s2 : Z) (Hle : (s1 <= s2)%Z) :
  3 # 10 <= weekly_gain s1
  /\ 3 # 10 <= weekly_gain s2
  /\ (estimate_weeks_to_target current_1rm s2
      <= estimate_weeks_to_target current_1rm s1)%Z.
Proof.
  split; [apply weekly_gain_lower |]. split; [apply weekly_gain_lower |].
  destruct (Qlt_le_dec current_1rm (inject_Z TARGET_1RM)) as [Hlt | Hge].
  - rewrite !estimate_below_target by assumption.
    apply Z.max_le_compat_l, Qfloor_resp_le.
    pose proof (quotient_antitone (inject_Z TARGET_1RM - current_1rm)
                  (weekly_gain s1) (weekly_gain s2)) as Hq.
    assert (0 <= inject_Z TARGET_1RM - current_1rm) as Hn by lra.
    specialize (Hq Hn (weekly_gain_pos s1) (weekly_gain_mono s1 s2 Hle)).
    lra.
  - rewrite !estimate_at_target by assumption. lia.
Qed.

Lemma estimate_weeks_antitone_in_sessions_witness :
  (3 <= 5)%Z
  /\ (estimate_weeks_to_target 70 5 <= estimate_weeks_to_target 70 3)%Z.
Proof.
  assert (3 <= 5)%Z as H by lia.
  split; [exact H |].
  exact (proj2 (proj2 (estimate_weeks_antitone_in_sessions 70 3 5 H))).
Defined.

(** *** The ideal pace curve *)











(** *** The concrete cases over binary64 *)

(** The scenario of the specification: 70 kg, three sessions. *)
Example binary64_estimate_70_3 :
  Binary64.estimate_weeks_to_target 70 3 = Some 50%Z.
Proof. vm_compute. reflexivity. Qed.

(** The input at which the ceiling and the code part ways, evaluated
    with doubles: the code still returns 50, the ceiling of the quotient
    is 51. *)
Example binary64_estimate_not_ceiling :
  Binary64.estimate_weeks_to_target 69.9997 3 = Some 50%Z
  /\ Binary64.ceil (Binary64.quotient 69.9997 3) = Some 51%Z.
Proof. vm_compute. split; reflexivity. Qed.

End ProgressProofs.

(** ** The formula-driven plan generator *)

Module UpdatedProofs.

Import Updated.


(** The loop appends one block per session. *)
Lemma foldl_extend {A B} (f : A -> list B) (l : list A) (acc : list B) :
  foldl (fun plan x => plan ++ f x) acc l = acc ++ (l ≫= f).
Proof.
  revert acc. induction l as [| x l IH]; intros acc.
  - simpl. now rewrite app_nil_r.
  - rewrite bind_cons. simpl. rewrite IH. now rewrite <- app_assoc.
Qed.

Lemma bind_length_const {A B} (f : A -> list B) (n : nat) (l : list A) :
  (forall y, length (f y) = n) -> length (l ≫= f) = (n * length l)%nat.
Proof.
  intros Hn. induction l as [| x l IH]; [simpl; lia |].
  rewrite bind_cons, length_app, Hn, IH. simpl. lia.
Qed.



Local Open Scope string_scope.

Lemma generate_week_plan_blocks (current_1rm : Q) (sessions_per_week week_index : Z) :
  generate_week_plan current_1rm sessions_per_week week_index
  = seqZ 1 sessions_per_week
      ≫= session_block (current_1rm * (1 + inject_Z week_index * (2 # 100))) week_index.
Proof.
  unfold generate_week_plan. cbv zeta.
  unfold extend_session. cbv zeta.
  apply (foldl_extend (session_block _ week_index) (seqZ 1 sessions_per_week) []).
Qed.

Lemma session_block_length (base : Q) (week_index session : Z) :
  length (session_block base week_index session) = 10%nat.
Proof. reflexivity. Qed.



End UpdatedProofs.

(** ** The training cycle of [FINAL_s.py] *)

Module FinalProofs.

Import Final.
Local Open Scope Z_scope.

(** *** The week-completion check *)

Section WeekCheck.

Variable week_num : Z.
Variable rd : gmap string (gmap string record).

Lemma scan_items_app (l1 l2 : list (string * menu_item)) (acc : bool * Z) :
  scan_items week_num rd (l1 ++ l2) acc
  = match scan_items week_num rd l1 acc with
    | inl m => inl m
    | inr a => scan_items week_num rd l2 a
    end.
Proof.
  revert acc. induction l1 as [| di l1 IH]; intros acc; [reflexivity |].
  simpl. destruct (recorded_in rd di); [apply IH | reflexivity].
Qed.

Lemma scan_menu_flat (day : string) (menu : list menu_item) (acc : bool * Z) :
  scan_menu week_num rd day menu acc
  = scan_items week_num rd ((fun item => (day, item)) <$> menu) acc.
Proof.
  revert acc. induction menu as [| item menu IH]; intros acc; [reflexivity |].
  cbn. unfold recorded_in. cbn.
  destruct (rd !! day ≫= (.!! item_name item)); [apply IH | reflexivity].
Qed.

Lemma scan_week_flat (plan : week_plan_t) (acc : bool * Z) :
  scan_week week_num rd plan acc = scan_items week_num rd (plan_items plan) acc.
Proof.
  revert acc. induction plan as [| dp plan IH]; intros acc; [reflexivity |].
  unfold plan_items. rewrite bind_cons. fold (plan_items plan).
  rewrite scan_items_app, <- scan_menu_flat. simpl.
  destruct (scan_menu week_num rd (dp_day dp) (dp_menu dp) acc); [reflexivity | apply IH].
Qed.

Lemma scan_items_complete (items : list (string * menu_item)) (acc : bool * Z) :
  forallb (is_recorded rd) items = true ->
  scan_items week_num rd items acc = inr (scan_result week_num rd items acc).
Proof.
  revert acc. induction items as [| di items IH]; intros acc Hall.
  - unfold scan_result. simpl. now destruct (week_num =? 4).
  - simpl in Hall. apply andb_prop in Hall as [Hdi Hall].
    apply bool_decide_eq_true in Hdi as [r Hr].
    simpl. rewrite Hr, (IH _ Hall). f_equal. unfold scan_result.
    destruct (week_num =? 4); [| reflexivity]. simpl.
    destruct (item_is_max di.2) eqn:Hmax.
    + rewrite filter_cons_True by assumption. rewrite last_cons.
      destruct (last (filter _ items)) as [y |] eqn:Hlast; simpl.
      * destruct (recorded_in rd y) eqn:Hy; [reflexivity |].
        exfalso. apply last_Some_elem_of, list_elem_of_filter in Hlast as [_ Hin].
        rewrite forallb_forall in Hall. apply list_elem_of_In, Hall in Hin.
        apply bool_decide_eq_true in Hin as [r' Hr']. congruence.
      * now rewrite Hr.
    + rewrite filter_cons_False by congruence.
      destruct (last (filter _ items) ≫= recorded_in rd); reflexivity.
Qed.

Lemma scan_items_incomplete (items : list (string * menu_item)) (acc : bool * Z) :
  forallb (is_recorded rd) items = false ->
  exists msg, scan_items week_num rd items acc = inl msg.
Proof.
  revert acc. induction items as [| di items IH]; intros acc Hall; [discriminate |].
  simpl in Hall. simpl. destruct (recorded_in rd di) as [r |] eqn:Hr.
  - apply IH. apply andb_false_iff in Hall as [Hdi | Hall]; [| assumption].
    apply bool_decide_eq_false in Hdi. exfalso. apply Hdi. unfold recorded_in in *.
    rewrite Hr. eauto.
  - eauto.
Qed.

End WeekCheck.

Lemma lookup_record_recorded_in (week : Z) (day : string) (item : menu_item)
    (rs : records_t) :
  lookup_record week day (item_name item) rs
  = recorded_in (default ∅ (rs !! week)) (day, item).
Proof.
  unfold lookup_record, recorded_in. simpl.
  destruct (rs !! week) as [by_day |]; simpl; [reflexivity |].
  now rewrite lookup_empty.
Qed.

Lemma week_recorded_flat (week : Z) (plan : week_plan_t) (rs : records_t) :
  week_recorded week plan rs
  = forallb (is_recorded (default ∅ (rs !! week))) (plan_items plan).
Proof.
  unfold week_recorded. induction plan as [| dp plan IH]; [reflexivity |].
  unfold plan_items. rewrite bind_cons. fold (plan_items plan).
  simpl. rewrite forallb_app, <- IH. f_equal.
  unfold menu_recorded. induction (dp_menu dp) as [| item menu IHm]; [reflexivity |].
  simpl. rewrite IHm. unfold is_recorded at 1.
  now rewrite lookup_record_recorded_in.
Qed.

Lemma py_ge_inject_Z (a b : Z) : Py.ge (inject_Z a) (inject_Z b) = (b <=? a).
Proof. unfold Py.ge, Qle_bool. simpl. now rewrite !Z.mul_1_r. Qed.

(** The check on a week that is not completely recorded. *)
Lemma check_week_incomplete (week : Z) (plan : week_plan_t) (rs : records_t)
    (st : session_state) :
  week_recorded week plan rs = false ->
  exists msg, check_all_records_saved_for_week week plan rs st = (Some (false, msg), st).
Proof.
  intros H. rewrite week_recorded_flat in H. unfold check_all_records_saved_for_week.
  cbv zeta. rewrite scan_week_flat.
  destruct (scan_items_incomplete week _ _ (false, 0) H) as [msg ->]. eauto.
Qed.

(** The check on a completely recorded week: what the loops leave in
    [(max_measurement_done, max_weight)]. *)
Lemma check_week_scan (week : Z) (plan : week_plan_t) (rs : records_t) :
  week_recorded week plan rs = true ->
  scan_week week (default ∅ (rs !! week)) plan (false, 0)
  = inr (scan_result week (default ∅ (rs !! week)) (plan_items plan) (false, 0)).
Proof.
  intros H. rewrite week_recorded_flat in H.
  rewrite scan_week_flat. now apply scan_items_complete.
Qed.

(** Claim C10.  For a week other than 4, and for week 4 when no max-test
    item of the plan has a record, the week check leaves the session
    state as it is and returns whether every item of every day has a
    record. *)
Theorem check_week_without_max_test_is_pure (week : Z) (plan : week_plan_t)
    (rs : records_t) (st : session_state)
    (Hcase : week <> 4
             \/ forall day item, (day, item) ∈ plan_items plan ->
                  item_is_max item = true ->
                  lookup_record week day (item_name item) rs = None) :
  exists msg,
    check_all_records_saved_for_week week plan rs st
    = (Some (week_recorded week plan rs, msg), st).
Proof.
  destruct (week_recorded week plan rs) eqn:Hrec;
    [| now apply check_week_incomplete].
  unfold check_all_records_saved_for_week. cbv zeta.
  rewrite (check_week_scan _ _ _ Hrec). unfold scan_result.
  destruct (Z.eqb_spec week 4) as [-> | Hne]; [| simpl; eauto].
  destruct Hcase as [Hne | Hnone]; [congruence |].
  destruct (last _) as [[day item] |] eqn:Hlast; [| simpl; eauto].
  exfalso. apply last_Some_elem_of, list_elem_of_filter in Hlast as [Hmax Hin].
  specialize (Hnone day item Hin Hmax).
  rewrite week_recorded_flat, forallb_forall in Hrec.
  apply list_elem_of_In, Hrec in Hin.
  apply bool_decide_eq_true in Hin as [r Hr].
  rewrite lookup_record_recorded_in in Hnone. congruence.
Qed.

Lemma check_week_without_max_test_is_pure_witness :
  let st := week4_row_saved in
  (forall day item, (day, item) ∈ plan_items one_max_plan ->
     item_is_max item = true ->
     lookup_record 4 day (item_name item) (records st) = None)
  /\ exists msg,
       check_all_records_saved_for_week 4 one_max_plan (records st) st
       = (Some (week_recorded 4 one_max_plan (records st), msg), st).
Proof.
  intros st.
  assert (forall day item, (day, item) ∈ plan_items one_max_plan ->
            item_is_max item = true ->
            lookup_record 4 day (item_name item) (records st) = None) as H.
  { intros day item Hin Hmax.
    change (plan_items one_max_plan) with [("月"%string, bench_max); ("月"%string, row)] in Hin.
    apply elem_of_cons in Hin as [Heq | Hin].
    - injection Heq as -> ->. vm_compute. reflexivity.
    - apply list_elem_of_singleton in Hin. injection Hin as -> ->. discriminate Hmax. }
  split; [exact H |].
  exact (check_week_without_max_test_is_pure 4 one_max_plan (records st) st (or_intror H)).
Defined.

(** The three writes of the week-4 branch. *)
Lemma check_week4_complete (plan : week_plan_t) (rs : records_t) (st : session_state)
    (info : initial_info_t) (day : string) (item : menu_item) (r : record) :
  initial_info st = Some info ->
  week_recorded 4 plan rs = true ->
  last_max_item plan = Some (day, item) ->
  lookup_record 4 day (item_name item) rs = Some r ->
  check_all_records_saved_for_week 4 plan rs st
  = (Some (true, "完了"%string),
     set_max_registered_not_achieved (negb (goal_bp info <=? rec_weight r))
       (set_goal_achieved_pending (goal_bp info <=? rec_weight r)
         (set_max_test_result (inject_Z (rec_weight r)) st))).
Proof.
  intros Hinfo Hrec Hlast Hr.
  unfold check_all_records_saved_for_week. cbv zeta.
  rewrite (check_week_scan _ _ _ Hrec). unfold scan_result.
  unfold last_max_item, max_items in Hlast. rewrite Hlast.
  rewrite lookup_record_recorded_in in Hr. simpl. rewrite Hr. simpl.
  rewrite Hinfo, py_ge_inject_Z.
  destruct (goal_bp info <=? rec_weight r); reflexivity.
Qed.

(** Claim C1, as the code has it.  In week 4, when every item of the plan
    is recorded and the plan marks at least one max test, the check
    returns true, sets the benchmark to the weight recorded for the last
    max test in plan order and leaves every other key but the two flags
    untouched; goal-achieved is set iff that weight is at least the goal,
    goal-missed iff it is strictly below, so exactly one of them is set;
    and evaluating the check again changes nothing more. *)
Theorem week4_check_sets_benchmark (plan : week_plan_t) (rs : records_t)
    (st : session_state) (info : initial_info_t) (day : string) (item : menu_item)
    (r : record)
    (Hinfo : initial_info st = Some info)
    (Hrec : week_recorded 4 plan rs = true)
    (Hlast : last_max_item plan = Some (day, item))
    (Hr : lookup_record 4 day (item_name item) rs = Some r) :
  let res := check_all_records_saved_for_week 4 plan rs st in
  let st' := res.2 in
  (exists msg, res.1 = Some (true, msg))
  /\ max_test_result st' = inject_Z (rec_weight r)
  /\ (goal_achieved_pending st' = true <-> goal_bp info <= rec_weight r)
  /\ (max_registered_not_achieved st' = true <-> rec_weight r < goal_bp info)
  /\ goal_achieved_pending st' = negb (max_registered_not_achieved st')
  /\ st' = set_max_registered_not_achieved (max_registered_not_achieved st')
            (set_goal_achieved_pending (goal_achieved_pending st')
              (set_max_test_result (max_test_result st') st))
  /\ check_all_records_saved_for_week 4 plan rs st' = res.
Proof.
  intros res st'.
  pose proof (check_week4_complete plan rs st info day item r Hinfo Hrec Hlast Hr)
    as Hres.
  assert (initial_info
            (set_max_registered_not_achieved (negb (goal_bp info <=? rec_weight r))
              (set_goal_achieved_pending (goal_bp info <=? rec_weight r)
                (set_max_test_result (inject_Z (rec_weight r)) st))) = Some info)
    as Hinfo' by exact Hinfo.
  pose proof (check_week4_complete plan rs _ info day item r Hinfo' Hrec Hlast Hr)
    as Hres'.
  subst st' res. rewrite Hres. simpl.
  split; [eauto |]. split; [reflexivity |].
  split; [apply Z.leb_le |].
  split; [rewrite negb_true_iff; apply Z.leb_gt |].
  split; [now rewrite negb_involutive |].
  split; [reflexivity |].
  rewrite Hres'. reflexivity.
Qed.

Lemma week4_check_sets_benchmark_witness :
  let st := week4_saved in
  let st' := (check_all_records_saved_for_week 4 one_max_plan (records st) st).2 in
  (exists info, initial_info st = Some info /\ goal_bp info = 100)
  /\ week_recorded 4 one_max_plan (records st) = true
  /\ last_max_item one_max_plan = Some ("月"%string, bench_max)
  /\ (rec_weight <$> lookup_record 4 "月" (item_name bench_max) (records st)) = Some 102
  /\ max_test_result st' = inject_Z 102
  /\ goal_achieved_pending st' = true
  /\ max_registered_not_achieved st' = false.
Proof.
  intros st st'.
  destruct (initial_info st) as [info |] eqn:H1; [| vm_compute in H1; discriminate H1].
  assert (goal_bp info = 100) as Hgoal
    by (vm_compute in H1; injection H1 as <-; reflexivity).
  assert (week_recorded 4 one_max_plan (records st) = true) as H2
    by (vm_compute; reflexivity).
  assert (last_max_item one_max_plan = Some ("月"%string, bench_max)) as H3
    by (vm_compute; reflexivity).
  destruct (lookup_record 4 "月" (item_name bench_max) (records st)) as [r |] eqn:H4;
    [| vm_compute in H4; discriminate H4].
  assert (rec_weight r = 102) as Hw
    by (vm_compute in H4; injection H4 as <-; reflexivity).
  pose proof (week4_check_sets_benchmark one_max_plan (records st) st
                info "月" bench_max r H1 H2 H3 H4) as H.
  fold st' in H. rewrite Hw, Hgoal in H.
  destruct H as (_ & Hmax & Hach & Hmiss & _).
  assert (goal_achieved_pending st' = true) as Ha by (apply Hach; lia).
  split; [eauto |]. split; [exact H2 |]. split; [exact H3 |].
  split; [exact (f_equal Some Hw) |].
  split; [exact Hmax |]. split; [exact Ha |].
  destruct (max_registered_not_achieved st') eqn:Em; [| reflexivity].
  apply Hmiss in Em. lia.
Defined.

(** Claim C1 as stated fails on a plan that marks two max tests: the
    first one is recorded with 90 kg, below the goal of 100 kg, yet the
    check sets the benchmark to the 110 kg of the second one and raises
    goal-achieved. *)
Lemma week4_check_two_max_tests :
  let st := week4_two_saved in
  let st' := (check_all_records_saved_for_week 4 two_max_plan (records st) st).2 in
  getitem (weekly_plan st) (current_week st - 1) = Some two_max_plan
  /\ week_recorded 4 two_max_plan (records st) = true
  /\ plan_items two_max_plan !! 0%nat = Some ("月"%string, bench_max)
  /\ item_is_max bench_max = true
  /\ (rec_weight <$> lookup_record 4 "月" (item_name bench_max) (records st)) = Some 90
  /\ (goal_bp <$> initial_info st) = Some 100
  /\ max_test_result st' = inject_Z 110
  /\ ~ (max_test_result st' == inject_Z 90)%Q
  /\ goal_achieved_pending st' = true
  /\ max_registered_not_achieved st' = false.
Proof.
  vm_compute. repeat split; try reflexivity. discriminate.
Qed.

(** *** Saving a record *)

(** The scenario of the specification, run through the pages: in week 4
    the max test is saved with weight 102 while the inputs for reps and
    sets show 5 and 3; the record holds 102, 1 and 1, and with the goal at
    100 the next run raises goal-achieved and not goal-missed. *)
Example max_test_scenario :
  lookup_record 4 "月" "ベンチプレス" (records week4_saved)
  = Some {| rec_weight := 102; rec_reps := 1; rec_sets := 1; rec_note := "";
            rec_is_max := true |}
  /\ lookup_record 1 "月" "ベントオーバーロー" (records week4_saved)
     = Some {| rec_weight := 60; rec_reps := 8; rec_sets := 3; rec_note := "";
               rec_is_max := false |}
  /\ goal_achieved_pending (main true NoEvent week4_saved) = true
  /\ max_registered_not_achieved (main true NoEvent week4_saved) = false.
Proof. vm_compute. repeat split. Qed.


Lemma lookup_record_insert (week : Z) (day name : string) (r : record) (rs : records_t) :
  lookup_record week day name
    (<[week := <[day := <[name := r]> (default ∅ (default ∅ (rs !! week) !! day))]>
                 (default ∅ (rs !! week))]> rs)
  = Some r.
Proof.
  unfold lookup_record. rewrite lookup_insert_eq. simpl.
  rewrite lookup_insert_eq. simpl. apply lookup_insert_eq.
Qed.

(** Claim C4.  Saving a record and reading it back under the same
    (week, day, exercise) gives the weight and the note as entered, and
    the reps and sets as entered, except for a week-4 max-test item,
    where reps and sets are both 1 whatever was entered. *)
Theorem save_record_round_trip (week : Z) (day : string) (item : menu_item)
    (w_input r_input s_input : Z) (note_input : string) (st : session_state) :
  let st' := save_record week day item w_input r_input s_input note_input st in
  exists r,
    lookup_record week day (item_name item) (records st') = Some r
    /\ rec_weight r = w_input
    /\ rec_note r = note_input
    /\ (if (week =? 4) && item_is_max item
        then rec_reps r = 1 /\ rec_sets r = 1
        else rec_reps r = r_input /\ rec_sets r = s_input).
Proof.
  intros st'. subst st'. unfold save_record. cbv zeta. simpl.
  rewrite lookup_record_insert. eexists. split; [reflexivity |]. simpl.
  destruct ((week =? 4) && item_is_max item); auto.
Qed.

(** Saving leaves every other (week, day, exercise) as it was. *)
Lemma save_record_other (week : Z) (day : string) (item : menu_item)
    (w_input r_input s_input : Z) (note_input : string) (st : session_state)
    (week' : Z) (day' name' : string) :
  (week', day', name') <> (week, day, item_name item) ->
  lookup_record week' day' name'
    (records (save_record week day item w_input r_input s_input note_input st))
  = lookup_record week' day' name' (records st).
Proof.
  intros Hne. unfold save_record, lookup_record. cbv zeta. simpl.
  destruct (decide (week' = week)) as [-> |]; [| now rewrite lookup_insert_ne].
  rewrite lookup_insert_eq. simpl.
  destruct (decide (day' = day)) as [-> |].
  - rewrite lookup_insert_eq. simpl.
    rewrite lookup_insert_ne by congruence.
    destruct (records st !! week) as [by_day |]; simpl; [| now rewrite lookup_empty].
    destruct (by_day !! day); simpl; [reflexivity | now rewrite lookup_empty].
  - rewrite lookup_insert_ne by congruence.
    destruct (records st !! week); simpl; [reflexivity | now rewrite lookup_empty].
Qed.

(** *** The day loop *)

Lemma render_menu_cases (week : Z) (day : string) (is_disabled : bool)
    (menu : list menu_item) (ev : event) (st st' : session_state) :
  render_menu week day is_disabled menu ev st = Some st' ->
  exists item name w_input r_input s_input note_input,
    ev = ClickSave day name w_input r_input s_input note_input
    /\ item ∈ menu /\ item_name item = name /\ is_disabled = false
    /\ st' = save_record week day item w_input r_input s_input note_input st.
Proof.
  induction menu as [| item menu IH]; [discriminate |].
  simpl. destruct ev as [| | | | d n w r s note | | | | |];
    try (intros H; destruct (IH H) as (i & n' & w' & r' & s' & note' & He & _);
         discriminate He).
  destruct (bool_decide (d = day) && bool_decide (n = item_name item) && negb is_disabled)
    eqn:E.
  - intros [= <-].
    apply andb_prop in E as [E Hdis]. apply andb_prop in E as [Hd Hn].
    apply bool_decide_eq_true in Hd, Hn. apply negb_true_iff in Hdis. subst.
    exists item. repeat eexists. apply list_elem_of_here.
  - intros H. destruct (IH H) as (i & n' & w' & r' & s' & note' & He & Hin & Hrest).
    exists i, n', w', r', s', note'. split; [exact He |].
    split; [now apply list_elem_of_further | exact Hrest].
Qed.

(** What a rerun requested by the day loop has done: one save, or one
    review of a fully recorded day that was not reviewed. *)
Lemma render_days_cases (week : Z) (plan days : week_plan_t) (ev : event)
    (st st' : session_state) :
  render_days week plan days ev st = Some st' ->
  (exists dp item name w_input r_input s_input note_input,
     ev = ClickSave (dp_day dp) name w_input r_input s_input note_input
     /\ dp ∈ days /\ item ∈ dp_menu dp /\ item_name item = name
     /\ is_day_reviewed week (dp_day dp) st = false
     /\ st' = save_record week (dp_day dp) item w_input r_input s_input note_input st)
  \/ (exists dp review_text,
        ev = ClickFinishDay (dp_day dp) review_text
        /\ dp ∈ days
        /\ (check_all_records_saved_for_day week (dp_day dp) plan (records st)).1 = true
        /\ is_day_reviewed week (dp_day dp) st = false
        /\ st' = complete_day_review week (dp_day dp) review_text st).
Proof.
  induction days as [| dp days IH]; [discriminate |].
  simpl.
  destruct (render_menu week (dp_day dp) (is_day_reviewed week (dp_day dp) st)
              (dp_menu dp) ev st) as [st1 |] eqn:Hmenu.
  - intros [= <-]. left.
    apply render_menu_cases in Hmenu
      as (item & n & w & r & s & note & He & Hin & Hn & Hdis & Hst).
    exists dp, item, n, w, r, s, note.
    repeat split; try assumption. apply list_elem_of_here.
  - assert (render_days week plan days ev st = Some st' ->
            (exists dp0 item name w_input r_input s_input note_input,
               ev = ClickSave (dp_day dp0) name w_input r_input s_input note_input
               /\ dp0 ∈ dp :: days /\ item ∈ dp_menu dp0 /\ item_name item = name
               /\ is_day_reviewed week (dp_day dp0) st = false
               /\ st' = save_record week (dp_day dp0) item w_input r_input s_input
                          note_input st)
            \/ (exists dp0 review_text,
                  ev = ClickFinishDay (dp_day dp0) review_text
                  /\ dp0 ∈ dp :: days
                  /\ (check_all_records_saved_for_day week (dp_day dp0) plan
                        (records st)).1 = true
                  /\ is_day_reviewed week (dp_day dp0) st = false
                  /\ st' = complete_day_review week (dp_day dp0) review_text st)) as Hrest.
    { intros H. destruct (IH H) as [(dp0 & i & n & w & r & s & note & He & Hin & Hrest)
                                   | (dp0 & text & He & Hin & Hrest)].
      - left. exists dp0, i, n, w, r, s, note.
        split; [exact He |]. split; [now apply list_elem_of_further | exact Hrest].
      - right. exists dp0, text.
        split; [exact He |]. split; [now apply list_elem_of_further | exact Hrest]. }
    destruct ev as [| | | | | d text | | | |]; try exact Hrest.
    destruct ((check_all_records_saved_for_day week (dp_day dp) plan (records st)).1
              && negb (is_day_reviewed week (dp_day dp) st)
              && bool_decide (d = dp_day dp)) eqn:E; [| exact Hrest].
    intros [= <-]. right.
    apply andb_prop in E as [E Hd]. apply andb_prop in E as [Hsaved Hrev].
    apply bool_decide_eq_true in Hd. apply negb_true_iff in Hrev. subst d.
    exists dp, text. repeat split; try assumption. apply list_elem_of_here.
Qed.

(** *** The day check *)

Lemma lookup_record_default (week : Z) (day name : string) (rs : records_t) :
  lookup_record week day name rs
  = default ∅ (default ∅ (rs !! week) !! day) !! name.
Proof.
  unfold lookup_record.
  destruct (rs !! week) as [by_day |]; simpl.
  - destruct (by_day !! day); simpl; [reflexivity | now rewrite lookup_empty].
  - now rewrite !lookup_empty.
Qed.

Lemma first_unsaved_none (week : Z) (day : string) (menu : list menu_item)
    (rs : records_t) :
  match first_unsaved (default ∅ (default ∅ (rs !! week) !! day)) menu with
  | None => menu_recorded week day menu rs = true
  | Some _ => menu_recorded week day menu rs = false
  end.
Proof.
  unfold menu_recorded. induction menu as [| item menu IH]; [reflexivity |].
  simpl. rewrite lookup_record_default.
  destruct (default ∅ (default ∅ (rs !! week) !! day) !! item_name item) as [r |] eqn:E.
  - rewrite bool_decide_eq_true_2 by eauto. exact IH.
  - rewrite bool_decide_eq_false_2; [reflexivity |]. intros [r Hr]. discriminate.
Qed.

(** [is_day_complete]: the check is true iff the first day plan labelled
    [day] exists and all of its items are recorded. *)
Lemma check_day_spec (week : Z) (day : string) (plan : week_plan_t) (rs : records_t) :
  (check_all_records_saved_for_day week day plan rs).1
  = match day_plan_of day plan with
    | Some dp => menu_recorded week day (dp_menu dp) rs
    | None => false
    end.
Proof.
  unfold day_plan_of. induction plan as [| dp plan IH]; [reflexivity |].
  simpl. destruct (bool_decide (dp_day dp = day)); [| exact IH].
  pose proof (first_unsaved_none week day (dp_menu dp) rs) as H.
  destruct (first_unsaved _ (dp_menu dp)); simpl; now rewrite H.
Qed.

(** *** Reviewing a day *)

Lemma is_day_reviewed_review (week week' : Z) (day day' text : string)
    (st : session_state) :
  is_day_reviewed week day (complete_day_review week' day' text st)
  = if bool_decide (week = week' /\ day = day') then true
    else is_day_reviewed week day st.
Proof.
  unfold is_day_reviewed, complete_day_review. cbv zeta. simpl.
  case_bool_decide as H.
  - destruct H as [-> ->]. rewrite lookup_insert_eq. simpl. now rewrite lookup_insert_eq.
  - destruct (decide (week = week')) as [-> |]; [| now rewrite lookup_insert_ne].
    rewrite lookup_insert_eq. simpl. rewrite lookup_insert_ne by naive_solver.
    reflexivity.
Qed.


(** *** What each part of the page can change *)

Lemma check_week_frame (week : Z) (plan : week_plan_t) (rs : records_t)
    (st : session_state) :
  let st' := (check_all_records_saved_for_week week plan rs st).2 in
  same_profile_and_logs st st' /\ same_cycle_data st st'
  /\ initial_info st' = initial_info st
  /\ current_week st' = current_week st
  /\ next_week_config_pending st' = next_week_config_pending st.
Proof.
  unfold check_all_records_saved_for_week, same_profile_and_logs, same_cycle_data.
  cbv zeta. repeat case_match; simpl; tauto.
Qed.

Lemma week_footer_frame (week : Z) (plan : week_plan_t) (ev : event)
    (st : session_state) :
  let st' := final (week_footer week plan ev st) in
  same_profile_and_logs st st' /\ same_cycle_data st st'
  /\ ((current_week st' = current_week st
       /\ next_week_config_pending st' = next_week_config_pending st)
      \/ (current_week st' = 0 /\ next_week_config_pending st' = true
          /\ (ev = ClickRestartSameGoal \/ exists g, ev = ClickRestartNewGoal g))
      \/ (current_week st' = current_week st /\ next_week_config_pending st' = true
          /\ ev = ClickNextWeekConfig)).
Proof.
  pose proof (check_week_frame week plan (records st) st) as H.
  unfold week_footer. cbv zeta in *.
  destruct (check_all_records_saved_for_week week plan (records st) st) as [res st1].
  simpl in H. unfold same_profile_and_logs, same_cycle_data in *.
  destruct H as ((? & ?) & (? & ? & ? & ? & ?) & ? & ? & ?).
  repeat case_match; simpl; try (intuition congruence); subst;
    (split; [tauto |]); (split; [tauto |]); eauto 10.
Qed.

(** *** The next-week configuration step *)

Lemma set_initial_info_same (st : session_state) :
  set_initial_info (initial_info st) st = st.
Proof. now destruct st. Qed.

(** Claim C2, as the code has it.  When plan generation fails in the
    next-week configuration step, the current week, the weekly plans, the
    records, the review flags and texts and every other key of the
    session are as before, except the stored configuration: when a client
    is present and the submitted count equals the number of submitted
    weekdays, [freq] and [weekdays] already hold the submitted values. *)
Theorem next_week_config_failure_keeps_cycle (client : bool) (freq_next : Z)
    (weekdays_next : list string) (reply : option week_plan_t) (st : session_state)
    (Hpending : next_week_config_pending st = true)
    (Hfail : plan_truthy (generate_ai_week_plan client reply) = false) :
  let st' := main client (SubmitNextWeekConfig freq_next weekdays_next reply) st in
  st' = set_initial_info (initial_info st') st
  /\ initial_info st'
     = match initial_info st with
       | Some info =>
           if client && (Z.of_nat (length weekdays_next) =? freq_next)
           then Some (info_set_weekdays weekdays_next (info_set_freq freq_next info))
           else Some info
       | None => None
       end.
Proof.
  unfold main, page_initial_settings, page_training_week, page_progress_and_roadmap.
  cbv zeta.
  destruct (initial_info st) as [info |] eqn:Hinfo; simpl.
  2:{ destruct (profile st); simpl;
        (split; [symmetry; apply set_initial_info_same | exact Hinfo]). }
  destruct client; simpl.
  2:{ destruct (profile st); simpl;
        (split; [symmetry; apply set_initial_info_same | exact Hinfo]). }
  rewrite Hpending. unfold next_week_config. cbv zeta.
  destruct (Z.of_nat (length weekdays_next) =? freq_next); simpl.
  - unfold plan_truthy in Hfail. simpl in Hfail.
    destruct reply as [plan |]; [rewrite Hfail |]; simpl;
      destruct (profile st); simpl; split; reflexivity.
  - destruct (profile st); simpl;
      (split; [symmetry; apply set_initial_info_same | exact Hinfo]).
Qed.

Lemma next_week_config_failure_keeps_cycle_witness :
  let st' := main true (SubmitNextWeekConfig 2 ["火"; "木"]%string None) config_pending_state in
  next_week_config_pending config_pending_state = true
  /\ plan_truthy (generate_ai_week_plan true None) = false
  /\ st' = set_initial_info (initial_info st') config_pending_state.
Proof.
  intros st'.
  assert (next_week_config_pending config_pending_state = true) as H1
    by (vm_compute; reflexivity).
  assert (plan_truthy (generate_ai_week_plan true None) = false) as H2 by reflexivity.
  split; [exact H1 |]. split; [exact H2 |].
  exact (proj1 (next_week_config_failure_keeps_cycle true 2 ["火"; "木"]%string None
                  config_pending_state H1 H2)).
Defined.

(** Claim C2 as stated fails: the form is submitted with two sessions on
    Tuesday and Thursday, the plan request gives nothing, and the stored
    configuration has changed from three sessions (Mon, Wed, Fri) to the
    submitted one although no plan was produced. *)
Lemma next_week_config_failure_overwrites_config :
  let st' := main true (SubmitNextWeekConfig 2 ["火"; "木"]%string None) config_pending_state in
  next_week_config_pending config_pending_state = true
  /\ plan_truthy (generate_ai_week_plan true None) = false
  /\ (freq <$> initial_info config_pending_state) = Some 1
  /\ (weekdays <$> initial_info config_pending_state) = Some ["月"]%string
  /\ (freq <$> initial_info st') = Some 2
  /\ (weekdays <$> initial_info st') = Some ["火"; "木"]%string
  /\ initial_info st' <> initial_info config_pending_state
  /\ current_week st' = current_week config_pending_state
  /\ weekly_plan st' = weekly_plan config_pending_state.
Proof.
  vm_compute. repeat split; try reflexivity. discriminate.
Qed.

(** *** The review maps along one run *)



Lemma is_day_reviewed_none (week : Z) (day : string) (st' : session_state) :
  no_reviews st' -> is_day_reviewed week day st' = false.
Proof. intros [H _]. unfold is_day_reviewed. rewrite H. now rewrite lookup_empty. Qed.


Lemma page_initial_settings_reviews (client : bool) (ev : event) (st : session_state) :
  let st' := page_initial_settings client ev st in
  (same_reviews st st' \/ (no_reviews st' /\ exists h w c wd t r, ev = SubmitProfile h w c wd t r))
  /\ ((forall h w c wd t r, ev <> SubmitProfile h w c wd t r) -> st' = st).
Proof.
  unfold page_initial_settings, same_reviews, no_reviews, log_training_snapshot.
  destruct ev; simpl; try (split; [left; split; reflexivity | reflexivity]).
  split; [| intros H; exfalso; eapply H; reflexivity].
  repeat case_match; simpl; eauto 12.
Qed.

Lemma next_week_config_reviews (client : bool) (ev : event) (info : initial_info_t)
    (st : session_state) :
  let st' := final (next_week_config client ev info st) in
  same_profile_and_logs st st'
  /\ (same_reviews st st'
      \/ (no_reviews st' /\ exists f w r, ev = SubmitNextWeekConfig f w r)).
Proof.
  unfold next_week_config, same_profile_and_logs, same_reviews, no_reviews.
  cbv zeta. repeat case_match; simpl; eauto 12.
Qed.

Lemma page_training_week_reviews (client : bool) (ev : event) (st : session_state) :
  let st' := final (page_training_week client ev st) in
  same_profile_and_logs st st'
  /\ (same_reviews st st'
      \/ (no_reviews st' /\ exists f w r, ev = SubmitNextWeekConfig f w r)
      \/ (exists dp text plan,
            ev = ClickFinishDay (dp_day dp) text
            /\ getitem (weekly_plan st) (current_week st - 1) = Some plan
            /\ (check_all_records_saved_for_day (current_week st) (dp_day dp) plan
                  (records st)).1 = true
            /\ is_day_reviewed (current_week st) (dp_day dp) st = false
            /\ st' = complete_day_review (current_week st) (dp_day dp) text st)).
Proof.
  unfold page_training_week. cbv zeta.
  assert (same_profile_and_logs st st /\ same_reviews st st) as [Hpl Hsame]
    by (repeat split).
  destruct (initial_info st) as [info |]; [| simpl; auto].
  destruct client; [| simpl; auto]. simpl.
  destruct (next_week_config_pending st).
  { destruct (next_week_config_reviews true ev info st) as [H1 [H2 | H2]]; auto. }
  destruct (training_started st); simpl.
  2:{ destruct ev; simpl; auto. }
  destruct (Z.of_nat (length (weekly_plan st)) <=? current_week st - 1); simpl.
  { split; [split; reflexivity | left; split; reflexivity]. }
  destruct (getitem (weekly_plan st) (current_week st - 1)) as [plan |] eqn:Hplan;
    [| simpl; auto].
  destruct (render_days (current_week st) plan plan ev st) as [st1 |] eqn:Hdays.
  - simpl. apply render_days_cases in Hdays
      as [(dp & i & n & w & r & s & note & He & _ & _ & _ & _ & ->)
         | (dp & text & He & _ & Hsaved & Hrev & ->)].
    + split; [split; reflexivity | left; split; reflexivity].
    + split; [split; reflexivity |]. right. right. exists dp, text, plan. auto.
  - destruct (week_footer_frame (current_week st) plan ev st)
      as (H1 & (_ & _ & H2 & H3 & _) & _).
    split; [exact H1 | left; split; assumption].
Qed.

Lemma page_progress_frame (ev : event) (st : session_state) :
  let st' := final (page_progress_and_roadmap ev st) in
  same_reviews st st' /\ same_cycle_data st st'
  /\ current_week st' = current_week st
  /\ next_week_config_pending st' = next_week_config_pending st
  /\ initial_info st' = initial_info st
  /\ (training_logs st' = training_logs st
      \/ exists log, training_logs st' = training_logs st ++ [log]).
Proof.
  unfold page_progress_and_roadmap, same_reviews, same_cycle_data, log_training_snapshot.
  repeat case_match; simpl; repeat split;
    first [left; reflexivity | right; eexists; reflexivity].
Qed.




(** *** The training log *)

Lemma page_initial_settings_logs (client : bool) (ev : event) (st : session_state) :
  exists new,
    training_logs (page_initial_settings client ev st) = training_logs st ++ new.
Proof.
  unfold page_initial_settings, log_training_snapshot.
  destruct ev; simpl; try (exists []; now rewrite app_nil_r).
  repeat case_match; simpl; first [now eexists | exists []; now rewrite app_nil_r].
Qed.

Lemma main_logs (client : bool) (ev : event) (st : session_state) :
  exists new, training_logs (main client ev st) = training_logs st ++ new.
Proof.
  unfold main. cbv zeta.
  destruct (page_initial_settings_logs client ev st) as [new1 H1].
  destruct (page_training_week_reviews client ev (page_initial_settings client ev st))
    as [[_ H2] _].
  destruct (page_training_week client ev (page_initial_settings client ev st)) as [s | s];
    simpl in *.
  - destruct (page_progress_frame ev s) as (_ & _ & _ & _ & _ & [H3 | [log H3]]);
      rewrite H3, H2, H1.
    + now exists new1.
    + exists (new1 ++ [log]). now rewrite app_assoc.
  - rewrite H2, H1. now exists new1.
Qed.

Lemma session_logs (client : bool) (evs : list event) (st : session_state) :
  exists new, training_logs (session client evs st) = training_logs st ++ new.
Proof.
  unfold session. revert st. induction evs as [| ev evs IH]; intros st; simpl.
  - exists []. now rewrite app_nil_r.
  - destruct (IH (main client ev st)) as [new2 H2].
    destruct (main_logs client ev st) as [new1 H1].
    exists (new1 ++ new2). now rewrite H2, H1, app_assoc.
Qed.

Lemma page_training_week_ack (client : bool) (ev : event) (st : session_state) :
  ev = ClickRestartSameGoal \/ (exists g, ev = ClickRestartNewGoal g) ->
  let st' := final (page_training_week client ev st) in
  same_profile_and_logs st st' /\ records st' = records st
  /\ ((current_week st' = current_week st
       /\ next_week_config_pending st' = next_week_config_pending st)
      \/ (current_week st' = 0 /\ next_week_config_pending st' = true)).
Proof.
  intros Hev. unfold page_training_week. cbv zeta.
  assert (same_profile_and_logs st st) as Hpl by (split; reflexivity).
  destruct (initial_info st) as [info |]; [| simpl; auto].
  destruct client; [| simpl; auto]. simpl.
  destruct (next_week_config_pending st) eqn:Hpend.
  { destruct Hev as [-> | [g ->]]; simpl; auto. }
  destruct (training_started st); simpl.
  2:{ destruct Hev as [-> | [g ->]]; simpl; auto. }
  destruct (Z.of_nat (length (weekly_plan st)) <=? current_week st - 1); simpl.
  { rewrite Hpend. auto. }
  destruct (getitem (weekly_plan st) (current_week st - 1)) as [plan |];
    [| simpl; rewrite Hpend; auto].
  destruct (render_days (current_week st) plan plan ev st) as [st1 |] eqn:Hdays.
  - exfalso. apply render_days_cases in Hdays
      as [(dp & i & n & w & r & s & note & He & _) | (dp & text & He & _)];
      destruct Hev as [-> | [g ->]]; discriminate.
  - destruct (week_footer_frame (current_week st) plan ev st)
      as (H1 & (H2 & _) & [H3 | [(H3 & H4 & _) | (H3 & H4 & He)]]).
    + rewrite <- Hpend. auto.
    + auto.
    + destruct Hev as [-> | [g ->]]; discriminate.
Qed.

Lemma main_ack (client : bool) (ev : event) (st : session_state) :
  ev = ClickRestartSameGoal \/ (exists g, ev = ClickRestartNewGoal g) ->
  main client ev st = final (page_training_week client ev st).
Proof.
  intros Hev. unfold main. cbv zeta.
  assert (page_initial_settings client ev st = st) as ->
    by (destruct Hev as [-> | [g ->]]; reflexivity).
  destruct (page_training_week client ev st) as [s | s]; simpl; [| reflexivity].
  unfold page_progress_and_roadmap.
  destruct (profile s); destruct Hev as [-> | [g ->]]; reflexivity.
Qed.

(** The first configuration after an acknowledged cycle end. *)
Lemma main_cycle_restart (st : session_state) (info : initial_info_t)
    (freq_next : Z) (weekdays_next : list string) (plan : week_plan_t) :
  initial_info st = Some info ->
  current_week st = 0 ->
  next_week_config_pending st = true ->
  Z.of_nat (length weekdays_next) = freq_next ->
  plan <> [] ->
  let st' := main true (SubmitNextWeekConfig freq_next weekdays_next (Some plan)) st in
  current_week st' = 1 /\ records st' = ∅ /\ weekly_plan st' = [plan]
  /\ training_logs st' = training_logs st
  /\ next_week_config_pending st' = false.
Proof.
  intros Hinfo Hweek Hpend Hlen Hplan.
  unfold main, page_initial_settings, page_training_week, next_week_config. cbv zeta.
  rewrite Hinfo. simpl. rewrite Hpend, Hweek.
  apply Z.eqb_eq in Hlen. rewrite Hlen. simpl.
  destruct plan as [| dp plan]; [congruence |]. simpl. auto.
Qed.

(** Claim C8, as the code has it.  The training log only grows: over
    any sequence of runs the log at the start is a prefix of the log at
    the end.  Pressing one of the two restart buttons that acknowledge
    the end of a cycle leaves the log and, at that point, the records as
    they are; when the button is offered it sets the week index to the
    sentinel 0 and opens the configuration step.  The configuration that
    follows, once a plan is generated, starts the new cycle at week 1
    with empty records, the new plan as the only weekly plan, and the log
    still as it was. *)
Theorem training_log_is_append_only :
  (forall client evs st,
     exists new, training_logs (session client evs st) = training_logs st ++ new)
  /\ (forall client ev st,
        ev = ClickRestartSameGoal \/ (exists g, ev = ClickRestartNewGoal g) ->
        let st' := main client ev st in
        training_logs st' = training_logs st
        /\ records st' = records st
        /\ ((current_week st' = current_week st
             /\ next_week_config_pending st' = next_week_config_pending st)
            \/ (current_week st' = 0 /\ next_week_config_pending st' = true)))
  /\ (forall st info freq_next weekdays_next plan,
        initial_info st = Some info ->
        current_week st = 0 ->
        next_week_config_pending st = true ->
        Z.of_nat (length weekdays_next) = freq_next ->
        plan <> [] ->
        let st' := main true (SubmitNextWeekConfig freq_next weekdays_next (Some plan)) st in
        current_week st' = 1 /\ records st' = ∅ /\ weekly_plan st' = [plan]
        /\ training_logs st' = training_logs st
        /\ next_week_config_pending st' = false).
Proof.
  split; [exact session_logs |]. split.
  - intros client ev st Hev st'. subst st'. rewrite (main_ack _ _ _ Hev).
    destruct (page_training_week_ack client ev st Hev) as ((_ & H1) & H2 & H3).
    auto.
  - exact main_cycle_restart.
Qed.

Lemma training_log_is_append_only_witness :
  let st1 := main true (ClickRestartNewGoal 105) cycle_end_state in
  let st2 := main true (SubmitNextWeekConfig 1 ["火"]%string (Some next_cycle_plan)) st1 in
  (training_logs st1 = training_logs cycle_end_state
   /\ records st1 = records cycle_end_state
   /\ current_week st1 = 0 /\ next_week_config_pending st1 = true)
  /\ (current_week st2 = 1 /\ records st2 = ∅ /\ weekly_plan st2 = [next_cycle_plan]
      /\ training_logs st2 = training_logs cycle_end_state).
Proof.
  intros st1 st2.
  destruct training_log_is_append_only as (_ & Hack & Hrestart).
  assert (ClickRestartNewGoal 105 = ClickRestartSameGoal
          \/ (exists g, ClickRestartNewGoal 105 = ClickRestartNewGoal g)) as Hev
    by (right; eexists; reflexivity).
  destruct (Hack true (ClickRestartNewGoal 105) cycle_end_state Hev) as (Hl & Hr & _).
  fold st1 in Hl, Hr.
  assert (current_week st1 = 0) as Hw by (vm_compute; reflexivity).
  assert (next_week_config_pending st1 = true) as Hp by (vm_compute; reflexivity).
  destruct (initial_info st1) as [info |] eqn:Hinfo;
    [| vm_compute in Hinfo; discriminate Hinfo].
  assert (Z.of_nat (length ["火"%string]) = 1) as Hlen by reflexivity.
  assert (next_cycle_plan <> []) as Hne by discriminate.
  destruct (Hrestart st1 info 1 ["火"%string] next_cycle_plan Hinfo Hw Hp Hlen Hne)
    as (H1 & H2 & H3 & H4 & _).
  fold st2 in H1, H2, H3, H4.
  split; [auto |]. split; [exact H1 |]. split; [exact H2 |]. split; [exact H3 |].
  now rewrite H4.
Defined.

(** Claim C8 as stated fails: at the end of a cycle the goal-achieved
    restart button is pressed and accepted (the week index becomes the
    sentinel 0, the configuration step opens), yet the records of the old
    cycle are all still there; they also survive a configuration whose
    plan request gives nothing. *)
Lemma acknowledging_keeps_records :
  let st1 := main true (ClickRestartNewGoal 105) cycle_end_state in
  let st2 := main true (SubmitNextWeekConfig 1 ["火"]%string None) st1 in
  current_week cycle_end_state = 4
  /\ goal_achieved_pending cycle_end_state = true
  /\ current_week st1 = 0
  /\ next_week_config_pending st1 = true
  /\ records st1 = records cycle_end_state
  /\ records st1 <> ∅
  /\ (rec_weight <$> lookup_record 4 "月" "ベンチプレス" (records st1)) = Some 102
  /\ (rec_weight <$> lookup_record 1 "月" "ベントオーバーロー" (records st1)) = Some 60
  /\ current_week st2 = 0
  /\ (rec_weight <$> lookup_record 4 "月" "ベンチプレス" (records st2)) = Some 102.
Proof.
  intros st1 st2.
  assert (current_week cycle_end_state = 4) as H1 by (vm_compute; reflexivity).
  assert (goal_achieved_pending cycle_end_state = true) as H2 by (vm_compute; reflexivity).
  assert (current_week st1 = 0) as H3 by (vm_compute; reflexivity).
  assert (next_week_config_pending st1 = true) as H4 by (vm_compute; reflexivity).
  assert (records st1 = records cycle_end_state) as H5.
  { assert (ClickRestartNewGoal 105 = ClickRestartSameGoal
            \/ (exists g, ClickRestartNewGoal 105 = ClickRestartNewGoal g)) as Hev
      by (right; eexists; reflexivity).
    unfold st1. rewrite (main_ack _ _ _ Hev).
    apply (page_training_week_ack true _ cycle_end_state Hev). }
  assert ((rec_weight <$> lookup_record 4 "月" "ベンチプレス" (records st1)) = Some 102)
    as H7 by (vm_compute; reflexivity).
  assert (records st1 <> ∅) as H6.
  { intros H. rewrite H in H7. vm_compute in H7. discriminate H7. }
  assert ((rec_weight <$> lookup_record 1 "月" "ベントオーバーロー" (records st1)) = Some 60)
    as H8 by (vm_compute; reflexivity).
  assert (current_week st2 = 0) as H9 by (vm_compute; reflexivity).
  assert ((rec_weight <$> lookup_record 4 "月" "ベンチプレス" (records st2)) = Some 102)
    as H10 by (vm_compute; reflexivity).
  repeat (split; [assumption |]). assumption.
Qed.

End FinalProofs.

(** ** More on the estimate *)

Module EstimateProofs.

Import ProgressModel ProgressProofs Roadmap.
Local Open Scope Q_scope.

Lemma estimate_nonneg (current : Q) (s : Z) :
  (0 <= estimate_weeks_to_target current s)%Z.
Proof.
  destruct (Qlt_le_dec current (inject_Z TARGET_1RM)) as [Hlt | Hge].
  - rewrite estimate_below_target by assumption. lia.
  - rewrite estimate_at_target by assumption. lia.
Qed.

Lemma estimate_zero_iff (current : Q) (s : Z) :
  estimate_weeks_to_target current s = 0%Z <-> inject_Z TARGET_1RM <= current.
Proof.
  split.
  - intros H. destruct (Qlt_le_dec current (inject_Z TARGET_1RM)) as [Hlt | Hge];
      [| assumption].
    rewrite estimate_below_target in H by assumption. lia.
  - apply estimate_at_target.
Qed.

Lemma py_ge_iff (a b : Q) : Py.ge a b = true <-> b <= a.
Proof. unfold Py.ge. apply Qle_bool_iff. Qed.

Lemma py_min_le_r (a b : Q) : py_min a b <= b.
Proof.
  unfold py_min. destruct (Qle_bool a b) eqn:E.
  - now apply Qle_bool_iff.
  - apply Qle_refl.
Qed.

Lemma py_min_glb (a b c : Q) : c <= a -> c <= b -> c <= py_min a b.
Proof. intros Ha Hb. unfold py_min. now destruct (Qle_bool a b). Qed.

Lemma py_min_one (a : Q) : py_min a 1 == 1 <-> 1 <= a.
Proof.
  unfold py_min. destruct (Qle_bool a 1) eqn:E.
  - apply Qle_bool_iff in E. split; intros H.
    + rewrite H. apply Qle_refl.
    + now apply Qle_antisym.
  - split; intros _; [| reflexivity].
    destruct (Qlt_le_dec a 1) as [Hlt | Hge]; [| assumption].
    apply Qlt_le_weak, Qle_bool_iff in Hlt. congruence.
Qed.

Lemma ratio_ge_one (current : Q) :
  1 <= current / inject_Z TARGET_1RM <-> inject_Z TARGET_1RM <= current.
Proof.
  unfold TARGET_1RM. change (inject_Z 100) with 100.
  assert (current == current / 100 * 100) as Heq by field.
  split; intros H; lra.
Qed.

(** Extra X1.  The four places that decide whether the goal is reached
    agree: the estimate is zero weeks, the page shows the 100 kg banner,
    the gauge is full and the last milestone of the roadmap is ticked,
    each exactly when the benchmark is at least [TARGET_1RM]; below the
    target the estimate is at least one week. *)
Theorem goal_indicators_agree (current_1rm : Q) (sessions_per_week : Z) :
  let reached := inject_Z TARGET_1RM <= current_1rm in
  (estimate_weeks_to_target current_1rm sessions_per_week = 0%Z <-> reached)
  /\ (shows_banner current_1rm = true <-> reached)
  /\ (progress_ratio current_1rm == 1 <-> reached)
  /\ (last (roadmap current_1rm) = Some (true, TARGET_1RM) <-> reached)
  /\ (~ reached -> (1 <= estimate_weeks_to_target current_1rm sessions_per_week)%Z).
Proof.
  intros reached. subst reached.
  split; [apply estimate_zero_iff |].
  split; [apply py_ge_iff |].
  split.
  { unfold progress_ratio. change (0 <? TARGET_1RM)%Z with true. cbv iota.
    rewrite py_min_one. apply ratio_ge_one. }
  split.
  { change (last (roadmap current_1rm))
      with (Some (Py.ge current_1rm (inject_Z TARGET_1RM), TARGET_1RM)).
    rewrite <- py_ge_iff. split; intros H; [congruence | now rewrite H]. }
  intros Hn.
  pose proof (estimate_nonneg current_1rm sessions_per_week) as H0.
  pose proof (estimate_zero_iff current_1rm sessions_per_week) as Hz.
  destruct (Z.eq_dec (estimate_weeks_to_target current_1rm sessions_per_week) 0) as [E | E].
  - apply Hz in E. contradiction.
  - lia.
Qed.

(** Extra X2.  A higher benchmark never lengthens the estimate: for the
    same number of sessions, the weeks to the target do not increase when
    the current benchmark does. *)
Theorem estimate_weeks_antitone_in_benchmark (c1 c2 : Q) (sessions_per_week : Z)
    (Hle : c1 <= c2) :
  (estimate_weeks_to_target c2 sessions_per_week
   <= estimate_weeks_to_target c1 sessions_per_week)%Z.
Proof.
  destruct (Qlt_le_dec c2 (inject_Z TARGET_1RM)) as [H2 | H2].
  - assert (c1 < inject_Z TARGET_1RM) as H1 by (eapply Qle_lt_trans; eassumption).
    rewrite !estimate_below_target by assumption.
    apply Z.max_le_compat_l, Qfloor_resp_le.
    apply Qplus_le_compat; [| apply Qle_refl].
    unfold Qdiv. apply Qmult_le_compat_r.
    + lra.
    + apply Qlt_le_weak, Qinv_lt_0_compat, weekly_gain_pos.
  - rewrite (estimate_at_target c2) by assumption. apply estimate_nonneg.
Qed.

Lemma estimate_weeks_antitone_in_benchmark_witness :
  70 <= 85
  /\ (estimate_weeks_to_target 85 3 <= estimate_weeks_to_target 70 3)%Z.
Proof.
  assert (70 <= 85) as H by (vm_compute; discriminate).
  split; [exact H |].
  exact (estimate_weeks_antitone_in_benchmark 70 85 3 H).
Defined.

(** Extra X3.  The gauge of the progress page is a valid fraction: for a
    benchmark that is not negative the value handed to the progress bar
    lies between 0 and 1, and it does not decrease when the benchmark
    grows. *)
Theorem progress_ratio_in_range (current_1rm : Q) (Hpos : 0 <= current_1rm) :
  0 <= progress_ratio current_1rm <= 1
  /\ forall c : Q, current_1rm <= c -> progress_ratio current_1rm <= progress_ratio c.
Proof.
  unfold progress_ratio. change (0 <? TARGET_1RM)%Z with true. cbv iota.
  unfold TARGET_1RM. change (inject_Z 100) with 100.
  assert (forall x : Q, x / 100 == x * (1 # 100)) as Hdiv by (intros; field).
  split; [split |].
  - apply py_min_glb; [rewrite Hdiv; lra | lra].
  - apply py_min_le_r.
  - intros c Hc. apply py_min_glb.
    + unfold py_min at 1. destruct (Qle_bool (current_1rm / 100) 1) eqn:E.
      * rewrite !Hdiv. lra.
      * destruct (Qlt_le_dec (current_1rm / 100) 1) as [Hlt | Hge].
        -- apply Qlt_le_weak, Qle_bool_iff in Hlt. congruence.
        -- rewrite Hdiv in Hge. rewrite Hdiv. lra.
    + apply py_min_le_r.
Qed.

Lemma progress_ratio_in_range_witness :
  0 <= 80 /\ 0 <= progress_ratio 80 <= 1.
Proof.
  assert (0 <= 80) as H by (vm_compute; discriminate).
  split; [exact H |].
  exact (proj1 (progress_ratio_in_range 80 H)).
Defined.

(** Extra X4.  The roadmap lists the six milestones in ascending order
    of weight, and the ticks form a prefix: a ticked milestone is never
    below an unticked one. *)
Theorem roadmap_ticks_form_prefix (current_1rm : Q) :
  (roadmap current_1rm).*2 = [60; 70; 80; 90; 95; 100]%Z
  /\ forall (i j : nat) (r1 r2 : bool) (kg1 kg2 : Z),
       roadmap current_1rm !! i = Some (r1, kg1) ->
       roadmap current_1rm !! j = Some (r2, kg2) ->
       (i <= j)%nat -> r2 = true -> (kg1 <= kg2)%Z /\ r1 = true.
Proof.
  split; [reflexivity |].
  assert (forall a b : Z, (a <= b)%Z -> Py.ge current_1rm (inject_Z b) = true ->
            Py.ge current_1rm (inject_Z a) = true) as Hmono.
  { intros a b Hab H. apply py_ge_iff. apply py_ge_iff in H.
    eapply Qle_trans; [| exact H]. now rewrite <- Zle_Qle. }
  intros i j r1 r2 kg1 kg2 Hi Hj Hij Hr2.
  unfold roadmap in Hi, Hj. rewrite list_lookup_fmap in Hi, Hj.
  destruct (milestones !! i) as [m1 |] eqn:Hm1; [| discriminate].
  destruct (milestones !! j) as [m2 |] eqn:Hm2; [| discriminate].
  simpl in Hi, Hj. injection Hi as <- <-. injection Hj as <- <-.
  assert (m1.1 <= m2.1)%Z as Hasc.
  { pose proof (lookup_lt_Some _ _ _ Hm1) as Hli.
    pose proof (lookup_lt_Some _ _ _ Hm2) as Hlj.
    change (length milestones) with 6%nat in Hli, Hlj.
    assert (i = 0 \/ i = 1 \/ i = 2 \/ i = 3 \/ i = 4 \/ i = 5)%nat as Hci by lia.
    assert (j = 0 \/ j = 1 \/ j = 2 \/ j = 3 \/ j = 4 \/ j = 5)%nat as Hcj by lia.
    repeat match goal with H : _ \/ _ |- _ => destruct H end; subst i j;
      try lia; injection Hm1 as <-; injection Hm2 as <-; simpl; lia. }
  split; [exact Hasc |]. exact (Hmono _ _ Hasc Hr2).
Qed.

End EstimateProofs.

(** ** Runs and sessions of [FINAL_s.py] *)

Module SessionProofs.

Import Final.

(** A property kept by each of the three pages is kept by a run. *)
Lemma main_preserves (P : session_state -> Prop) (client : bool) (ev : event)
    (st : session_state) :
  (forall s, P s -> P (page_initial_settings client ev s)) ->
  (forall s, P s -> P (final (page_training_week client ev s))) ->
  (forall s, P s -> P (final (page_progress_and_roadmap ev s))) ->
  P st -> P (main client ev st).
Proof.
  intros H1 H2 H3 HP. unfold main. cbv zeta.
  specialize (H2 _ (H1 _ HP)).
  destruct (page_training_week client ev (page_initial_settings client ev st)) as [s | s];
    simpl in *; auto.
Qed.

(** A property kept by every run is kept by a session. *)
Lemma session_preserves (P : session_state -> Prop) (client : bool) :
  (forall ev s, P s -> P (main client ev s)) ->
  forall evs st, P st -> P (session client evs st).
Proof.
  intros Hstep evs. unfold session.
  induction evs as [| ev evs IH]; intros st HP; simpl; auto.
Qed.

Lemma session_app (client : bool) (evs1 evs2 : list event) (st : session_state) :
  session client (evs1 ++ evs2) st = session client evs2 (session client evs1 st).
Proof. unfold session. apply foldl_app. Qed.

End SessionProofs.

(** ** The achievement date and the profile *)

Module RoadmapProofs.

Import Final Roadmap FinalProofs SessionProofs EstimateProofs.
Local Open Scope Z_scope.

Lemma insert_by_date_elem (x log : training_log) (l : list training_log) :
  x ∈ insert_by_date log l <-> x = log \/ x ∈ l.
Proof.
  induction l as [| y l IH]; simpl.
  - rewrite list_elem_of_singleton. split; [auto | intros [H | H]; [exact H | inversion H]].
  - destruct (log_date log <=? log_date y).
    + rewrite !elem_of_cons. tauto.
    + rewrite !elem_of_cons, IH. tauto.
Qed.

Lemma sorted_by_date_elem (x : training_log) (l : list training_log) :
  x ∈ sorted_by_date l <-> x ∈ l.
Proof.
  induction l as [| y l IH]; simpl; [reflexivity |].
  rewrite insert_by_date_elem, elem_of_cons, IH. tauto.
Qed.

Lemma insert_by_date_ascend (log : training_log) (l : list training_log) :
  dates_ascend l -> dates_ascend (insert_by_date log l).
Proof.
  induction l as [| y l IH]; simpl; [intros _; split; [constructor | exact I] |].
  intros [Hy Hl]. destruct (log_date log <=? log_date y) eqn:E.
  - apply Z.leb_le in E. simpl. split; [| split; assumption].
    constructor; [exact E |].
    eapply Forall_impl; [exact Hy |]. simpl. intros. lia.
  - apply Z.leb_gt in E. simpl. split; [| apply IH; exact Hl].
    apply Forall_forall. intros z Hz. apply insert_by_date_elem in Hz as [-> | Hz].
    + lia.
    + rewrite Forall_forall in Hy. apply Hy, Hz.
Qed.

Lemma sorted_by_date_ascend (l : list training_log) : dates_ascend (sorted_by_date l).
Proof.
  induction l as [| y l IH]; simpl; [exact I |]. apply insert_by_date_ascend, IH.
Qed.

Lemma find_ascend_min (l : list training_log) (x : training_log) :
  dates_ascend l -> List.find reaches_target l = Some x ->
  x ∈ l /\ reaches_target x = true
  /\ forall y, y ∈ l -> reaches_target y = true -> log_date x <= log_date y.
Proof.
  induction l as [| z l IH]; simpl; [discriminate |].
  intros [Hz Hl] Hfind. destruct (reaches_target z) eqn:E.
  - injection Hfind as <-. split; [left |]. split; [exact E |].
    intros y Hy _. apply elem_of_cons in Hy as [-> | Hy]; [lia |].
    rewrite Forall_forall in Hz. apply Hz, Hy.
  - destruct (IH Hl Hfind) as (H1 & H2 & H3). split; [now right |].
    split; [exact H2 |].
    intros y Hy Hr. apply elem_of_cons in Hy as [-> | Hy]; [congruence |].
    apply H3; assumption.
Qed.

Lemma find_none_all (l : list training_log) :
  List.find reaches_target l = None <-> forall y, y ∈ l -> reaches_target y = false.
Proof.
  induction l as [| z l IH]; simpl.
  - split; [intros _ y Hy; inversion Hy | reflexivity].
  - destruct (reaches_target z) eqn:E.
    + split; [discriminate |]. intros H. specialize (H z). rewrite E in H.
      discriminate H. left.
    + rewrite IH. split.
      * intros H y Hy. apply elem_of_cons in Hy as [-> | Hy]; auto.
      * intros H y Hy. apply H. now right.
Qed.

Lemma get_first_unfold (st : session_state) :
  get_first_100kg_date st
  = log_date <$> List.find reaches_target (sorted_by_date (training_logs st)).
Proof.
  unfold get_first_100kg_date. cbv zeta.
  destruct (training_logs st); reflexivity.
Qed.

Lemma get_first_none (st : session_state) :
  get_first_100kg_date st = None
  <-> forall log, log ∈ training_logs st -> reaches_target log = false.
Proof.
  rewrite get_first_unfold.
  destruct (List.find _ _) as [x |] eqn:Hfind; simpl.
  - split; [discriminate |]. intros H.
    destruct (find_ascend_min _ _ (sorted_by_date_ascend _) Hfind) as (H1 & H2 & _).
    apply (proj1 (sorted_by_date_elem _ _)) in H1. rewrite (H _ H1) in H2. discriminate.
  - split; [| reflexivity]. intros _ log Hlog.
    apply (proj1 (find_none_all _) Hfind). exact (proj2 (sorted_by_date_elem _ _) Hlog).
Qed.

Lemma get_first_some (st : session_state) (d : Z) :
  get_first_100kg_date st = Some d ->
  (exists log, log ∈ training_logs st /\ log_date log = d /\ reaches_target log = true)
  /\ forall log, log ∈ training_logs st -> reaches_target log = true -> d <= log_date log.
Proof.
  rewrite get_first_unfold.
  destruct (List.find _ _) as [x |] eqn:Hfind; simpl; [| discriminate].
  intros [= <-].
  destruct (find_ascend_min _ _ (sorted_by_date_ascend _) Hfind) as (H1 & H2 & H3).
  split.
  - exists x. split; [exact (proj1 (sorted_by_date_elem _ _) H1) | auto].
  - intros log Hlog Hr. apply H3; [exact (proj2 (sorted_by_date_elem _ _) Hlog) | exact Hr].
Qed.

(** Extra X5.  [get_first_100kg_date] gives the earliest date among the
    logs whose benchmark is at least [TARGET_1RM], whatever the order in
    which the logs were appended; it gives nothing exactly when no log
    (in particular an empty log list) reaches the target. *)
Theorem get_first_100kg_date_is_earliest (st : session_state) :
  match get_first_100kg_date st with
  | Some d =>
      (exists log, log ∈ training_logs st /\ log_date log = d
                   /\ (inject_Z TARGET_1RM <= log_current_1rm log)%Q)
      /\ forall log, log ∈ training_logs st ->
           (inject_Z TARGET_1RM <= log_current_1rm log)%Q -> d <= log_date log
  | None =>
      forall log, log ∈ training_logs st ->
        (log_current_1rm log < inject_Z TARGET_1RM)%Q
  end.
Proof.
  destruct (get_first_100kg_date st) as [d |] eqn:E.
  - destruct (get_first_some _ _ E) as [(log & H1 & H2 & H3) H4]. split.
    + exists log. split; [exact H1 |]. split; [exact H2 |].
      apply py_ge_iff. exact H3.
    + intros log' Hin Hge. apply H4; [exact Hin |]. apply py_ge_iff. exact Hge.
  - intros log Hin. apply py_ge_false.
    exact (proj1 (get_first_none st) E log Hin).
Qed.

(** Extra X6.  Once an achievement date exists it is never lost and
    never moves later: after any further runs of the script the date is
    still defined and is the same or an earlier one. *)
Theorem achievement_date_never_moves_later (client : bool) (evs : list event)
    (st : session_state) (d : Z)
    (Hd : get_first_100kg_date st = Some d) :
  exists d', get_first_100kg_date (session client evs st) = Some d' /\ d' <= d.
Proof.
  destruct (get_first_some _ _ Hd) as [(log & H1 & H2 & H3) _].
  destruct (session_logs client evs st) as [new Hnew].
  assert (log ∈ training_logs (session client evs st)) as Hin
    by (rewrite Hnew; apply elem_of_app; now left).
  destruct (get_first_100kg_date (session client evs st)) as [d' |] eqn:E.
  - exists d'. split; [reflexivity |].
    destruct (get_first_some _ _ E) as [_ Hmin]. rewrite <- H2. now apply Hmin.
  - rewrite (proj1 (get_first_none _) E log Hin) in H3. discriminate.
Qed.

Lemma achievement_date_never_moves_later_witness :
  let st := session true [SubmitProfile 170 70 80 ["月"%string] 739000 None;
                          SubmitMaxTest 739030 739028 100] init_state in
  get_first_100kg_date st = Some 739028
  /\ exists d', get_first_100kg_date
                  (session true [SubmitMaxTest 739040 739020 101] st) = Some d'
                /\ d' <= 739028.
Proof.
  intros st.
  assert (get_first_100kg_date st = Some 739028) as H by (vm_compute; reflexivity).
  split; [exact H |].
  exact (achievement_date_never_moves_later true [SubmitMaxTest 739040 739020 101]
           st 739028 H).
Defined.

Lemma log_follows_profile_same (st st' : session_state) :
  same_profile_and_logs st st' -> log_follows_profile st -> log_follows_profile st'.
Proof. unfold log_follows_profile. intros [-> ->]. auto. Qed.

Lemma page_initial_settings_log_follows (client : bool) (ev : event) (st : session_state) :
  log_follows_profile st -> log_follows_profile (page_initial_settings client ev st).
Proof.
  intros H. unfold page_initial_settings, log_training_snapshot.
  destruct ev as [| h w c wd today reply | | | | | | | |]; try exact H. cbv zeta. simpl.
  destruct (negb (Py.truthy wd)); [exact H |].
  assert (forall l : list training_log, l = training_logs st ++
            [{| log_date := today; log_current_1rm := c;
                log_note := "初期設定" |}] ->
          exists log, last l = Some log /\ log_current_1rm log = c) as Hlast.
  { intros l ->. eexists. rewrite last_snoc. split; reflexivity. }
  unfold log_follows_profile.
  destruct (generate_ai_week_plan client reply) as [plan |]; [destruct (Py.truthy plan) |];
    simpl; apply Hlast; reflexivity.
Qed.

Lemma page_progress_log_follows (ev : event) (st : session_state) :
  log_follows_profile st -> log_follows_profile (final (page_progress_and_roadmap ev st)).
Proof.
  intros H. unfold page_progress_and_roadmap, log_training_snapshot.
  destruct (profile st) as [p |] eqn:Hp; [| exact H].
  destruct ev as [| | | | | | | | | today test_date test_1rm]; try exact H.
  destruct (Qle_bool test_1rm 0); [exact H |]. simpl.
  unfold log_follows_profile. simpl. eexists. rewrite last_snoc. split; reflexivity.
Qed.

Lemma session_log_follows (client : bool) (evs : list event) :
  log_follows_profile (session client evs init_state).
Proof.
  apply session_preserves; [| exact I].
  intros ev s Hs. apply main_preserves; [| | | exact Hs].
  - intros s'. apply page_initial_settings_log_follows.
  - intros s'. apply log_follows_profile_same.
    apply (page_training_week_reviews client ev s').
  - intros s'. apply page_progress_log_follows.
Qed.

(** Extra X7.  In every state a session reaches from a fresh one, the
    last training log carries the benchmark of the profile; so whenever
    the progress page shows the 100 kg banner, [get_first_100kg_date]
    finds a date for it, not later than the date of that last log. *)
Theorem banner_always_has_a_date (client : bool) (evs : list event)
    (p : profile_t)
    (Hp : profile (session client evs init_state) = Some p) :
  let st := session client evs init_state in
  exists log,
    last (training_logs st) = Some log
    /\ log_current_1rm log = current_1rm p
    /\ (shows_banner (current_1rm p) = true ->
        exists d, get_first_100kg_date st = Some d /\ d <= log_date log).
Proof.
  intros st. pose proof (session_log_follows client evs) as H.
  unfold log_follows_profile in H. fold st in H, Hp. rewrite Hp in H.
  destruct H as (log & Hlast & Hval). exists log.
  split; [exact Hlast |]. split; [exact Hval |].
  intros Hb.
  assert (log ∈ training_logs st) as Hin by (eapply last_Some_elem_of; exact Hlast).
  assert (reaches_target log = true) as Hr
    by (unfold reaches_target; rewrite Hval; exact Hb).
  destruct (get_first_100kg_date st) as [d |] eqn:E.
  - exists d. split; [reflexivity |].
    destruct (get_first_some _ _ E) as [_ Hmin]. now apply Hmin.
  - rewrite (proj1 (get_first_none _) E log Hin) in Hr. discriminate.
Qed.

Lemma banner_always_has_a_date_witness :
  let evs := [SubmitProfile 170 70 80 ["月"%string] 739000 None;
              SubmitMaxTest 739030 739028 100] in
  let st := session true evs init_state in
  exists p log,
    profile st = Some p
    /\ last (training_logs st) = Some log
    /\ log_current_1rm log = current_1rm p.
Proof.
  intros evs st.
  destruct (profile st) as [p |] eqn:Hp; [| vm_compute in Hp; discriminate Hp].
  destruct (banner_always_has_a_date true evs p Hp) as (log & H1 & H2 & _).
  exists p, log. split; [reflexivity |]. split; [exact H1 | exact H2].
Defined.

Lemma page_initial_settings_dated (client : bool) (ev : event) (st : session_state) :
  profile_dated st -> profile_dated (page_initial_settings client ev st).
Proof.
  intros H. unfold page_initial_settings, log_training_snapshot.
  destruct ev as [| h w c wd today reply | | | | | | | |]; try exact H. cbv zeta. simpl.
  destruct wd as [| d wd]; [exact H |]. simpl negb. cbv iota.
  assert (0 <= ProgressModel.estimate_weeks_to_target c (Z.of_nat (length (d :: wd))))
    as Hw by apply estimate_nonneg.
  assert (1 <= Z.of_nat (length (d :: wd))) as Hs by (simpl; lia).
  unfold profile_dated.
  destruct (generate_ai_week_plan client reply) as [plan |]; [destruct (Py.truthy plan) |];
    simpl profile; cbv iota beta; simpl target_date; simpl start_date;
    simpl target_weeks; simpl sessions_per_week; auto.
Qed.

Lemma page_progress_dated (ev : event) (st : session_state) :
  profile_dated st -> profile_dated (final (page_progress_and_roadmap ev st)).
Proof.
  intros H. unfold page_progress_and_roadmap, log_training_snapshot.
  destruct (profile st) as [p |] eqn:Hp; [| exact H].
  destruct ev as [| | | | | | | | | today test_date test_1rm]; try exact H.
  destruct (Qle_bool test_1rm 0); [exact H |]. simpl.
  unfold profile_dated in *. rewrite Hp in H. simpl. exact H.
Qed.

Lemma session_dated (client : bool) (evs : list event) :
  profile_dated (session client evs init_state).
Proof.
  apply session_preserves; [| exact I].
  intros ev s Hs. apply main_preserves; [| | | exact Hs].
  - intros s'. apply page_initial_settings_dated.
  - intros s'. unfold profile_dated.
    destruct (page_training_week_reviews client ev s') as [[-> _] _]. auto.
  - intros s'. apply page_progress_dated.
Qed.

(** Extra X8.  In every state a session reaches from a fresh one, the
    dates of the profile fit together: the target date is the start date
    plus the stored number of weeks, which is not negative, and the
    profile counts at least one session a week.  So the chart code of the
    progress page moves the target date (to the day after the start)
    exactly when the stored number of weeks is zero. *)
Theorem profile_dates_fit (client : bool) (evs : list event) (p : profile_t)
    (Hp : profile (session client evs init_state) = Some p) :
  target_date p = start_date p + 7 * target_weeks p
  /\ 0 <= target_weeks p
  /\ 1 <= sessions_per_week p
  /\ ProgressModel.clamp_target_date (start_date p) (target_date p)
     = if target_weeks p =? 0 then start_date p + 1 else target_date p.
Proof.
  pose proof (session_dated client evs) as H.
  unfold profile_dated in H. rewrite Hp in H. destruct H as (H1 & H2 & H3).
  split; [exact H1 |]. split; [exact H2 |]. split; [exact H3 |].
  unfold ProgressModel.clamp_target_date.
  destruct (target_weeks p =? 0) eqn:E.
  - apply Z.eqb_eq in E. rewrite (proj2 (Z.leb_le _ _)) by lia. reflexivity.
  - apply Z.eqb_neq in E. rewrite (proj2 (Z.leb_gt _ _)) by lia. reflexivity.
Qed.

Lemma profile_dates_fit_witness :
  exists p,
    profile (session true submit_profile init_state) = Some p
    /\ target_date p = start_date p + 7 * target_weeks p
    /\ 0 <= target_weeks p.
Proof.
  destruct (profile (session true submit_profile init_state)) as [p |] eqn:Hp;
    [| vm_compute in Hp; discriminate Hp].
  exists p. split; [reflexivity |].
  destruct (profile_dates_fit true submit_profile p Hp) as (H1 & H2 & _).
  split; [exact H1 | exact H2].
Defined.

End RoadmapProofs.

(** ** The training cycle along a session *)

Module CycleProofs.

Import Final Cycle FinalProofs SessionProofs.
Local Open Scope Z_scope.

Lemma same_cycle_refl (st : session_state) : same_cycle st st.
Proof. unfold same_cycle. tauto. Qed.

Lemma is_day_reviewed_done (week : Z) (day : string) (st st' : session_state) :
  day_review_done st' = day_review_done st ->
  is_day_reviewed week day st' = is_day_reviewed week day st.
Proof. unfold is_day_reviewed. now intros ->. Qed.

Lemma next_week_config_step (client : bool) (ev : event) (info : initial_info_t)
    (st : session_state) :
  next_week_config_pending st = true ->
  training_step ev st (final (next_week_config client ev info st)).
Proof.
  intros Hpend. unfold next_week_config. cbv zeta.
  destruct ev as [| | f wd reply | | | | | | |];
    try (apply step_refresh, same_cycle_refl).
  destruct (negb (Z.of_nat (length wd) =? f)); [apply step_refresh, same_cycle_refl |].
  unfold generate_ai_week_plan.
  destruct client; [| eapply step_config_failed; eauto].
  destruct reply as [plan |]; [| eapply step_config_failed; eauto].
  destruct plan as [| dp plan]; [eapply step_config_failed; eauto |].
  simpl Py.truthy. cbv iota.
  destruct (current_week st =? 0) eqn:E.
  - apply Z.eqb_eq in E.
    eapply step_config_restart; eauto; try reflexivity; try discriminate.
    split; reflexivity.
  - apply Z.eqb_neq in E.
    eapply step_config_next; eauto; try reflexivity; try discriminate.
    split; reflexivity.
Qed.

Lemma week_footer_step (plan : week_plan_t) (ev : event) (st : session_state) :
  next_week_config_pending st = false ->
  (Z.of_nat (length (weekly_plan st)) <=? current_week st - 1) = false ->
  getitem (weekly_plan st) (current_week st - 1) = Some plan ->
  training_step ev st (final (week_footer (current_week st) plan ev st)).
Proof.
  intros Hpend Hlen Hplan. unfold week_footer.
  pose proof (check_week_frame (current_week st) plan (records st) st) as Hf.
  destruct (week_recorded (current_week st) plan (records st)) eqn:Hwr.
  2:{ destruct (check_week_incomplete _ _ _ st Hwr) as [msg ->]. simpl.
      apply step_refresh, same_cycle_refl. }
  destruct (check_all_records_saved_for_week (current_week st) plan (records st) st)
    as [res st1].
  cbv zeta in Hf. simpl in Hf.
  destruct Hf as ((Hp & Hl) & (Hr & Hw & Hd & Hlr & Hts) & Hi & Hcw & Hpe).
  assert (same_cycle st st1) as Hsame by (unfold same_cycle; tauto).
  destruct res as [[b msg] |]; [| apply step_refresh; exact Hsame].
  destruct b; [| apply step_refresh; exact Hsame].
  assert (forallb (fun dp => is_day_reviewed (current_week st) (dp_day dp) st1) plan
          = forallb (fun dp => is_day_reviewed (current_week st) (dp_day dp) st) plan)
    as Hall.
  { induction plan as [| dp plan' IH]; [reflexivity |]. simpl.
    rewrite (is_day_reviewed_done _ _ _ _ Hd). f_equal.
    clear -Hd. induction plan' as [| dp' plan'' IH']; [reflexivity |]. simpl.
    rewrite (is_day_reviewed_done _ _ _ _ Hd). now f_equal. }
  rewrite Hall. clear Hall.
  destruct (forallb (fun dp => is_day_reviewed (current_week st) (dp_day dp) st) plan)
    eqn:Hrev; [| apply step_refresh; exact Hsame].
  simpl andb. cbv iota.
  assert (forall st2 : session_state,
            records st2 = records st1 -> weekly_plan st2 = weekly_plan st1 ->
            day_review_done st2 = day_review_done st1 ->
            last_review st2 = last_review st1 ->
            next_week_config_pending st2 = true ->
            (ev = ClickNextWeekConfig /\ current_week st < 4
             /\ current_week st2 = current_week st
             \/ (ev = ClickRestartSameGoal \/ exists g, ev = ClickRestartNewGoal g)
                /\ current_week st = 4 /\ current_week st2 = 0) ->
            training_step ev st st2) as Hleave.
  { intros st2 H1 H2 H3 H4 H5 H6.
    apply (step_leave ev st st2 plan); try assumption; congruence. }
  destruct (current_week st =? 4) eqn:E4.
  - apply Z.eqb_eq in E4.
    destruct (initial_info st1) as [info |]; [| apply step_refresh; exact Hsame].
    destruct (goal_achieved_pending st1).
    + destruct ev; try (apply step_refresh; exact Hsame).
      simpl. apply Hleave; try reflexivity.
      right. split; [right; eexists; reflexivity |]. split; [exact E4 | reflexivity].
    + destruct (max_registered_not_achieved st1); [| apply step_refresh; exact Hsame].
      destruct ev; try (apply step_refresh; exact Hsame).
      simpl. apply Hleave; try reflexivity.
      right. split; [left; reflexivity |]. split; [exact E4 | reflexivity].
  - destruct (current_week st <? 4) eqn:Elt; [| apply step_refresh; exact Hsame].
    apply Z.ltb_lt in Elt.
    destruct ev; try (apply step_refresh; exact Hsame).
    simpl. apply Hleave; try reflexivity.
    left. split; [reflexivity |]. split; [exact Elt | exact Hcw].
Qed.

Lemma page_training_week_step (client : bool) (ev : event) (st : session_state) :
  training_step ev st (final (page_training_week client ev st)).
Proof.
  unfold page_training_week.
  destruct (initial_info st) as [info |]; [| apply step_refresh, same_cycle_refl].
  destruct client; [| apply step_refresh, same_cycle_refl]. simpl negb. cbv iota.
  destruct (next_week_config_pending st) eqn:Hpend;
    [now apply next_week_config_step |].
  destruct (training_started st); simpl negb; cbv iota.
  2:{ destruct ev; apply step_refresh; unfold same_cycle; simpl; tauto. }
  cbv zeta.
  destruct (Z.of_nat (length (weekly_plan st)) <=? current_week st - 1) eqn:Hlen.
  { apply step_refresh. unfold same_cycle. simpl. tauto. }
  destruct (getitem (weekly_plan st) (current_week st - 1)) as [plan |] eqn:Hplan;
    [| apply step_refresh, same_cycle_refl].
  destruct (render_days (current_week st) plan plan ev st) as [st' |] eqn:Hdays.
  - apply render_days_cases in Hdays
      as [(dp & item & name & w & r & s & note & He & Hdp & Hitem & Hname & Hrev & Hst)
         | (dp & text & He & Hdp & Hsaved & Hrev & Hst)].
    + subst name. simpl. eapply step_save; eauto.
    + simpl. eapply step_review; eauto.
  - now apply week_footer_step.
Qed.

(** What a run of [page_initial_settings] can do to the cycle. *)
Lemma page_initial_settings_cases (client : bool) (ev : event) (st : session_state) :
  let st' := page_initial_settings client ev st in
  (records st' = records st /\ weekly_plan st' = weekly_plan st
   /\ day_review_done st' = day_review_done st
   /\ current_week st' = current_week st
   /\ next_week_config_pending st' = next_week_config_pending st)
  \/ (exists plan, plan <> [] /\ records st' = ∅ /\ weekly_plan st' = [plan]
                   /\ no_reviews st' /\ current_week st' = 1
                   /\ next_week_config_pending st' = false).
Proof.
  unfold page_initial_settings, log_training_snapshot.
  destruct ev as [| h w c wd today reply | | | | | | | |]; try (left; tauto).
  cbv zeta. simpl.
  destruct (negb (Py.truthy wd)); [left; tauto |].
  destruct (generate_ai_week_plan client reply) as [plan |]; [| left; simpl; tauto].
  destruct plan as [| dp plan]; [left; simpl; tauto |].
  right. exists (dp :: plan). simpl. repeat split; discriminate.
Qed.

Lemma lookup_record_empty (week : Z) (day name : string) :
  lookup_record week day name ∅ = None.
Proof. unfold lookup_record. now rewrite lookup_empty. Qed.

Lemma cycle_invariant_fields (st st' : session_state) :
  records st' = records st -> weekly_plan st' = weekly_plan st ->
  day_review_done st' = day_review_done st ->
  current_week st' = current_week st ->
  next_week_config_pending st' = next_week_config_pending st ->
  cycle_invariant st -> cycle_invariant st'.
Proof.
  intros Hr Hw Hd Hc Hp (HW & HP & HR & HV).
  unfold cycle_invariant, week_index_ok, plans_ok, records_planned, reviews_recorded in *.
  rewrite Hr, Hw, Hc, Hp.
  split; [exact HW |]. split; [exact HP |]. split; [exact HR |].
  intros week day Hrev. rewrite (is_day_reviewed_done _ _ _ _ Hd) in Hrev.
  exact (HV week day Hrev).
Qed.

(** The invariant of a cycle that has just been started with [plan]. *)
Lemma cycle_invariant_fresh (st' : session_state) (plan : week_plan_t) :
  records st' = ∅ -> weekly_plan st' = [plan] -> no_reviews st' ->
  current_week st' = 1 -> next_week_config_pending st' = false ->
  cycle_invariant st'.
Proof.
  intros Hr Hw Hn Hc Hp.
  unfold cycle_invariant, week_index_ok, plans_ok, records_planned, reviews_recorded.
  rewrite Hr, Hw, Hc, Hp.
  split; [split; [lia | split; [lia | discriminate]] |].
  split; [right; right; reflexivity |].
  split.
  - intros week day name r H. rewrite lookup_record_empty in H. discriminate.
  - intros week day H. rewrite (is_day_reviewed_none _ _ _ Hn) in H. discriminate.
Qed.

Lemma getitem_nonneg {A} (xs : list A) (i : Z) :
  0 <= i -> getitem xs i = xs !! Z.to_nat i.
Proof. intros H. unfold getitem. now rewrite (proj2 (Z.leb_le _ _) H). Qed.

Lemma save_record_lookup_same (week : Z) (day : string) (item : menu_item)
    (w_input r_input s_input : Z) (note_input : string) (st : session_state) :
  lookup_record week day (item_name item)
    (records (save_record week day item w_input r_input s_input note_input st))
  = Some {| rec_weight := w_input;
            rec_reps := if (week =? 4) && item_is_max item then 1 else r_input;
            rec_sets := if (week =? 4) && item_is_max item then 1 else s_input;
            rec_note := note_input; rec_is_max := item_is_max item |}.
Proof. unfold save_record. simpl. apply lookup_record_insert. Qed.

Lemma menu_recorded_save (week : Z) (day : string) (menu : list menu_item)
    (week' : Z) (day' : string) (item : menu_item)
    (w_input r_input s_input : Z) (note_input : string) (st : session_state) :
  menu_recorded week day menu (records st) = true ->
  menu_recorded week day menu
    (records (save_record week' day' item w_input r_input s_input note_input st)) = true.
Proof.
  unfold menu_recorded. rewrite !forallb_forall. intros H x Hx.
  specialize (H x Hx). apply bool_decide_eq_true in H. apply bool_decide_eq_true.
  destruct (decide ((week, day, item_name x) = (week', day', item_name item)))
    as [Heq | Hne].
  - injection Heq as -> -> ->. rewrite save_record_lookup_same. eauto.
  - rewrite save_record_other by exact Hne. exact H.
Qed.

(** No branch of [page_training_week] breaks the invariant. *)
Lemma training_step_invariant (ev : event) (st st' : session_state) :
  training_step ev st st' -> cycle_invariant st -> cycle_invariant st'.
Proof.
  intros Hstep Hinv.
  destruct Hstep as
    [ (Hr & Hw & Hd & _ & Hc & Hp & _)
    | f wd reply _ Hpend Hr Hw Hd _ Hc Hp
    | f wd plan _ Hpend Hc0 Hne Hr Hw Hn Hc Hp _
    | f wd plan _ Hpend Hc0 Hne Hr Hw Hn Hc Hp _
    | plan dp item w r s note Hpend Hlen Hplan _ Hdp Hitem Hrev ->
    | plan dp text Hpend Hlen Hplan _ Hdp Hsaved Hrev ->
    | plan Hpend Hlen Hplan Hwr Hall Hr Hw Hd _ Hp Hev ].
  - now apply (cycle_invariant_fields st).
  - apply (cycle_invariant_fields st); congruence.
  - now apply (cycle_invariant_fresh _ plan).
  - destruct Hinv as ((HW1 & HW2 & HW3) & HP & HR & HV).
    specialize (HW3 Hpend).
    unfold cycle_invariant, week_index_ok, plans_ok, records_planned, reviews_recorded.
    rewrite Hr, Hw, Hc, Hp.
    split; [split; [lia | split; [lia | discriminate]] |].
    split.
    { right. right. rewrite length_app. simpl.
      destruct HP as [[_ HP] | [HP | HP]]; [congruence | contradiction | lia]. }
    split.
    + intros week day name r0 H. destruct (HR _ _ _ _ H) as (H1 & pl & dp & it & H2 & H3).
      split; [exact H1 |]. exists pl, dp, it. split; [| exact H3].
      now apply lookup_app_l_Some.
    + intros week day H. rewrite (is_day_reviewed_none _ _ _ Hn) in H. discriminate.
  - destruct Hinv as ((HW1 & HW2 & HW3) & HP & HR & HV).
    assert (1 <= current_week st) as Hcw.
    { destruct (Z.eq_dec (current_week st) 0) as [E | E]; [| lia].
      rewrite (HW2 E) in Hpend. discriminate. }
    rewrite getitem_nonneg in Hplan by lia.
    split; [exact (conj HW1 (conj HW2 HW3)) |]. split; [exact HP |]. split.
    + intros week day name r0 H.
      destruct (decide ((week, day, name) = (current_week st, dp_day dp, item_name item)))
        as [Heq | Hne].
      * injection Heq as -> -> ->. rewrite save_record_lookup_same in H.
        injection H as <-. split; [exact Hcw |].
        exists plan, dp, item.
        split; [exact Hplan |]. split; [exact Hdp |]. split; [reflexivity |].
        split; [exact Hitem |]. split; [reflexivity |]. split; [reflexivity |].
        intros H4 Hmax. simpl. rewrite H4, Hmax. split; reflexivity.
      * rewrite save_record_other in H by exact Hne. exact (HR _ _ _ _ H).
    + intros week day H.
      destruct (HV week day H) as (H1 & pl & dp' & H2 & H3 & H4).
      split; [exact H1 |]. exists pl, dp'. split; [exact H2 |]. split; [exact H3 |].
      now apply menu_recorded_save.
  - destruct Hinv as ((HW1 & HW2 & HW3) & HP & HR & HV).
    assert (1 <= current_week st) as Hcw.
    { destruct (Z.eq_dec (current_week st) 0) as [E | E]; [| lia].
      rewrite (HW2 E) in Hpend. discriminate. }
    rewrite getitem_nonneg in Hplan by lia.
    split; [exact (conj HW1 (conj HW2 HW3)) |]. split; [exact HP |]. split; [exact HR |].
    intros week day H. rewrite is_day_reviewed_review in H.
    case_bool_decide as Hkey.
    + destruct Hkey as [-> ->]. split; [exact Hcw |].
      rewrite check_day_spec in Hsaved.
      destruct (day_plan_of (dp_day dp) plan) as [dp' |] eqn:Hdp'; [| discriminate].
      exists plan, dp'. auto.
    + exact (HV week day H).
  - destruct Hinv as ((HW1 & HW2 & HW3) & HP & HR & HV).
    assert (1 <= current_week st) as Hcw.
    { destruct (Z.eq_dec (current_week st) 0) as [E | E]; [| lia].
      rewrite (HW2 E) in Hpend. discriminate. }
    unfold cycle_invariant, week_index_ok, plans_ok, records_planned, reviews_recorded.
    rewrite Hr, Hw, Hp.
    split.
    { destruct Hev as [(_ & H1 & ->) | (_ & H1 & ->)]; repeat split; auto; lia. }
    split.
    { destruct HP as [[HP _] | [HP | HP]].
      - rewrite HP in Hlen. simpl in Hlen. apply Z.leb_gt in Hlen. lia.
      - lia.
      - destruct Hev as [(_ & _ & ->) | (_ & _ & ->)]; auto. }
    split; [exact HR |].
    intros week day H. rewrite (is_day_reviewed_done _ _ _ _ Hd) in H.
    exact (HV week day H).
Qed.

Lemma page_training_week_invariant (client : bool) (ev : event) (st : session_state) :
  cycle_invariant st -> cycle_invariant (final (page_training_week client ev st)).
Proof. exact (training_step_invariant ev _ _ (page_training_week_step client ev st)). Qed.

Lemma page_initial_settings_invariant (client : bool) (ev : event) (st : session_state) :
  cycle_invariant st -> cycle_invariant (page_initial_settings client ev st).
Proof.
  intros Hinv.
  destruct (page_initial_settings_cases client ev st)
    as [(H1 & H2 & H3 & H4 & H5) | (plan & _ & H1 & H2 & H3 & H4 & H5)].
  - now apply (cycle_invariant_fields st).
  - now apply (cycle_invariant_fresh _ plan).
Qed.

Lemma page_progress_invariant (ev : event) (st : session_state) :
  cycle_invariant st -> cycle_invariant (final (page_progress_and_roadmap ev st)).
Proof.
  destruct (page_progress_frame ev st) as ((H1 & _) & (H2 & H3 & _) & H4 & H5 & _).
  now apply cycle_invariant_fields.
Qed.

Lemma main_invariant (client : bool) (ev : event) (st : session_state) :
  cycle_invariant st -> cycle_invariant (main client ev st).
Proof.
  apply main_preserves.
  - intros s. apply page_initial_settings_invariant.
  - intros s. apply page_training_week_invariant.
  - intros s. apply page_progress_invariant.
Qed.

Lemma init_state_invariant : cycle_invariant init_state.
Proof.
  split; [split; [simpl; lia | split; [discriminate | discriminate]] |].
  split; [left; split; reflexivity |]. split.
  - intros week day name r H. simpl in H. rewrite lookup_record_empty in H. discriminate.
  - intros week day H. unfold is_day_reviewed in H. simpl in H.
    rewrite lookup_empty in H. simpl in H. rewrite lookup_empty in H. discriminate.
Qed.

Lemma session_invariant (client : bool) (evs : list event) :
  cycle_invariant (session client evs init_state).
Proof.
  apply session_preserves; [| exact init_state_invariant].
  intros ev s. apply main_invariant.
Qed.

(** Extra X9.  In every state a session reaches from a fresh one, the
    week index is between 0 and 4; it is 0 only while the configuration
    step is open, and that step is never open in week 4.  Outside the
    configuration step, once a plan exists there is exactly one plan per
    week so far, and the plan the training page reads, at index
    [current_week - 1], is the last one generated: the lookup neither
    fails nor wraps around. *)
Theorem week_index_stays_in_cycle (client : bool) (evs : list event) :
  let st := session client evs init_state in
  0 <= current_week st <= 4
  /\ (current_week st = 0 -> next_week_config_pending st = true)
  /\ (next_week_config_pending st = true -> current_week st < 4)
  /\ (next_week_config_pending st = false -> weekly_plan st <> [] ->
      Z.of_nat (length (weekly_plan st)) = current_week st
      /\ getitem (weekly_plan st) (current_week st - 1) = last (weekly_plan st)).
Proof.
  intros st. destruct (session_invariant client evs) as ((H1 & H2 & H3) & HP & _).
  fold st in H1, H2, H3, HP.
  split; [exact H1 |]. split; [exact H2 |]. split; [exact H3 |].
  intros Hpend Hne.
  assert (1 <= current_week st) as Hcw.
  { destruct (Z.eq_dec (current_week st) 0) as [E | E]; [| lia].
    rewrite (H2 E) in Hpend. discriminate. }
  destruct HP as [[HP _] | [HP | HP]]; [contradiction | lia |].
  split; [exact HP |].
  rewrite getitem_nonneg by lia. rewrite last_lookup. f_equal. lia.
Qed.

(** Extra X10.  In every state a session reaches from a fresh one, each
    stored record belongs to the plan: its week has a plan, that plan has
    a day with the record's day label, and that day's menu has an item
    with the record's name and max-test mark; and every record of a
    max-test item of week 4 has 1 repetition and 1 set. *)
Theorem every_record_belongs_to_the_plan (client : bool) (evs : list event)
    (week : Z) (day name : string) (r : record)
    (Hr : lookup_record week day name (records (session client evs init_state)) = Some r) :
  let st := session client evs init_state in
  1 <= week
  /\ exists plan dp item,
       weekly_plan st !! Z.to_nat (week - 1) = Some plan
       /\ dp ∈ plan /\ dp_day dp = day
       /\ item ∈ dp_menu dp /\ item_name item = name
       /\ rec_is_max r = item_is_max item
       /\ (week = 4 -> item_is_max item = true -> rec_reps r = 1 /\ rec_sets r = 1).
Proof.
  intros st. destruct (session_invariant client evs) as (_ & _ & HR & _).
  exact (HR week day name r Hr).
Qed.

Lemma every_record_belongs_to_the_plan_witness :
  let evs := to_week4 one_max_plan ++ [save_bench 102; NoEvent; save_row] in
  let st := session true evs init_state in
  exists r,
    lookup_record 4 "月" "ベンチプレス" (records st) = Some r
    /\ rec_reps r = 1 /\ rec_sets r = 1.
Proof.
  intros evs st.
  assert (lookup_record 4 "月" "ベンチプレス" (records (session true evs init_state))
          = Some {| rec_weight := 102; rec_reps := 1; rec_sets := 1;
                    rec_note := ""; rec_is_max := true |}) as Hr
    by (vm_compute; reflexivity).
  eexists. split; [exact Hr |].
  destruct (every_record_belongs_to_the_plan true evs 4 "月"%string "ベンチプレス"%string
              _ Hr)
    as (_ & plan & dp & item & _ & _ & _ & _ & _ & Hmax & H4).
  apply H4; [reflexivity |]. rewrite <- Hmax. reflexivity.
Defined.



(** A run whose input is neither of the two forms outside the training
    page is a run of the training page. *)
Lemma main_training (client : bool) (ev : event) (st : session_state) :
  (forall h w c wd t r, ev <> SubmitProfile h w c wd t r) ->
  (forall t d x, ev <> SubmitMaxTest t d x) ->
  main client ev st = final (page_training_week client ev st).
Proof.
  intros H1 H2. unfold main. cbv zeta.
  assert (page_initial_settings client ev st = st) as ->.
  { destruct ev; try reflexivity. exfalso. eapply H1. reflexivity. }
  destruct (page_training_week client ev st) as [s | s]; simpl; [| reflexivity].
  unfold page_progress_and_roadmap. destruct (profile s); [| reflexivity].
  destruct ev; try reflexivity. exfalso. eapply H2. reflexivity.
Qed.

(** The progress page leaves the cycle as the training page left it. *)
Lemma main_frame (client : bool) (ev : event) (st : session_state) :
  same_cycle (final (page_training_week client ev (page_initial_settings client ev st)))
    (main client ev st).
Proof.
  unfold main. cbv zeta.
  destruct (page_training_week client ev (page_initial_settings client ev st)) as [s | s];
    simpl; [| apply same_cycle_refl].
  destruct (page_progress_frame ev s)
    as ((H1 & H2) & (H3 & H4 & _) & H5 & H6 & H7 & _).
  unfold same_cycle. tauto.
Qed.

(** Extra X12.  A reviewed day is read-only: pressing a save button for
    an item of a day of the current week that is already reviewed leaves
    the records, the plans, the reviews, the week index and the stored
    configuration exactly as they are. *)
Theorem reviewed_day_is_read_only (client : bool) (st : session_state)
    (day name : string) (w_input r_input s_input : Z) (note_input : string)
    (Hrev : is_day_reviewed (current_week st) day st = true) :
  let st' := main client (ClickSave day name w_input r_input s_input note_input) st in
  same_cycle st st'
  /\ profile st' = profile st /\ training_logs st' = training_logs st.
Proof.
  intros st'. subst st'. rewrite main_training by discriminate.
  destruct (page_training_week_reviews client
              (ClickSave day name w_input r_input s_input note_input) st)
    as [[Hp Hl] _].
  split; [| split; assumption].
  destruct (page_training_week_step client
              (ClickSave day name w_input r_input s_input note_input) st)
    as [ Hsame
       | f wd reply He | f wd plan He | f wd plan He
       | plan dp item w r s note Hpend Hlen Hplan He Hdp Hitem Hnot Hst
       | plan dp text Hpend Hlen Hplan He
       | plan Hpend Hlen Hplan Hwr Hall Hr Hw Hd Hlr Hp' Hev ];
    try discriminate He.
  - exact Hsame.
  - injection He as -> _ _ _ _ _. congruence.
  - destruct Hev as [(He & _) | ([He | [g He]] & _)]; discriminate He.
Qed.

Lemma reviewed_day_is_read_only_witness :
  let evs := to_week4 one_max_plan
             ++ [save_bench 102; NoEvent; save_row; NoEvent;
                 ClickFinishDay "月" "good"; NoEvent] in
  let st := session true evs init_state in
  is_day_reviewed (current_week st) "月" st = true
  /\ records (main true (save_bench 250) st) = records st.
Proof.
  intros evs st.
  assert (is_day_reviewed (current_week st) "月" st = true) as H
    by (vm_compute; reflexivity).
  split; [exact H |].
  exact (proj1 (proj1 (reviewed_day_is_read_only true st "月"%string "ベンチプレス"%string
                         250 5 3 ""%string H))).
Defined.

(** Extra X13.  A week is left only when it is complete: in one run the
    configuration step opens only through one of the three buttons below
    the day list, and then every item of the current week's plan had a
    record and every day of it was reviewed; the button for the next week
    applies before week 4, the two restart buttons in week 4, and the
    records are not touched. *)
Theorem week_is_left_only_when_complete (client : bool) (ev : event)
    (st : session_state)
    (Hbefore : next_week_config_pending st = false)
    (Hafter : next_week_config_pending (main client ev st) = true) :
  let st' := main client ev st in
  exists plan,
    getitem (weekly_plan st) (current_week st - 1) = Some plan
    /\ week_recorded (current_week st) plan (records st) = true
    /\ forallb (fun dp => is_day_reviewed (current_week st) (dp_day dp) st) plan = true
    /\ records st' = records st
    /\ (ev = ClickNextWeekConfig /\ current_week st < 4
        /\ current_week st' = current_week st
        \/ (ev = ClickRestartSameGoal \/ exists g, ev = ClickRestartNewGoal g)
           /\ current_week st = 4 /\ current_week st' = 0).
Proof.
  intros st'. subst st'.
  destruct (main_frame client ev st) as (Fr & _ & _ & _ & Fc & Fp & _).
  rewrite Fp in Hafter. rewrite Fr, Fc. clear Fr Fc Fp.
  destruct (page_initial_settings_reviews client ev st) as [_ Hid].
  assert (next_week_config_pending (page_initial_settings client ev st) = false) as Hp1.
  { destruct (page_initial_settings_cases client ev st)
      as [(_ & _ & _ & _ & H) | (plan & _ & _ & _ & _ & _ & H)]; congruence. }
  set (s1 := page_initial_settings client ev st) in *.
  destruct (page_training_week_step client ev s1)
    as [ (_ & _ & _ & _ & _ & Hsame & _)
       | f wd reply He Hpend
       | f wd plan He Hpend Hc0 Hne Hr Hw Hn Hc Hp
       | f wd plan He Hpend Hc0 Hne Hr Hw Hn Hc Hp
       | plan dp item w r s note Hpend Hlen Hplan He Hdp Hitem Hnot Hst
       | plan dp text Hpend Hlen Hplan He Hdp Hsaved Hnot Hst
       | plan Hpend Hlen Hplan Hwr Hall Hr Hw Hd Hlr Hp' Hev ];
    try congruence.
  - rewrite Hst in Hafter. simpl in Hafter. congruence.
  - rewrite Hst in Hafter. simpl in Hafter. congruence.
  - assert (s1 = st) as Hs1.
    { apply Hid. intros h w c wd t r He.
      destruct Hev as [(E & _) | ([E | [g E]] & _)]; congruence. }
    rewrite Hs1 in *. exists plan. repeat (split; [assumption |]). exact Hev.
Qed.

Lemma week_is_left_only_when_complete_witness :
  let evs := submit_profile
             ++ [ClickStart; NoEvent; save_row; NoEvent; ClickFinishDay "月" "good";
                 NoEvent] in
  let st := session true evs init_state in
  next_week_config_pending st = false
  /\ next_week_config_pending (main true ClickNextWeekConfig st) = true
  /\ exists plan,
       getitem (weekly_plan st) (current_week st - 1) = Some plan
       /\ week_recorded (current_week st) plan (records st) = true.
Proof.
  intros evs st.
  assert (next_week_config_pending st = false) as H1 by (vm_compute; reflexivity).
  assert (next_week_config_pending (main true ClickNextWeekConfig st) = true) as H2
    by (vm_compute; reflexivity).
  split; [exact H1 |]. split; [exact H2 |].
  destruct (week_is_left_only_when_complete true ClickNextWeekConfig st H1 H2)
    as (plan & Hplan & Hwr & _).
  exists plan. split; [exact Hplan | exact Hwr].
Defined.

Lemma render_days_noevent (week : Z) (plan days : week_plan_t) (st : session_state) :
  render_days week plan days NoEvent st = None.
Proof.
  destruct (render_days week plan days NoEvent st) as [st' |] eqn:H; [| reflexivity].
  apply render_days_cases in H as [(dp & i & n & w & r & s & note & He & _)
                                  | (dp & text & He & _)]; discriminate He.
Qed.

(** Running the week check again on the state it left gives the same
    answer and writes nothing new. *)
Lemma check_week_idempotent (week : Z) (plan : week_plan_t) (rs : records_t)
    (st : session_state) :
  let res := check_all_records_saved_for_week week plan rs st in
  check_all_records_saved_for_week week plan rs res.2 = res.
Proof.
  unfold check_all_records_saved_for_week.
  destruct (scan_week week (default ∅ (rs !! week)) plan (false, 0))
    as [msg | [done w]]; [reflexivity |].
  destruct ((week =? 4) && done); [| reflexivity].
  cbv zeta. simpl initial_info.
  destruct (initial_info st) as [info |] eqn:Hinfo; simpl; [| now rewrite Hinfo].
  destruct (Py.ge (inject_Z w) (inject_Z (goal_bp info))) eqn:Hge;
    simpl; rewrite Hinfo; simpl; rewrite Hge; reflexivity.
Qed.

Lemma week_footer_noevent (week : Z) (plan : week_plan_t) (st : session_state) :
  final (week_footer week plan NoEvent st)
  = (check_all_records_saved_for_week week plan (records st) st).2.
Proof.
  unfold week_footer.
  destruct (check_all_records_saved_for_week week plan (records st) st) as [res st1].
  simpl. destruct res as [[b msg] |]; [| reflexivity].
  repeat case_match; reflexivity.
Qed.

(** What a run without input does on the training page. *)
Lemma page_training_week_noevent (client : bool) (st : session_state) :
  final (page_training_week client NoEvent st)
  = match initial_info st with
    | None => st
    | Some _ =>
        if negb client || next_week_config_pending st || negb (training_started st)
        then st
        else if Z.of_nat (length (weekly_plan st)) <=? current_week st - 1
        then set_training_started false st
        else
          match getitem (weekly_plan st) (current_week st - 1) with
          | None => st
          | Some plan =>
              (check_all_records_saved_for_week (current_week st) plan (records st) st).2
          end
    end.
Proof.
  unfold page_training_week.
  destruct (initial_info st) as [info |]; [| reflexivity].
  destruct client; [| reflexivity]. simpl.
  destruct (next_week_config_pending st); [reflexivity |].
  destruct (training_started st); [| reflexivity]. simpl.
  destruct (Z.of_nat (length (weekly_plan st)) <=? current_week st - 1); [reflexivity |].
  destruct (getitem (weekly_plan st) (current_week st - 1)) as [plan |]; [| reflexivity].
  rewrite render_days_noevent. apply week_footer_noevent.
Qed.

(** Extra X14.  A rerun without input is harmless and idempotent: it
    leaves the profile, the logs, the records, the plans, the reviews,
    the week index and the stored configuration as they are (only the
    benchmark, the two goal flags and the started flag can be refreshed),
    and a second rerun changes nothing at all. *)
Theorem rerun_without_input_is_idempotent (client : bool) (st : session_state) :
  let st' := main client NoEvent st in
  same_cycle st st'
  /\ profile st' = profile st /\ training_logs st' = training_logs st
  /\ main client NoEvent st' = st'.
Proof.
  intros st'. subst st'. rewrite !main_training by discriminate.
  destruct (page_training_week_reviews client NoEvent st) as [[Hp Hl] _].
  split; [| split; [exact Hp | split; [exact Hl |]]].
  - destruct (page_training_week_step client NoEvent st)
      as [ Hsame | f wd reply He | f wd plan He | f wd plan He
         | plan dp item w r s note Hpend Hlen Hplan He
         | plan dp text Hpend Hlen Hplan He
         | plan Hpend Hlen Hplan Hwr Hall Hr Hw Hd Hlr Hp' Hev ];
      try discriminate He; [exact Hsame |].
    destruct Hev as [(He & _) | ([He | [g He]] & _)]; discriminate He.
  - rewrite (page_training_week_noevent client st).
    destruct (initial_info st) as [info |] eqn:Hinfo.
    2:{ rewrite page_training_week_noevent, Hinfo. reflexivity. }
    destruct (negb client || next_week_config_pending st || negb (training_started st))
      eqn:Hguard.
    { rewrite page_training_week_noevent, Hinfo, Hguard. reflexivity. }
    destruct (Z.of_nat (length (weekly_plan st)) <=? current_week st - 1) eqn:Hlen.
    { rewrite page_training_week_noevent. simpl. rewrite Hinfo.
      destruct client; [| reflexivity]. simpl.
      destruct (next_week_config_pending st); reflexivity. }
    destruct (getitem (weekly_plan st) (current_week st - 1)) as [plan |] eqn:Hplan.
    2:{ rewrite page_training_week_noevent, Hinfo, Hguard, Hlen, Hplan. reflexivity. }
    pose proof (check_week_frame (current_week st) plan (records st) st) as Hf.
    pose proof (check_week_idempotent (current_week st) plan (records st) st) as Hidem.
    cbv zeta in Hf, Hidem.
    set (st1 := (check_all_records_saved_for_week (current_week st) plan (records st)
                   st).2) in *.
    destruct Hf as (_ & (Hr & Hw & _ & _ & Hts) & Hi & Hc & Hpe).
    rewrite page_training_week_noevent, Hi, Hinfo, Hpe, Hts, Hguard, Hw, Hc, Hlen, Hplan, Hr.
    now rewrite Hidem.
Qed.

(** Extra X15.  Advancing to the next week.  In a state a session
    reaches from a fresh one, with the configuration step open during a
    running cycle, a configuration whose count matches the chosen
    weekdays and whose plan request gives a non-empty plan moves to the
    next week: the plan is appended and is the one the training page will
    read, all records and the training log are kept, the reviews are
    emptied, and training is not started. *)
Theorem next_week_config_success_advances (evs : list event) (info : initial_info_t)
    (freq_next : Z) (weekdays_next : list string) (plan : week_plan_t)
    (Hinfo : initial_info (session true evs init_state) = Some info)
    (Hpend : next_week_config_pending (session true evs init_state) = true)
    (Hweek : current_week (session true evs init_state) <> 0)
    (Hlen : Z.of_nat (length weekdays_next) = freq_next)
    (Hplan : plan <> []) :
  let st := session true evs init_state in
  let st' := main true (SubmitNextWeekConfig freq_next weekdays_next (Some plan)) st in
  current_week st' = current_week st + 1
  /\ weekly_plan st' = weekly_plan st ++ [plan]
  /\ getitem (weekly_plan st') (current_week st' - 1) = Some plan
  /\ records st' = records st
  /\ training_logs st' = training_logs st /\ profile st' = profile st
  /\ no_reviews st'
  /\ training_started st' = false
  /\ next_week_config_pending st' = false
  /\ initial_info st' = Some (info_set_weekdays weekdays_next (info_set_freq freq_next info)).
Proof.
  intros st st'.
  destruct (session_invariant true evs) as ((HW1 & HW2 & HW3) & HP & _).
  fold st in Hinfo, Hpend, Hweek, HW1, HW2, HW3, HP.
  assert (Z.of_nat (length (weekly_plan st)) = current_week st) as Hcount.
  { destruct HP as [[_ HP] | [HP | HP]]; [congruence | contradiction | exact HP]. }
  assert (st' = set_max_registered_not_achieved false
                  (set_goal_achieved_pending false
                    (set_training_started false
                      (set_next_week_config_pending false
                        (set_last_review ∅
                          (set_day_review_done ∅
                            (set_weekly_plan (weekly_plan st ++ [plan])
                              (set_current_week (current_week st + 1)
                                (set_initial_info
                                   (Some (info_set_weekdays weekdays_next
                                            (info_set_freq freq_next info))) st)))))))))
    as Hst'.
  { unfold st', main, page_initial_settings, page_training_week, next_week_config.
    cbv zeta. rewrite Hinfo. simpl. rewrite Hpend.
    apply Z.eqb_eq in Hlen. rewrite Hlen. simpl.
    apply Z.eqb_neq in Hweek. rewrite Hweek.
    destruct plan as [| dp plan]; [congruence |]. reflexivity. }
  rewrite Hst'. simpl.
  repeat split.
  rewrite getitem_nonneg by lia.
  replace (Z.to_nat (current_week st + 1 - 1)) with (length (weekly_plan st) + 0)%nat by lia.
  rewrite lookup_app_r by lia. now replace (length (weekly_plan st) + 0 - length (weekly_plan st))%nat with 0%nat by lia.
Qed.

Lemma next_week_config_success_advances_witness :
  let evs := submit_profile ++ train_plain_week in
  let st := session true evs init_state in
  let st' := main true (SubmitNextWeekConfig 1 ["月"%string] (Some plain_plan)) st in
  next_week_config_pending st = true
  /\ current_week st <> 0
  /\ current_week st' = current_week st + 1
  /\ records st' = records st.
Proof.
  intros evs st st'.
  assert (next_week_config_pending (session true evs init_state) = true) as Hp
    by (vm_compute; reflexivity).
  assert (current_week (session true evs init_state) <> 0) as Hw
    by (vm_compute; discriminate).
  destruct (initial_info (session true evs init_state)) as [info |] eqn:Hinfo;
    [| vm_compute in Hinfo; discriminate Hinfo].
  assert (Z.of_nat (length ["月"%string]) = 1) as Hlen by reflexivity.
  assert (plain_plan <> []) as Hne by discriminate.
  destruct (next_week_config_success_advances evs info 1 ["月"%string] plain_plan
              Hinfo Hp Hw Hlen Hne) as (H1 & _ & _ & H4 & _).
  split; [exact Hp |]. split; [exact Hw |]. split; [exact H1 | exact H4].
Defined.

Lemma page_progress_other (ev : event) (st : session_state) :
  (forall t d x, ev <> SubmitMaxTest t d x) ->
  final (page_progress_and_roadmap ev st) = st.
Proof.
  intros H. unfold page_progress_and_roadmap. destruct (profile st); [| reflexivity].
  destruct ev; try reflexivity. exfalso. eapply H. reflexivity.
Qed.

(** A run whose input belongs to no widget of the training page only
    refreshes there. *)
Lemma page_training_week_foreign (client : bool) (ev : event) (st : session_state) :
  (exists h w c wd t r, ev = SubmitProfile h w c wd t r)
  \/ (exists t d x, ev = SubmitMaxTest t d x) ->
  same_cycle st (final (page_training_week client ev st)).
Proof.
  intros Hev.
  destruct (page_training_week_step client ev st)
    as [ Hsame | f wd reply He | f wd plan He | f wd plan He
       | plan dp item w r s note Hpend Hlen Hplan He
       | plan dp text Hpend Hlen Hplan He
       | plan Hpend Hlen Hplan Hwr Hall Hr Hw Hd Hlr Hp' Hev' ];
    [exact Hsame | | | | | |];
    destruct Hev as [(h0 & w0 & c0 & wd0 & t0 & r0 & E) | (t0 & d0 & x0 & E)];
    try congruence;
    destruct Hev' as [(He & _) | ([He | [g He]] & _)]; congruence.
Qed.

(** Extra X16.  Submitting the profile form.  With no weekday chosen the
    submission is refused: profile, logs and cycle stay as they are.
    Otherwise the profile (with the estimate and the two dates), one more
    log and the stored configuration (goal [TARGET_1RM], one session per
    chosen weekday) are written before the plan is requested, and stay
    written when the request fails, in which case the running cycle
    (records, plans, reviews, week index, configuration step) is
    untouched; when the request gives a non-empty plan, a new cycle
    starts at week 1 with that plan alone, no records and no reviews. *)
Theorem profile_submission_effects (client : bool) (h w c : Q) (wd : list string)
    (today : Z) (reply : option week_plan_t) (st : session_state) :
  let st' := main client (SubmitProfile h w c wd today reply) st in
  let n := Z.of_nat (length wd) in
  let weeks := ProgressModel.estimate_weeks_to_target c n in
  match wd with
  | [] =>
      same_cycle st st' /\ profile st' = profile st
      /\ training_logs st' = training_logs st
  | _ :: _ =>
      profile st' = Some {| height := h; weight := w; current_1rm := c;
                            sessions_per_week := n; target_weeks := weeks;
                            target_date := today + 7 * weeks; start_date := today |}
      /\ training_logs st'
         = training_logs st ++ [{| log_date := today; log_current_1rm := c;
                                   log_note := "初期設定" |}]
      /\ initial_info st' = Some {| info_height := h; body_weight := w; current_bp := c;
                                    goal_bp := TARGET_1RM; freq := n; weekdays := wd |}
      /\ match generate_ai_week_plan client reply with
         | Some (dp :: plan) =>
             weekly_plan st' = [dp :: plan] /\ records st' = ∅
             /\ current_week st' = 1 /\ no_reviews st'
             /\ next_week_config_pending st' = false
         | _ =>
             records st' = records st /\ weekly_plan st' = weekly_plan st
             /\ day_review_done st' = day_review_done st
             /\ last_review st' = last_review st
             /\ current_week st' = current_week st
             /\ next_week_config_pending st' = next_week_config_pending st
         end
  end.
Proof.
  intros st' n weeks.
  set (ev := SubmitProfile h w c wd today reply) in *.
  assert (st' = final (page_training_week client ev (page_initial_settings client ev st)))
    as Hst'.
  { unfold st', main. cbv zeta.
    destruct (page_training_week client ev (page_initial_settings client ev st))
      as [s | s]; simpl; [| reflexivity].
    apply page_progress_other. discriminate. }
  set (s1 := page_initial_settings client ev st) in *.
  assert (same_cycle s1 st') as (Hr & Hw & Hd & Hlr & Hc & Hp & Hi).
  { rewrite Hst'. apply page_training_week_foreign.
    left. unfold ev. repeat eexists. }
  destruct (page_training_week_reviews client ev s1) as [[Hprof Hlogs] _].
  rewrite <- Hst' in Hprof, Hlogs.
  rewrite Hprof, Hlogs, Hi. unfold no_reviews. rewrite Hr, Hw, Hd, Hlr, Hc, Hp.
  unfold same_cycle. rewrite Hr, Hw, Hd, Hlr, Hc, Hp, Hi.
  clear. subst s1 ev n weeks.
  unfold page_initial_settings, log_training_snapshot. cbv zeta.
  destruct wd as [| d wd]; [simpl; tauto |].
  simpl negb. cbv iota. simpl profile. cbv iota.
  destruct (generate_ai_week_plan client reply) as [[| dp plan] |]; simpl; tauto.
Qed.





End CycleProofs.

(** ** The day check, the week check and saving *)

Module CheckProofs.

Import Final Cycle FinalProofs CycleProofs.
Local Open Scope Z_scope.

Lemma first_unsaved_spec (week : Z) (day : string) (menu : list menu_item)
    (rs : records_t) :
  match first_unsaved (default ∅ (default ∅ (rs !! week) !! day)) menu with
  | None => menu_recorded week day menu rs = true
  | Some name =>
      exists pre item post,
        menu = pre ++ item :: post
        /\ menu_recorded week day pre rs = true
        /\ item_name item = name
        /\ lookup_record week day name rs = None
  end.
Proof.
  induction menu as [| item menu IH]; simpl; [reflexivity |].
  rewrite <- lookup_record_default.
  destruct (lookup_record week day (item_name item) rs) as [r |] eqn:Hr.
  - destruct (first_unsaved _ menu) as [name |].
    + destruct IH as (pre & it & post & -> & H1 & H2 & H3).
      exists (item :: pre), it, post. split; [reflexivity |]. split; [| auto].
      simpl. rewrite Hr, H1. reflexivity.
    + rewrite bool_decide_eq_true_2 by eauto. exact IH.
  - exists [], item, menu. auto.
Qed.

(** Extra X18.  The result of the day check.  The check looks at the
    first day of the plan that carries the label: when there is none it
    fails with the message for a missing day; when every item of that
    day's menu has a record it succeeds; otherwise it fails and names the
    first item of the menu, in menu order, that has no record. *)
Theorem day_check_names_first_missing_item (week : Z) (day : string)
    (plan : week_plan_t) (rs : records_t) :
  let res := check_all_records_saved_for_day week day plan rs in
  match day_plan_of day plan with
  | None => res = (false, "該当日がメニューに見つかりません"%string)
  | Some dp =>
      if menu_recorded week day (dp_menu dp) rs then res = (true, "完了"%string)
      else
        exists pre item post,
          dp_menu dp = pre ++ item :: post
          /\ menu_recorded week day pre rs = true
          /\ lookup_record week day (item_name item) rs = None
          /\ res = (false, msg_missing day (item_name item))
  end.
Proof.
  cbv zeta. unfold day_plan_of.
  induction plan as [| dp plan IH]; simpl; [reflexivity |].
  case_bool_decide as Hday; [| exact IH].
  pose proof (first_unsaved_spec week day (dp_menu dp) rs) as Hspec.
  pose proof (first_unsaved_none week day (dp_menu dp) rs) as Hnone.
  destruct (first_unsaved _ (dp_menu dp)) as [name |].
  - rewrite Hnone. destruct Hspec as (pre & item & post & H1 & H2 & <- & H4).
    exists pre, item, post. auto.
  - rewrite Hspec. reflexivity.
Qed.

Lemma check_week_false_iff (week : Z) (plan : week_plan_t) (rs : records_t)
    (st : session_state) :
  (exists msg, (check_all_records_saved_for_week week plan rs st).1 = Some (false, msg))
  <-> week_recorded week plan rs = false.
Proof.
  split.
  - intros [msg H]. destruct (week_recorded week plan rs) eqn:Hwr; [| reflexivity].
    exfalso. unfold check_all_records_saved_for_week in H.
    rewrite (check_week_scan _ _ _ Hwr) in H.
    destruct (scan_result _ _ _ _) as [done w]. revert H.
    repeat case_match; simpl; discriminate.
  - intros H. destruct (check_week_incomplete _ _ _ st H) as [msg ->]. now exists msg.
Qed.

Lemma day_plan_of_elem (day : string) (plan : week_plan_t) (dp : day_plan) :
  day_plan_of day plan = Some dp -> dp ∈ plan /\ dp_day dp = day.
Proof.
  unfold day_plan_of. intros H. apply find_some in H as [H1 H2].
  apply bool_decide_eq_true in H2. split; [now apply list_elem_of_In | exact H2].
Qed.

Lemma day_plan_of_nodup (plan : week_plan_t) (dp : day_plan) :
  NoDup (dp_day <$> plan) -> dp ∈ plan -> day_plan_of (dp_day dp) plan = Some dp.
Proof.
  unfold day_plan_of. induction plan as [| dp' plan IH]; intros Hnd Hin.
  - inversion Hin.
  - simpl in *. apply NoDup_cons in Hnd as [Hnotin Hnd].
    apply elem_of_cons in Hin as [-> | Hin].
    + now rewrite bool_decide_eq_true_2.
    + rewrite bool_decide_eq_false_2; [now apply IH |].
      intros E. apply Hnotin. rewrite E. apply list_elem_of_fmap. now exists dp.
Qed.

Lemma forallb_false_elem {A} (f : A -> bool) (l : list A) :
  forallb f l = false <-> exists x, x ∈ l /\ f x = false.
Proof.
  induction l as [| y l IH]; simpl.
  - split; [discriminate | intros (x & H & _); inversion H].
  - rewrite andb_false_iff, IH. split.
    + intros [H | (x & H1 & H2)]; [exists y; split; [left | exact H] |].
      exists x. split; [now right | exact H2].
    + intros (x & H1 & H2). apply elem_of_cons in H1 as [-> | H1]; eauto.
Qed.

(** Extra X19.  How the two checks compose.  A failing day check of a
    day of the plan always makes the week check fail.  When the day
    labels of the plan are pairwise distinct the converse holds too: the
    week check fails only if the day check of some day of the plan
    fails. *)
Theorem week_check_fails_iff_a_day_check_fails (week : Z) (plan : week_plan_t)
    (rs : records_t) (st : session_state) :
  let week_fails :=
    exists msg, (check_all_records_saved_for_week week plan rs st).1 = Some (false, msg) in
  let a_day_fails :=
    exists dp, dp ∈ plan
               /\ (check_all_records_saved_for_day week (dp_day dp) plan rs).1 = false in
  (a_day_fails -> week_fails)
  /\ (NoDup (dp_day <$> plan) -> week_fails -> a_day_fails).
Proof.
  intros week_fails a_day_fails. subst week_fails a_day_fails.
  rewrite check_week_false_iff. unfold week_recorded. rewrite forallb_false_elem.
  split.
  - intros (dp & Hin & Hfail). rewrite check_day_spec in Hfail.
    destruct (day_plan_of (dp_day dp) plan) as [dp' |] eqn:Hdp.
    + destruct (day_plan_of_elem _ _ _ Hdp) as [Hin' Hday].
      exists dp'. split; [exact Hin' |]. now rewrite Hday.
    + exfalso. unfold day_plan_of in Hdp.
      apply list_elem_of_In in Hin. pose proof (find_none _ _ Hdp dp Hin) as Hf.
      simpl in Hf. now rewrite bool_decide_eq_true_2 in Hf.
  - intros Hnd (dp & Hin & Hfail). exists dp. split; [exact Hin |].
    rewrite check_day_spec, (day_plan_of_nodup _ _ Hnd Hin). exact Hfail.
Qed.

Lemma week_check_fails_iff_a_day_check_fails_witness :
  let plan := [ {| dp_day := "月"; dp_menu := [row] |};
                {| dp_day := "水"; dp_menu := [bench_max] |} ] in
  let rs : records_t := records (save_record 1 "月" row 60 8 3 "" init_state) in
  NoDup (dp_day <$> plan)
  /\ (exists msg,
        (check_all_records_saved_for_week 1 plan rs init_state).1 = Some (false, msg))
  /\ exists dp, dp ∈ plan
                /\ (check_all_records_saved_for_day 1 (dp_day dp) plan rs).1 = false.
Proof.
  intros plan rs.
  assert (NoDup (dp_day <$> plan)) as Hnd.
  { refine (bool_decide_unpack _ _). vm_compute. exact I. }
  assert (exists msg,
            (check_all_records_saved_for_week 1 plan rs init_state).1 = Some (false, msg))
    as Hweek by (eexists; vm_compute; reflexivity).
  split; [exact Hnd |]. split; [exact Hweek |].
  exact (proj2 (week_check_fails_iff_a_day_check_fails 1 plan rs init_state) Hnd Hweek).
Defined.

(** With a day label used twice the converse fails: both day checks look
    at the first day with the label and pass, while the week check finds
    the unrecorded item of the second one. *)
Example duplicate_day_labels_split_the_checks :
  let plan := [ {| dp_day := "月"; dp_menu := [row] |};
                {| dp_day := "月"; dp_menu := [bench_max] |} ] in
  let rs : records_t := records (save_record 1 "月" row 60 8 3 "" init_state) in
  (forall dp, dp ∈ plan ->
     (check_all_records_saved_for_day 1 (dp_day dp) plan rs).1 = true)
  /\ (check_all_records_saved_for_week 1 plan rs init_state).1
     = Some (false, msg_missing "月" "ベンチプレス").
Proof.
  intros plan rs. split.
  - intros dp Hin. unfold plan in Hin.
    apply elem_of_cons in Hin as [-> | Hin];
      [| apply list_elem_of_singleton in Hin as ->]; vm_compute; reflexivity.
  - vm_compute. reflexivity.
Qed.


End CheckProofs.

(** ** The identifiers and the weights of the generated plan *)

Module PlanProofs.

Import Updated PlanIds UpdatedProofs.
Local Open Scope string_scope.

Lemma pretty_N_go_free (x : N) (s : string) :
  free_of underscore s -> free_of underscore (pretty_N_go x s).
Proof.
  revert s. induction (N.lt_wf_0 x) as [x _ IH]. intros s Hs.
  destruct (N.eq_dec x 0%N) as [-> | Hx]; [now rewrite pretty_N_go_0 |].
  rewrite pretty_N_go_step by lia. apply IH.
  - apply N.div_lt; lia.
  - simpl. split; [| exact Hs].
    unfold pretty_N_char. repeat case_match; discriminate.
Qed.

Lemma fmt_free (z : Z) : free_of underscore (fmt z).
Proof.
  assert (forall p : positive, free_of underscore (pretty p)) as Hpos.
  { intros p. unfold pretty, pretty_positive, pretty, pretty_N.
    case_decide; [simpl; split; [discriminate | exact I] |].
    now apply pretty_N_go_free. }
  unfold fmt, pretty, pretty_Z. destruct z as [| p | p].
  - simpl. split; [discriminate | exact I].
  - apply Hpos.
  - simpl. split; [discriminate | apply Hpos].
Qed.

(** Two strings that agree up to the first occurrence of [c] agree on
    what comes before and after it. *)
Lemma split_at_first (c : Ascii.ascii) (d1 d2 a b : string) :
  free_of c d1 -> free_of c d2 ->
  d1 +:+ String c a = d2 +:+ String c b -> d1 = d2 /\ a = b.
Proof.
  revert d2. induction d1 as [| x d1 IH]; intros [| y d2]; simpl.
  - intros _ _ [= ->]. auto.
  - intros _ [Hy _] [= -> _]. contradiction.
  - intros [Hx _] _ [= -> _]. contradiction.
  - intros [_ H1] [_ H2] [= -> H]. destruct (IH d2 H1 H2 H) as [-> ->]. auto.
Qed.

Lemma item_key_inj (week_index s1 s2 : Z) (x1 x2 : string) :
  x1 ∈ suffixes -> x2 ∈ suffixes ->
  item_key week_index s1 x1 = item_key week_index s2 x2 -> s1 = s2 /\ x1 = x2.
Proof.
  intros H1 H2 Hkey. unfold item_key in Hkey.
  apply (String.app_inj "w") in Hkey.
  apply (String.app_inj (fmt week_index)) in Hkey.
  apply (String.app_inj "_s") in Hkey.
  assert (forall x, x ∈ suffixes -> exists rest, x = String underscore rest) as Hshape.
  { intros x Hx. unfold suffixes in Hx.
    repeat (apply elem_of_cons in Hx as [-> | Hx]; [eexists; reflexivity |]).
    inversion Hx. }
  destruct (Hshape _ H1) as [r1 ->]. destruct (Hshape _ H2) as [r2 ->].
  destruct (split_at_first underscore _ _ _ _ (fmt_free s1) (fmt_free s2) Hkey) as [Hs ->].
  split; [| reflexivity]. apply (inj pretty). exact Hs.
Qed.

Lemma fmap_bind_list {A B C} (f : B -> C) (g : A -> list B) (l : list A) :
  f <$> (l ≫= g) = l ≫= (fun x => f <$> g x).
Proof.
  induction l as [| x l IH]; [reflexivity |].
  rewrite !bind_cons, fmap_app, IH. reflexivity.
Qed.

Lemma session_block_ids (base : Q) (week_index session : Z) :
  id <$> session_block base week_index session = item_key week_index session <$> suffixes.
Proof. reflexivity. Qed.

Lemma suffixes_nodup : NoDup suffixes.
Proof. refine (bool_decide_unpack _ _). vm_compute. exact I. Qed.

(** Extra X21.  The identifiers of a generated plan are pairwise
    distinct, for every benchmark, session count and week index, so
    each exercise of the week has a checkbox key and a done-flag of its
    own; the plan has ten entries per session and none when the session
    count is zero or negative. *)
Theorem generate_week_plan_ids_distinct (current_1rm : Q)
    (sessions_per_week week_index : Z) :
  let plan := generate_week_plan current_1rm sessions_per_week week_index in
  NoDup (id <$> plan)
  /\ length plan = (10 * Z.to_nat sessions_per_week)%nat
  /\ ((sessions_per_week <= 0)%Z -> plan = []).
Proof.
  intros plan. subst plan. rewrite generate_week_plan_blocks.
  set (base := (current_1rm * (1 + inject_Z week_index * (2 # 100)))%Q).
  split; [| split].
  - rewrite fmap_bind_list.
    apply NoDup_bind.
    + intros s1 s2 y _ _ H1 H2. cbv beta in H1, H2.
      rewrite session_block_ids in H1, H2.
      apply list_elem_of_fmap in H1 as (x1 & -> & Hx1).
      apply list_elem_of_fmap in H2 as (x2 & Hkey & Hx2).
      now destruct (item_key_inj _ _ _ _ _ Hx1 Hx2 Hkey).
    + intros s _. cbv beta. rewrite session_block_ids.
      apply NoDup_fmap_2_strong; [| exact suffixes_nodup].
      intros x y Hx Hy Hkey. now destruct (item_key_inj _ _ _ _ _ Hx Hy Hkey).
    + apply NoDup_seqZ.
  - rewrite (bind_length_const _ 10); [| intros; apply session_block_length].
    now rewrite length_seqZ.
  - intros Hs. unfold seqZ. replace (Z.to_nat sessions_per_week) with 0%nat by lia.
    reflexivity.
Qed.







End PlanProofs.

(** ** The protein page *)

Module ProteinProofs.

Import Roadmap Protein EstimateProofs.
Local Open Scope Q_scope.

Lemma estimate_protein_nonneg (client : bool) (reply : option Q) :
  0 <= estimate_protein_from_image client reply.
Proof.
  unfold estimate_protein_from_image.
  destruct client; simpl; [| apply Qle_refl].
  destruct reply as [grams |]; [apply py_max_lower | apply Qle_refl].
Qed.

Lemma qle_bool_false (a b : Q) : Qle_bool a b = false -> b < a.
Proof. intros H. apply py_ge_false. exact H. Qed.

(** Extra X23.  The gauge of the protein page is a valid fraction and
    the day's total never goes negative: when the total so far is not
    negative and the amount typed in respects the bound of its input, the
    value handed to the progress bar lies between 0 and 1 and the total
    after the run is not negative; what a photo adds is never negative,
    whatever the answer to the request; and for a positive body weight
    the goal is positive after the run. *)
Theorem protein_gauge_in_range (client : bool) (weight : Q) (today : Z)
    (ev : protein_event) (s : protein_state)
    (Htotal : 0 <= protein_today s) (Hev : within_bounds ev) :
  let res := page_protein client (Some weight) today ev s in
  (exists v, res.2 = Some v /\ 0 <= ratio v <= 1)
  /\ 0 <= protein_today res.1
  /\ (0 < weight -> 0 < protein_goal res.1).
Proof.
  intros res. subst res. unfold page_protein. cbv zeta.
  set (s1 := if Qle_bool (protein_goal s) 0 then set_protein_goal (weight * 2) s else s).
  assert (protein_today s1 = protein_today s) as Ht1
    by (unfold s1; destruct (Qle_bool (protein_goal s) 0); reflexivity).
  assert (0 < weight -> 0 < protein_goal s1) as Hg1.
  { intros Hw. unfold s1. destruct (Qle_bool (protein_goal s) 0) eqn:Hgoal; simpl.
    - lra.
    - now apply qle_bool_false. }
  clearbody s1.
  set (s2 := match ev with
             | ClickAdd manual_amount =>
                 set_protein_today (protein_today s1 + manual_amount) s1
             | ClickEstimate reply =>
                 if negb (Qle_bool (estimate_protein_from_image client reply) 0)
                 then set_protein_today
                        (protein_today s1 + estimate_protein_from_image client reply) s1
                 else s1
             | _ => s1
             end).
  assert (0 <= protein_today s2 /\ protein_goal s2 = protein_goal s1) as [Ht2 Hg2].
  { unfold s2. destruct ev as [| a | reply |]; simpl in *; rewrite ?Ht1; auto.
    - split; [lra | reflexivity].
    - pose proof (estimate_protein_nonneg client reply) as Hest.
      destruct (Qle_bool (estimate_protein_from_image client reply) 0);
        simpl; rewrite ?Ht1; split; try reflexivity; lra. }
  clearbody s2.
  set (bl := Py.ge (protein_today s2) (protein_goal s1)
             && negb (Qle_bool (protein_goal s1) 0)
             && negb (bool_decide (protein_celebrated_date s2 = Some today))).
  set (s3 := if bl then set_protein_celebrated_date (Some today) s2 else s2).
  assert (protein_today s3 = protein_today s2 /\ protein_goal s3 = protein_goal s2)
    as [Ht3 Hg3] by (unfold s3; destruct bl; split; reflexivity).
  simpl. split; [| split].
  - eexists. split; [reflexivity |]. simpl.
    destruct (Qle_bool (protein_goal s1) 0) eqn:Hgoal; simpl; [lra |].
    apply qle_bool_false in Hgoal.
    split; [| apply py_min_le_r].
    apply py_min_glb; [| lra].
    apply Qle_shift_div_l; [exact Hgoal | lra].
  - destruct ev; simpl; rewrite ?Ht3; try exact Ht2. apply Qle_refl.
  - intros Hw. specialize (Hg1 Hw).
    destruct ev; simpl; rewrite ?Hg3, ?Hg2; exact Hg1.
Qed.

Lemma protein_gauge_in_range_witness :
  let s := profile_submitted 70 init_protein in
  0 <= protein_today s /\ within_bounds (ClickAdd 30)
  /\ 0 <= protein_today (page_protein true (Some 70) 739000 (ClickAdd 30) s).1.
Proof.
  intros s.
  assert (0 <= protein_today s) as H1 by (vm_compute; discriminate).
  assert (within_bounds (ClickAdd 30)) as H2 by (vm_compute; discriminate).
  split; [exact H1 |]. split; [exact H2 |].
  exact (proj1 (proj2 (protein_gauge_in_range true 70 739000 (ClickAdd 30) s H1 H2))).
Defined.

Lemma page_protein_celebrated (client : bool) (weight : option Q) (today : Z)
    (ev : protein_event) (s : protein_state) :
  protein_celebrated_date s = Some today ->
  protein_celebrated_date (page_protein client weight today ev s).1 = Some today
  /\ forall v, (page_protein client weight today ev s).2 = Some v -> balloons v = false.
Proof.
  intros Hc. unfold page_protein. destruct weight as [weight |]; [| split; [exact Hc | discriminate]].
  cbv zeta.
  set (s1 := if Qle_bool (protein_goal s) 0 then set_protein_goal (weight * 2) s else s).
  assert (protein_celebrated_date s1 = Some today) as Hc1
    by (unfold s1; destruct (Qle_bool (protein_goal s) 0); exact Hc).
  clearbody s1.
  set (s2 := match ev with
             | ClickAdd manual_amount =>
                 set_protein_today (protein_today s1 + manual_amount) s1
             | ClickEstimate reply =>
                 if negb (Qle_bool (estimate_protein_from_image client reply) 0)
                 then set_protein_today
                        (protein_today s1 + estimate_protein_from_image client reply) s1
                 else s1
             | _ => s1
             end).
  assert (protein_celebrated_date s2 = Some today) as Hc2.
  { unfold s2. destruct ev as [| a | reply |]; simpl; try exact Hc1.
    destruct (Qle_bool (estimate_protein_from_image client reply) 0); simpl; exact Hc1. }
  clearbody s2. rewrite Hc2. rewrite bool_decide_eq_true_2 by reflexivity.
  rewrite andb_false_r. cbv iota. simpl. split.
  - destruct ev; simpl; exact Hc2.
  - intros v [= <-]. reflexivity.
Qed.

Lemma protein_day_celebrated (client : bool) (today : Z) (inputs : list protein_input)
    (s : protein_state) :
  protein_celebrated_date s = Some today ->
  protein_celebrated_date (protein_day client today inputs s) = Some today.
Proof.
  unfold protein_day. revert s.
  induction inputs as [| i inputs IH]; intros s Hc; simpl; [exact Hc |].
  apply IH. destruct i as [w | w ev]; simpl; [exact Hc |].
  now apply page_protein_celebrated.
Qed.

(** Extra X24.  The balloons of the protein page show at most once a
    day: after a run that shows them, no later run of the same day shows
    them again, whatever is added, reset or submitted in between. *)
Theorem protein_balloons_once_a_day (client : bool) (today : Z)
    (weight weight' : option Q) (ev ev' : protein_event)
    (inputs : list protein_input) (s : protein_state) (v : protein_view)
    (Hview : (page_protein client weight today ev s).2 = Some v)
    (Hballoons : balloons v = true) :
  let s1 := (page_protein client weight today ev s).1 in
  let s2 := protein_day client today inputs s1 in
  forall v', (page_protein client weight' today ev' s2).2 = Some v' ->
             balloons v' = false.
Proof.
  intros s1 s2 v' Hv'.
  assert (protein_celebrated_date s1 = Some today) as Hc1.
  { unfold s1. unfold page_protein in *. destruct weight as [w |]; [| discriminate].
    cbv zeta in *. simpl in Hview. injection Hview as <-. simpl in Hballoons.
    rewrite Hballoons. destruct ev; reflexivity. }
  pose proof (protein_day_celebrated client today inputs s1 Hc1) as Hc2.
  exact (proj2 (page_protein_celebrated client weight' today ev' s2 Hc2) v' Hv').
Qed.

Lemma protein_balloons_once_a_day_witness :
  let s := profile_submitted 70 init_protein in
  let s1 := (page_protein true (Some 70) 739000 (ClickAdd 150) s).1 in
  let s2 := protein_day true 739000 [ProteinPage (Some 70) ClickReset] s1 in
  (exists v, (page_protein true (Some 70) 739000 (ClickAdd 150) s).2 = Some v
             /\ balloons v = true)
  /\ forall v', (page_protein true (Some 70) 739000 (ClickAdd 200) s2).2 = Some v' ->
                balloons v' = false.
Proof.
  intros s s1 s2.
  assert ((page_protein true (Some 70) 739000 (ClickAdd 150) s).2
          = Some {| ratio := 1; goal_reached := true; balloons := true |}) as Hv
    by (vm_compute; reflexivity).
  split; [eexists; split; [exact Hv | reflexivity] |].
  exact (protein_balloons_once_a_day true 739000 (Some 70) (Some 70)
           (ClickAdd 150) (ClickAdd 200) [ProteinPage (Some 70) ClickReset] s _ Hv eq_refl).
Defined.

End ProteinProofs.

(** ** The pages of the formula-driven script *)

Module UpdatedAppProofs.

Import Updated UpdatedApp UpdatedProofs PlanProofs.
Local Open Scope Z_scope.

Lemma tick_all_lookup (ticks : string -> bool) (plan : list plan_item)
    (done : gmap string bool) (i : string) :
  tick_all ticks plan done !! i
  = if bool_decide (i ∈ id <$> plan) then Some (ticks i) else done !! i.
Proof.
  unfold tick_all. revert done.
  induction plan as [| item plan IH]; intros done.
  - cbn. case_bool_decide as H; [apply elem_of_nil in H; contradiction | reflexivity].
  - cbn [foldl]. rewrite IH, fmap_cons.
    case_bool_decide as H1; case_bool_decide as H2; try reflexivity.
    + exfalso. apply H2. now right.
    + apply elem_of_cons in H2 as [-> | H2]; [| contradiction].
      now rewrite lookup_insert_eq.
    + rewrite lookup_insert_ne; [reflexivity |]. intros <-. apply H2. left.
Qed.








Lemma plan_fits_fresh (s' : app_state) (p' : profile_t) (benchmark : Q) :
  profile s' = Some p' -> 1 <= sessions_per_week p' <= 7 ->
  week_plan s' = generate_week_plan benchmark (sessions_per_week p') (current_week_index s') ->
  workout_done s' = ∅ -> 0 <= current_week_index s' ->
  plan_fits s'.
Proof.
  intros Hp Hs Hw Hd Hi. unfold plan_fits. rewrite Hp, Hd.
  split; [exact Hi |]. split.
  - intros i [x Hx]. rewrite lookup_empty in Hx. discriminate.
  - split; [exact Hs |]. now exists benchmark.
Qed.

Lemma page_initial_settings_fits (ev : event) (s : app_state) :
  within_bounds ev -> plan_fits s -> plan_fits (page_initial_settings ev s).
Proof.
  intros Hb Hs. destruct ev as [| h w c n today | | |]; try exact Hs.
  simpl in Hb. unfold page_initial_settings, log_training_snapshot. cbv zeta. simpl.
  eapply plan_fits_fresh;
    [reflexivity | exact Hb | reflexivity | reflexivity | simpl; lia].
Qed.

Lemma page_training_week_fits (ticks : string -> bool) (ev : event) (s : app_state) :
  within_bounds ev -> plan_fits s -> plan_fits (page_training_week ticks ev s).1.
Proof.
  intros Hb Hs. unfold page_training_week.
  destruct (profile s) as [p |] eqn:Hp; [| exact Hs].
  destruct (Py.truthy (week_plan s)); [| exact Hs]. simpl negb. cbv iota zeta beta.
  set (s1 := set_workout_done (tick_all ticks (week_plan s) (workout_done s)) s).
  assert (plan_fits s1) as Hs1.
  { destruct Hs as (H1 & H2 & H3). unfold plan_fits, s1. simpl. rewrite Hp in *.
    split; [exact H1 |]. split; [| exact H3].
    intros i Hi. rewrite tick_all_lookup in Hi.
    case_bool_decide as Hin; [exact Hin | exact (H2 i Hi)]. }
  assert (profile s1 = Some p) as Hp1 by exact Hp.
  clearbody s1.
  set (rate := success_rate (week_plan s) (workout_done s1)). clearbody rate.
  set (s2 := match ev with ClickReview => set_show_week_summary true s1 | _ => s1 end).
  assert (plan_fits s2 /\ profile s2 = Some p) as [Hs2 Hp2].
  { unfold s2. destruct ev; split; assumption. }
  clearbody s2.
  destruct (show_week_summary s2); [| exact Hs2].
  set (s3 := if Py.ge rate 1 && negb (celebrated_this_week s2)
             then set_celebrated_this_week true s2 else s2).
  assert (plan_fits s3 /\ profile s3 = Some p) as [Hs3 Hp3].
  { unfold s3. destruct (Py.ge rate 1 && negb (celebrated_this_week s2));
      split; assumption. }
  clearbody s3.
  destruct ev as [| h w c n today | | n today |]; rewrite ?Hp3; try exact Hs3.
  simpl in Hb. simpl fst.
  unfold create_next_week, log_training_snapshot. cbv zeta. simpl.
  destruct Hs3 as (H1 & _).
  eapply plan_fits_fresh;
    [reflexivity | exact Hb | reflexivity | reflexivity | simpl; lia].
Qed.

Lemma page_progress_fits (ev : event) (s : app_state) :
  plan_fits s -> plan_fits (page_progress_and_roadmap ev s).
Proof.
  intros Hs. unfold page_progress_and_roadmap, log_training_snapshot.
  destruct (profile s) as [p |] eqn:Hp; [| exact Hs].
  destruct ev as [| | | | today test_date test_1rm]; try exact Hs.
  destruct (Qle_bool test_1rm 0); [exact Hs |]. simpl.
  destruct Hs as (H1 & H2 & H3). rewrite Hp in H3.
  unfold plan_fits. simpl. auto.
Qed.

Lemma main_fits (ticks : string -> bool) (ev : event) (s : app_state) :
  within_bounds ev -> plan_fits s -> plan_fits (main ticks ev s).
Proof.
  intros Hb Hs. unfold main. cbv zeta.
  pose proof (page_training_week_fits ticks ev _ Hb (page_initial_settings_fits ev s Hb Hs))
    as H2.
  destruct (page_training_week ticks ev (page_initial_settings ev s)) as [s2 [|]];
    simpl in H2; [exact H2 |].
  now apply page_progress_fits.
Qed.

Lemma session_fits (runs : list ((string -> bool) * event)) (s : app_state) :
  Forall (fun r => within_bounds r.2) runs -> plan_fits s -> plan_fits (session runs s).
Proof.
  unfold session. revert s.
  induction runs as [| r runs IH]; intros s Hb Hs; simpl; [exact Hs |].
  apply Forall_cons in Hb as [Hr Hb]. apply IH; [exact Hb |]. now apply main_fits.
Qed.

(** Extra X26.  In the formula-driven script the plan on display always
    fits the profile.  After any runs whose session counts respect the
    bounds of their inputs (1 to 7), started from a fresh session: the
    week index is not negative and only items of the plan on display are
    ticked; without a profile there is no plan; with a profile the plan
    is one generated for exactly the profile's session count and the
    current week index, so it has ten items per session and the training
    page never reports a missing plan. *)
Theorem plan_always_fits_the_profile (runs : list ((string -> bool) * event))
    (Hbounds : Forall (fun r => within_bounds r.2) runs) :
  let s := session runs init_state in
  0 <= current_week_index s
  /\ (forall i, is_Some (workout_done s !! i) -> i ∈ id <$> week_plan s)
  /\ match profile s with
     | None => week_plan s = []
     | Some p =>
         1 <= sessions_per_week p <= 7
         /\ (exists benchmark,
               week_plan s
               = generate_week_plan benchmark (sessions_per_week p) (current_week_index s))
         /\ length (week_plan s) = (10 * Z.to_nat (sessions_per_week p))%nat
         /\ Py.truthy (week_plan s) = true
     end.
Proof.
  intros s.
  assert (plan_fits init_state) as Hinit.
  { split; [simpl; lia |]. split; [| reflexivity].
    intros i [x Hx]. simpl in Hx. rewrite lookup_empty in Hx. discriminate. }
  destruct (session_fits runs init_state Hbounds Hinit) as (H1 & H2 & H3).
  fold s in H1, H2, H3.
  split; [exact H1 |]. split; [exact H2 |].
  destruct (profile s) as [p |]; [| exact H3].
  destruct H3 as (Hs & b & Hplan).
  split; [exact Hs |]. split; [now exists b |].
  assert (length (week_plan s) = (10 * Z.to_nat (sessions_per_week p))%nat) as Hlen.
  { rewrite Hplan, generate_week_plan_blocks.
    rewrite (bind_length_const _ 10) by (intros; apply session_block_length).
    now rewrite length_seqZ. }
  split; [exact Hlen |].
  destruct (week_plan s); [simpl in Hlen; lia | reflexivity].
Qed.

Lemma plan_always_fits_the_profile_witness :
  let runs := [ (fun _ : string => false, SubmitProfile 170 70 80 2 739000);
                (fun _ : string => true, ClickReview);
                (fun _ : string => true, ClickNextWeek 3 739007) ] in
  Forall (fun r => within_bounds r.2) runs
  /\ 0 <= current_week_index (session runs init_state).
Proof.
  intros runs.
  assert (Forall (fun r => within_bounds r.2) runs) as H
    by (repeat constructor; simpl; lia).
  split; [exact H |].
  exact (proj1 (plan_always_fits_the_profile runs H)).
Defined.

End UpdatedAppProofs.
